(** * TaskScheduler: a shallow embedding of generate_template_prototype3.py

    The Python class [TaskScheduler] keeps two collections:
    - [self.tasks], a [dict] from task name to its definition
      ([intervals], [start_date]); its iteration order (insertion order) is
      observable through [generate_schedule], so it is an association list
      with Python's "replace in place, else append at the end" update;
    - [self.schedule], a [defaultdict(list)] from date to the list of task
      names due that date; its key order is never observable (the only
      iteration is over [sorted(self.schedule.keys())]), so it is a [gmap].

    A [datetime.date] is represented by its proleptic Gregorian ordinal
    (the value of [date.toordinal()]), an integer between 1 (0001-01-01)
    and [_MAXORDINAL] (9999-12-31); date comparison is comparison of
    ordinals.  Python integers are [Z].  The methods mutate the scheduler
    and may raise [OverflowError] from date arithmetic; they are embedded
    in a state-and-exception monad in which the state survives a raised
    exception, as the Python object does.

    The console part ([print_monthly_calendar] and [main]) prints, reads
    lines and writes files; it is embedded over a [world] that holds the
    scheduler together with the output written so far, the input lines
    still to be read and the files written.  [datetime.date.today()] is a
    parameter, the same during a run; the built-in functions the menu
    applies to its input ([int], [str.strip], [strptime],
    [os.path.abspath]) are parameters of the menu loop, and so is the
    answer of the file system to an export. *)

From Stdlib Require Import ZArith String Ascii List Lia.
From stdpp Require Import gmap strings list fin_maps sorting pretty.

Local Open Scope Z_scope.

(** ** Exceptions and results *)

Inductive exn : Type :=
| OverflowError.

Inductive res (A : Type) : Type :=
| Ok (a : A)
| Raise (e : exn).
Arguments Ok {A} a.
Arguments Raise {A} e.

(** ** datetime: the part of the standard module the class uses *)

Module Datetime.

Definition MINYEAR : Z := 1.
Definition MAXYEAR : Z := 9999.
(** [date.max.toordinal()], the ordinal of 9999-12-31. *)
Definition _MAXORDINAL : Z := 3652059.

(** [datetime.timedelta(days=d)]: only the day count is used here; the
    constructor refuses magnitudes above 999999999 days. *)
Definition timedelta (days : Z) : res Z :=
  if Z.abs days <=? 999999999 then Ok days else Raise OverflowError.

(** [date.__add__]: [o = self.toordinal() + other.days]; the result is
    [date.fromordinal(o)] when [0 < o <= _MAXORDINAL], otherwise
    [OverflowError("result out of range")]. *)
Definition date_add_days (d : Z) (td : Z) : res Z :=
  let o := d + td in
  if (0 <? o) && (o <=? _MAXORDINAL) then Ok o else Raise OverflowError.

(** [d + datetime.timedelta(days=n)]. *)
Definition date_plus (d : Z) (n : Z) : res Z :=
  match timedelta n with
  | Ok td => date_add_days d td
  | Raise e => Raise e
  end.

(** A value of type [datetime.date]. *)
Definition is_date (d : Z) : Prop := 1 <= d <= _MAXORDINAL.

(** [date.weekday()]: Monday is 0, Sunday is 6. *)
Definition weekday (d : Z) : Z := (d + 6) mod 7.

Definition _DAYS_IN_MONTH : list Z :=
  [-1; 31; 28; 31; 30; 31; 30; 31; 31; 30; 31; 30; 31].
Definition _DAYS_BEFORE_MONTH : list Z :=
  [-1; 0; 31; 59; 90; 120; 151; 181; 212; 243; 273; 304; 334].

Definition _is_leap (year : Z) : bool :=
  (year mod 4 =? 0) && (negb (year mod 100 =? 0) || (year mod 400 =? 0)).

Definition _days_before_year (year : Z) : Z :=
  let y := year - 1 in
  y * 365 + y / 4 - y / 100 + y / 400.

Definition _days_in_month (year month : Z) : Z :=
  if (month =? 2) && _is_leap year then 29
  else nth (Z.to_nat month) _DAYS_IN_MONTH 0.

Definition _days_before_month (year month : Z) : Z :=
  nth (Z.to_nat month) _DAYS_BEFORE_MONTH 0
  + (if (2 <? month) && _is_leap year then 1 else 0).

Definition _ymd2ord (year month day : Z) : Z :=
  _days_before_year year + _days_before_month year month + day.

Definition _DI400Y : Z := Eval cbv in _days_before_year 401.
Definition _DI100Y : Z := Eval cbv in _days_before_year 101.
Definition _DI4Y : Z := Eval cbv in _days_before_year 5.

(** [_ord2ymd(n)]: ordinal to (year, month, day), as in the standard
    library's pure Python implementation. *)
Definition _ord2ymd (n : Z) : Z * Z * Z :=
  let n := n - 1 in
  let n400 := n / _DI400Y in
  let n := n mod _DI400Y in
  let year := n400 * 400 + 1 in
  let n100 := n / _DI100Y in
  let n := n mod _DI100Y in
  let n4 := n / _DI4Y in
  let n := n mod _DI4Y in
  let n1 := n / 365 in
  let n := n mod 365 in
  let year := year + (n100 * 100 + n4 * 4 + n1) in
  if (n1 =? 4) || (n100 =? 4) then (year - 1, 12, 31)
  else
    let leapyear := (n1 =? 3) && (negb (n4 =? 24) || (n100 =? 3)) in
    let month := Z.shiftr (n + 50) 5 in
    let preceding :=
      nth (Z.to_nat month) _DAYS_BEFORE_MONTH 0
      + (if (2 <? month) && leapyear then 1 else 0) in
    if n <? preceding then
      let month := month - 1 in
      let preceding :=
        preceding - (nth (Z.to_nat month) _DAYS_IN_MONTH 0
                     + (if (month =? 2) && leapyear then 1 else 0)) in
      (year, month, n - preceding + 1)
    else (year, month, n - preceding + 1).

(** The [width] low decimal digits of a non-negative number, zero-padded
    on the left: what [%m] and [%d] (width 2) print for the month and the
    day of a date, neither of which needs more digits. *)
Definition digit (n : Z) : ascii :=
  ascii_of_nat (48 + Z.to_nat (n mod 10)).

Fixpoint zero_padded (width : nat) (n : Z) : string :=
  match width with
  | O => EmptyString
  | S w => (zero_padded w (n / 10) ++ String (digit n) EmptyString)%string
  end.

(** [date.strftime('%Y-%m-%d')] as CPython gives it through the
    [strftime] of the C library (glibc): [%Y] is the year in decimal
    without padding, so a year below 1000 has fewer than four digits
    ([999-12-31]); [%m] and [%d] have two digits. *)
Definition strftime_Y_m_d (d : Z) : string :=
  let '(y, m, dd) := _ord2ymd d in
  (pretty y ++ "-" ++ zero_padded 2 m ++ "-" ++ zero_padded 2 dd)%string.

End Datetime.

(** ** calendar *)

Module Calendar.

(** [calendar.day_name[i]] in the C locale (the program never calls
    [locale.setlocale]). Indexing outside 0..6 does not occur: the index
    is always a [weekday()]. *)
Definition day_name (i : Z) : string :=
  nth (Z.to_nat i)
    ["Monday"; "Tuesday"; "Wednesday"; "Thursday"; "Friday"; "Saturday";
     "Sunday"]%string ""%string.

End Calendar.

(** ** The scheduler state *)

(** The value stored under a task name:
    [{'intervals': intervals, 'start_date': start_date}]. *)
Module Task.
Record info : Type := Info {
  intervals : list Z;
  start_date : Z
}.
End Task.

Record TaskScheduler : Type := Scheduler {
  tasks : list (string * Task.info);
  schedule : gmap Z (list string)
}.

(** [TaskScheduler()]: [__init__]. *)
Definition init : TaskScheduler :=
  {| tasks := []; schedule := ∅ |}.

(** A method body: reads and writes the scheduler, returns or raises. *)
Definition M (A : Type) : Type := TaskScheduler -> res A * TaskScheduler.

Definition ret {A} (a : A) : M A := fun s => (Ok a, s).

Definition bind {A B} (m : M A) (k : A -> M B) : M B :=
  fun s =>
    match m s with
    | (Ok a, s') => k a s'
    | (Raise e, s') => (Raise e, s')
    end.

Definition lift {A} (r : res A) : M A := fun s => (r, s).

Notation "'let!' x ':=' m 'in' k" := (bind m (fun x => k))
  (at level 10, x name, m at level 100, k at level 200, only parsing).
Notation "'run!' m 'in' k" := (bind m (fun _ => k))
  (at level 10, m at level 100, k at level 200, only parsing).

(** [for x in xs: body(x)]; an exception leaves the loop. *)
Fixpoint for_each {A} (xs : list A) (body : A -> M unit) : M unit :=
  match xs with
  | [] => ret tt
  | x :: rest => run! body x in for_each rest body
  end.

(** *** dict and defaultdict primitives *)

(** [d[k] = v] on a Python [dict]: an existing key keeps its position. *)
Fixpoint dict_set (k : string) (v : Task.info)
    (d : list (string * Task.info)) : list (string * Task.info) :=
  match d with
  | [] => [(k, v)]
  | (k', v') :: rest =>
      if decide (k' = k) then (k, v) :: rest
      else (k', v') :: dict_set k v rest
  end.

(** [d.get(k)] on a Python [dict]. *)
Fixpoint dict_get (k : string) (d : list (string * Task.info))
    : option Task.info :=
  match d with
  | [] => None
  | (k', v') :: rest => if decide (k' = k) then Some v' else dict_get k rest
  end.

(** [dd[k]] on a [defaultdict(list)]: a missing key is first bound to a
    new empty list ([__missing__]). *)
Definition dd_getitem (k : Z) (dd : gmap Z (list string))
    : list string * gmap Z (list string) :=
  match dd !! k with
  | Some l => (l, dd)
  | None => ([], <[k := []]> dd)
  end.

(** [dd.get(k, [])]: no [__missing__], the map is not touched. *)
Definition dd_get (k : Z) (dd : gmap Z (list string)) : list string :=
  match dd !! k with
  | Some l => l
  | None => []
  end.

(** [self.tasks[task_name] = info]. *)
Definition set_task (task_name : string) (info : Task.info) : M unit :=
  fun s => (Ok tt, {| tasks := dict_set task_name info (tasks s);
                      schedule := schedule s |}).

(** [self.schedule[review_date].append(task_name)]: the list bound to the
    key (created empty if the key is missing) grows in place. *)
Definition schedule_append (review_date : Z) (task_name : string) : M unit :=
  fun s =>
    let '(l, dd) := dd_getitem review_date (schedule s) in
    (Ok tt, {| tasks := tasks s;
               schedule := <[review_date := l ++ [task_name]]> dd |}).

(** [self.schedule = defaultdict(list)]. *)
Definition clear_schedule : M unit :=
  fun s => (Ok tt, {| tasks := tasks s; schedule := ∅ |}).

(** [self.tasks.items()]. *)
Definition tasks_items : M (list (string * Task.info)) :=
  fun s => (Ok (tasks s), s).

(** [self.schedule[date]] read on its own (as in the export loop). *)
Definition schedule_getitem (date : Z) : M (list string) :=
  fun s =>
    let '(l, dd) := dd_getitem date (schedule s) in
    (Ok l, {| tasks := tasks s; schedule := dd |}).

(** [sorted(dd.keys())]: the keys are distinct dates, so the result does
    not depend on the sorting algorithm. *)
Definition keys_sorted (dd : gmap Z (list string)) : list Z :=
  merge_sort Z.le (map fst (map_to_list dd)).

(** [sorted(self.schedule.keys())]. *)
Definition sorted_keys : M (list Z) :=
  fun s => (Ok (keys_sorted (schedule s)), s).

(** [', '.join(names)]. *)
Definition join_comma_space (names : list string) : string :=
  String.concat ", " names.

(** A row handed to [csv.writer.writerow]: the list of its fields. *)
Definition row : Type := list string.

(** ** The methods of TaskScheduler

    [today] is the value [datetime.date.today()] has during the call. *)

Section Methods.

Variable today : Z.

Definition add_task (task_name : string) (intervals : list Z)
    (start_date : option Z) : M unit :=
  let start_date := default today start_date in
  run! set_task task_name
         {| Task.intervals := intervals; Task.start_date := start_date |} in
  for_each intervals (fun interval =>
    let! review_date := lift (Datetime.date_plus start_date interval) in
    schedule_append review_date task_name).

(** The loop of [add_task_with_repetitions]:
    [for _ in range(n): intervals.append(current_interval);
     current_interval += interval]. *)
Fixpoint repetition_loop (n : nat) (interval : Z)
    (intervals : list Z) (current_interval : Z) : list Z :=
  match n with
  | O => intervals
  | S n' =>
      repetition_loop n' interval (intervals ++ [current_interval])
        (current_interval + interval)
  end.

Definition add_task_with_repetitions (task_name : string)
    (interval repetitions : Z) (start_date : option Z) : M unit :=
  let start_date := default today start_date in
  let intervals := repetition_loop (Z.to_nat repetitions) interval [] 0 in
  add_task task_name intervals (Some start_date).

Definition generate_schedule (days : Z) : M unit :=
  let start_date := today in
  let! end_date := lift (Datetime.date_plus start_date days) in
  run! clear_schedule in
  let! items := tasks_items in
  for_each items (fun '(task_name, task_info) =>
    for_each (Task.intervals task_info) (fun interval =>
      let! review_date :=
        lift (Datetime.date_plus (Task.start_date task_info) interval) in
      if (start_date <=? review_date) && (review_date <=? end_date)
      then schedule_append review_date task_name
      else ret tt)).

Definition get_tasks_for_date (date : Z) : M (list string) :=
  fun s => (Ok (dd_get date (schedule s)), s).

(** The loop of [export_to_csv] over [sorted_dates]; [written] is what
    the writer has received so far. *)
Fixpoint export_loop (sorted_dates : list Z) (written : list row)
    : M (list row) :=
  match sorted_dates with
  | [] => ret written
  | date :: rest =>
      let day_name := Calendar.day_name (Datetime.weekday date) in
      let! names := schedule_getitem date in
      let tasks := join_comma_space names in
      export_loop rest
        (written ++ [[Datetime.strftime_Y_m_d date; day_name; tasks]])
  end.

(** [export_to_csv(filename)] returns [filename]; the second component
    is the content it writes, as the sequence of rows given to the csv
    writer (header first).  What the file system does with the rows, and
    the exception it may raise instead of taking them, is [write_file] of
    the console layer. *)
Definition export_to_csv (filename : string) : M (string * list row) :=
  let header := ["Date"; "Day"; "Tasks"]%string in
  let! sorted_dates := sorted_keys in
  let! written := export_loop sorted_dates [header] in
  ret (filename, written).

End Methods.

(** ** Sequences of calls *)

(** A call of one of the scheduler's operations, with its arguments
    ([None] for an omitted optional argument). *)
Inductive op : Type :=
| AddTask (task_name : string) (intervals : list Z) (start_date : option Z)
| AddTaskWithRepetitions (task_name : string) (interval repetitions : Z)
    (start_date : option Z)
| GenerateSchedule (days : option Z)
| GetTasksForDate (date : Z)
| ExportToCsv (filename : option string).

(** The scheduler after a call made while the current date is [today]
    (whether the call returned or raised). *)
Definition call (today : Z) (o : op) (s : TaskScheduler) : TaskScheduler :=
  match o with
  | AddTask n l d => snd (add_task today n l d s)
  | AddTaskWithRepetitions n k r d =>
      snd (add_task_with_repetitions today n k r d s)
  | GenerateSchedule days => snd (generate_schedule today (default 90 days) s)
  | GetTasksForDate d => snd (get_tasks_for_date d s)
  | ExportToCsv f => snd (export_to_csv (default "schedule.csv"%string f) s)
  end.

(** The scheduler after a sequence of calls, each with the date at which
    it is made. *)
Definition run (calls : list (Z * op)) (s : TaskScheduler) : TaskScheduler :=
  fold_left (fun s c => call (fst c) (snd c) s) calls s.

(** The states a scheduler object can be in: [TaskScheduler()] followed by
    any calls. *)
Definition reachable (s : TaskScheduler) : Prop :=
  exists calls, s = run calls init.

(** ** Vocabulary of the properties *)

(** [m], run on [s], returns a list that contains [name]. *)
Definition returns_with (m : M (list string)) (s : TaskScheduler)
    (name : string) : Prop :=
  exists l s', m s = (Ok l, s') /\ In name l.

(** [date] is [start_date + offset] for an offset of the interval list
    of [info]. *)
Definition derived_from (info : Task.info) (date : Z) : Prop :=
  exists offset,
    In offset (Task.intervals info) /\
    Datetime.date_plus (Task.start_date info) offset = Ok date.

(** Every entry [(date, task_name)] of the index is derivable from the
    current definition of [task_name] in the task map. *)
Definition index_derivable (s : TaskScheduler) : Prop :=
  forall date task_name,
    In task_name (dd_get date (schedule s)) ->
    exists info,
      dict_get task_name (tasks s) = Some info /\ derived_from info date.

(** Every date a definition asks for is a [datetime.date]: its start date
    is one and so is [start_date + offset] for each of its offsets. *)
Definition definition_in_range (info : Task.info) : Prop :=
  Datetime.is_date (Task.start_date info) /\
  forall offset, In offset (Task.intervals info) ->
    Datetime.is_date (Task.start_date info + offset).

(** The record the export writes for [date]: the date as
    [strftime('%Y-%m-%d')] gives it, the name of its weekday, the task
    names listed under it joined by [", "]. *)
Definition record_of (s : TaskScheduler) (date : Z) : row :=
  [Datetime.strftime_Y_m_d date;
   Calendar.day_name (Datetime.weekday date);
   join_comma_space (dd_get date (schedule s))].

(** No date key is bound to an empty list. *)
Definition no_empty_key (dd : gmap Z (list string)) : Prop :=
  forall date l, dd !! date = Some l -> l <> [].

(** The offset list [[0, k, 2k, ..., (n-1)k]] in the spec's words. *)
Definition offsets_spec (k n : Z) : list Z :=
  map (fun i => Z.of_nat i * k) (seq 0 (Z.to_nat n)).


(** The task map has each name once (it is a [dict]). *)
Definition names_unique (s : TaskScheduler) : Prop :=
  NoDup (map fst (tasks s)).

(** Two task definitions, added on 2024-01-01 with the default start
    date. *)
Definition two_tasks : TaskScheduler :=
  run [(738886, AddTask "B" [7; 1] None);
       (738886, AddTask "A" [1; 200] None)] init.

(** A task added twice, the second time with another interval list. *)
Definition readded : list (Z * op) :=
  [(738886, AddTask "A" [1] (Some 738886));
   (738886, AddTask "A" [5] (Some 738886))].

(** A task to review on its start date, 0999-12-31 (the date of ordinal
    364877). *)
Definition year_999 : list (Z * op) :=
  [(738886, AddTask "A" [0] (Some 364877))].

(** The name and the definition that an adding call stores. *)
Definition added_definition (today : Z) (o : op)
    : option (string * Task.info) :=
  match o with
  | AddTask n l d =>
      Some (n, {| Task.intervals := l; Task.start_date := default today d |})
  | AddTaskWithRepetitions n k r d =>
      Some (n, {| Task.intervals := repetition_loop (Z.to_nat r) k [] 0;
                  Task.start_date := default today d |})
  | _ => None
  end.

(** The call does not give an existing task name a different definition:
    it adds a new name, or repeats the stored definition, or adds nothing. *)
Definition keeps_definitions (today : Z) (o : op) (s : TaskScheduler)
    : Prop :=
  match added_definition today o with
  | Some (n, info) =>
      dict_get n (tasks s) = None \/ dict_get n (tasks s) = Some info
  | None => True
  end.

(** No call of the sequence, made from [s] on, re-adds an existing task
    name with a different definition. *)
Fixpoint no_redefinition (calls : list (Z * op)) (s : TaskScheduler) : Prop :=
  match calls with
  | [] => True
  | c :: rest =>
      keeps_definitions (fst c) (snd c) s /\
      no_redefinition rest (call (fst c) (snd c) s)
  end.

(** *** Calendar dates, ISO 8601 strings and weekday names *)

(** Day [r] (counted from 0) of the first 400 years converts to a year,
    month and day of those years that convert back to it. *)
Definition cycle_ok (r : Z) : bool :=
  let '(y, m, d) := Datetime._ord2ymd (r + 1) in
  (1 <=? y) && (y <=? 400) && (1 <=? m) && (m <=? 12) && (1 <=? d)
  && (d <=? Datetime._days_in_month y m) && (Datetime._ymd2ord y m d =? r + 1)
  && ((145731 <=? r) || (y <=? 399)).

(** [f] holds of the [n] integers from [lo] on. *)
Fixpoint range_all (f : Z -> bool) (lo : Z) (n : nat) : bool :=
  match n with
  | O => true
  | S k => f lo && range_all f (lo + 1) k
  end.

(** Year, month and day of a date of the proleptic Gregorian calendar
    between 0001-01-01 and 9999-12-31. *)
Definition is_calendar_date (y m d : Z) : Prop :=
  Datetime.MINYEAR <= y <= Datetime.MAXYEAR /\
  1 <= m <= 12 /\ 1 <= d <= Datetime._days_in_month y m.

(** The number a string of decimal digits denotes, read after the digits
    that gave [acc]; [None] if a character is not a digit. *)
Fixpoint decimal_from (acc : Z) (s : string) : option Z :=
  match s with
  | EmptyString => Some acc
  | String c rest =>
      let v := Z.of_nat (nat_of_ascii c) - 48 in
      if (0 <=? v) && (v <=? 9) then decimal_from (10 * acc + v) rest
      else None
  end.

Definition decimal (s : string) : option Z := decimal_from 0 s.

(** [str] is [YYYY-MM-DD] for the calendar date whose ordinal is [date]:
    four digits of year, two of month, two of day. *)
Definition iso_8601 (date : Z) (str : string) : Prop :=
  exists yyyy mm dd y m d,
    str = (yyyy ++ "-" ++ mm ++ "-" ++ dd)%string /\
    String.length yyyy = 4%nat /\ String.length mm = 2%nat /\
    String.length dd = 2%nat /\
    decimal yyyy = Some y /\ decimal mm = Some m /\ decimal dd = Some d /\
    is_calendar_date y m d /\ Datetime._ymd2ord y m d = date.



(** *** The effect of the loops, as pure functions (used in the proofs) *)

(** One [self.schedule[date].append(name)]. *)
Definition index_append (dd : gmap Z (list string)) (e : string * Z)
    : gmap Z (list string) :=
  <[snd e := dd_get (snd e) dd ++ [fst e]]> dd.

Definition append_entries (es : list (string * Z))
    (dd : gmap Z (list string)) : gmap Z (list string) :=
  fold_left index_append es dd.

(** The dates that the loop over an interval list appends to, up to the
    first offset whose date cannot be computed, and the loop's outcome. *)
Fixpoint loop_dates (keep : Z -> bool) (start : Z) (l : list Z)
    : list Z * res unit :=
  match l with
  | [] => ([], Ok tt)
  | offset :: rest =>
      match Datetime.date_plus start offset with
      | Ok date =>
          let '(ds, r) := loop_dates keep start rest in
          (if keep date then date :: ds else ds, r)
      | Raise e => ([], Raise e)
      end
  end.

(** The same for the loop over the task map in [generate_schedule]. *)
Fixpoint regen_entries (keep : Z -> bool) (items : list (string * Task.info))
    : list (string * Z) * res unit :=
  match items with
  | [] => ([], Ok tt)
  | (name, info) :: rest =>
      match loop_dates keep (Task.start_date info) (Task.intervals info) with
      | (ds, Ok _) =>
          let '(es, r) := regen_entries keep rest in
          (map (pair name) ds ++ es, r)
      | (ds, Raise e) => (map (pair name) ds, Raise e)
      end
  end.

Definition in_window (lo hi : Z) (date : Z) : bool :=
  (lo <=? date) && (date <=? hi).

(** *** Vocabulary of the index contents *)

(** How many offsets of [l] give [date] when added to [start]. *)
Definition hits (start : Z) (l : list Z) (date : Z) : nat :=
  length (filter (fun offset => start + offset = date) l).

(** What a regenerated index lists under [date]: the names of the task map,
    in its order, each once for every offset of its definition that gives
    [date]. *)
Definition regenerated_names (items : list (string * Task.info)) (date : Z)
    : list string :=
  flat_map (fun item =>
              replicate (hits (Task.start_date (snd item))
                           (Task.intervals (snd item)) date)
                (fst item)) items.

(** ** The console layer: exceptions, standard streams *)

(** The exceptions of the console layer: those of the date arithmetic, of
    the parsing and calendar functions ([IllegalMonthError] is a subclass
    of [ValueError]), of [input()] at the end of the input, and of the
    file system ([OSError] stands for its subclasses too, such as
    [FileNotFoundError]). *)
Module Py.
Inductive exc : Type :=
| OverflowError
| ValueError
| IllegalMonthError
| EOFError
| OSError.

(** [except ValueError] catches the exception. *)
Definition is_ValueError (e : exc) : bool :=
  match e with
  | ValueError | IllegalMonthError => true
  | _ => false
  end.
End Py.

Inductive outcome (A : Type) : Type :=
| Returned (a : A)
| Raised (e : Py.exc).
Arguments Returned {A} a.
Arguments Raised {A} e.

(** What the program writes to standard output: [print(text)] or the
    prompt of [input(text)]. *)
Inductive event : Type :=
| Print (text : string)
| Prompt (text : string).

(** The scheduler object with its surroundings: what was written to
    standard output so far, the lines still to be read from standard input,
    and the files written completely so far (name and rows, in the order
    of the writes). *)
Record world : Type := World {
  scheduler : TaskScheduler;
  stdout : list event;
  stdin : list string;
  files : list (string * list row)
}.

Definition IO (A : Type) : Type := world -> outcome A * world.

Definition io_ret {A} (a : A) : IO A := fun w => (Returned a, w).

Definition io_bind {A B} (m : IO A) (k : A -> IO B) : IO B :=
  fun w =>
    match m w with
    | (Returned a, w') => k a w'
    | (Raised e, w') => (Raised e, w')
    end.

Definition io_lift {A} (r : outcome A) : IO A := fun w => (r, w).

Notation "'let#' x ':=' m 'in' k" := (io_bind m (fun x => k))
  (at level 10, x name, m at level 100, k at level 200, only parsing).
Notation "'run#' m 'in' k" := (io_bind m (fun _ => k))
  (at level 10, m at level 100, k at level 200, only parsing).

(** [print(text)]. *)
Definition print (text : string) : IO unit :=
  fun w => (Returned tt,
            {| scheduler := scheduler w;
               stdout := stdout w ++ [Print text];
               stdin := stdin w;
               files := files w |}).

(** A method of the scheduler, called from the console layer; an
    [OverflowError] it raises propagates. *)
Definition method {A} (m : M A) : IO A :=
  fun w =>
    let '(r, s) := m (scheduler w) in
    (match r with
     | Ok a => Returned a
     | Raise OverflowError => Raised Py.OverflowError
     end,
     {| scheduler := s; stdout := stdout w; stdin := stdin w;
        files := files w |}).

(** [for x in xs: body(x)] in the console layer. *)
Fixpoint io_for_each {A} (xs : list A) (body : A -> IO unit) : IO unit :=
  match xs with
  | [] => io_ret tt
  | x :: rest => run# body x in io_for_each rest body
  end.

(** The newline character of the string literals. *)
Definition nl : string := String (ascii_of_nat 10) EmptyString.

(** ** calendar and datetime: what the calendar printer uses *)

Module CalendarMonth.

(** [calendar.mdays]. *)
Definition mdays : list Z :=
  [0; 31; 28; 31; 30; 31; 30; 31; 31; 30; 31; 30; 31].

(** [calendar.month_name[i]] in the C locale. *)
Definition month_name (i : Z) : string :=
  nth (Z.to_nat i)
    [""; "January"; "February"; "March"; "April"; "May"; "June"; "July";
     "August"; "September"; "October"; "November"; "December"]%string
    ""%string.

(** [calendar.isleap(year)]. *)
Definition isleap (year : Z) : bool :=
  (year mod 4 =? 0) && (negb (year mod 100 =? 0) || (year mod 400 =? 0)).

(** [calendar.weekday(year, month, day)]: a year outside the range of
    [datetime] is replaced by one with the same calendar. *)
Definition weekday (year month day : Z) : Z :=
  let year :=
    if (Datetime.MINYEAR <=? year) && (year <=? Datetime.MAXYEAR)
    then year else 2000 + year mod 400 in
  Datetime.weekday (Datetime._ymd2ord year month day).

(** [calendar.monthrange(year, month)]: the weekday of the first day of
    the month and the number of its days. *)
Definition monthrange (year month : Z) : outcome (Z * Z) :=
  if (1 <=? month) && (month <=? 12) then
    let day1 := weekday year month 1 in
    let ndays :=
      nth (Z.to_nat month) mdays 0
      + (if (month =? 2) && isleap year then 1 else 0) in
    Returned (day1, ndays)
  else Raised Py.IllegalMonthError.

(** [Calendar(firstweekday=0).itermonthdays(year, month)], as a list. *)
Definition itermonthdays (year month : Z) : outcome (list Z) :=
  match monthrange year month with
  | Returned (day1, ndays) =>
      let days_before := (day1 - 0) mod 7 in
      let days_after := (0 - day1 - ndays) mod 7 in
      Returned (replicate (Z.to_nat days_before) 0
                ++ seqZ 1 ndays
                ++ replicate (Z.to_nat days_after) 0)
  | Raised e => Raised e
  end.

(** [[days[i:i+7] for i in range(0, len(days), 7)]]. *)
Fixpoint weeks_of (fuel : nat) (days : list Z) : list (list Z) :=
  match fuel with
  | O => []
  | S fuel' =>
      match days with
      | [] => []
      | _ => take 7 days :: weeks_of fuel' (drop 7 days)
      end
  end.

(** [calendar.monthcalendar(year, month)]. *)
Definition monthcalendar (year month : Z) : outcome (list (list Z)) :=
  match itermonthdays year month with
  | Returned days => Returned (weeks_of (length days) days)
  | Raised e => Raised e
  end.

(** A Python integer that fits a C [int] (of 32 bits). *)
Definition fits_int (n : Z) : bool :=
  (-2147483648 <=? n) && (n <=? 2147483647).

(** [datetime.date(year, month, day)]: the constructor first converts
    its arguments to C integers, with [OverflowError] for one that does
    not fit, then checks their ranges, with [ValueError]. *)
Definition date (year month day : Z) : outcome Z :=
  if negb (fits_int year && fits_int month && fits_int day)
  then Raised Py.OverflowError
  else if negb ((Datetime.MINYEAR <=? year) && (year <=? Datetime.MAXYEAR))
  then Raised Py.ValueError
  else if negb ((1 <=? month) && (month <=? 12)) then Raised Py.ValueError
  else if negb ((1 <=? day) && (day <=? Datetime._days_in_month year month))
  then Raised Py.ValueError
  else Returned (Datetime._ymd2ord year month day).

(** [d.year] and [d.month]. *)
Definition year_of (d : Z) : Z := fst (fst (Datetime._ord2ymd d)).
Definition month_of (d : Z) : Z := snd (fst (Datetime._ord2ymd d)).

(** [s.rjust(width)]. *)
Definition rjust (width : nat) (s : string) : string :=
  (String.concat "" (replicate (width - String.length s) " ") ++ s)%string.

(** The format [{n:2d}]. *)
Definition format_2d (n : Z) : string := rjust 2 (pretty n).

End CalendarMonth.

(** ** print_monthly_calendar *)

(** [self.schedule.get(date, [])] from the console layer. *)
Definition schedule_get (date : Z) : IO (list string) :=
  fun w => (Returned (dd_get date (schedule (scheduler w))), w).

(** The inner loop of the week grid: [week_str] grows by one cell for
    each day of the week. *)
Fixpoint week_loop (year month : Z) (week : list Z) (week_str : string)
    : IO string :=
  match week with
  | [] => io_ret week_str
  | day :: rest =>
      if day =? 0 then week_loop year month rest (week_str ++ "    ")
      else
        let# date := io_lift (CalendarMonth.date year month day) in
        let# tasks := schedule_get date in
        let task_count := Z.of_nat (length tasks) in
        if 0 <? task_count
        then week_loop year month rest
               (week_str ++ CalendarMonth.format_2d day ++ "* ")
        else week_loop year month rest
               (week_str ++ CalendarMonth.format_2d day ++ "  ")
  end.

(** The line of a day in the list of tasks of the month. *)
Definition task_line (date : Z) (tasks : list string) : string :=
  (Datetime.strftime_Y_m_d date ++ " ("
   ++ Calendar.day_name (Datetime.weekday date) ++ "): "
   ++ join_comma_space tasks)%string.

Definition print_monthly_calendar (today : Z) (year month : option Z)
    : IO unit :=
  let '(year, month) :=
    match year, month with
    | Some y, Some m => (y, m)
    | _, _ => (CalendarMonth.year_of today, CalendarMonth.month_of today)
    end in
  let# cal := io_lift (CalendarMonth.monthcalendar year month) in
  let month_name := CalendarMonth.month_name month in
  run# print (nl ++ month_name ++ " " ++ pretty year) in
  run# print "Mon Tue Wed Thu Fri Sat Sun" in
  run# io_for_each cal (fun week =>
         let# week_str := week_loop year month week "" in
         print week_str) in
  run# print (nl ++ "Tasks this month:") in
  let# range := io_lift (CalendarMonth.monthrange year month) in
  io_for_each (seqZ 1 (snd range)) (fun day =>
    let# date := io_lift (CalendarMonth.date year month day) in
    let# tasks := schedule_get date in
    match tasks with
    | [] => io_ret tt
    | _ => print (task_line date tasks)
    end).

(** *** Vocabulary of the calendar printer *)

(** The index lists at least one task under [date]. *)
Definition has_tasks (s : TaskScheduler) (date : Z) : Prop :=
  dd_get date (schedule s) <> [].

(** The four characters of a day in the week grid: blank for no day, else
    the day number on two columns, a star if the day has tasks, and a
    space. *)
Definition day_cell (s : TaskScheduler) (year month day : Z) : string :=
  if day =? 0 then "    "%string
  else
    (CalendarMonth.format_2d day
     ++ match dd_get (Datetime._ymd2ord year month day) (schedule s) with
        | [] => "  "
        | _ => "* "
        end)%string.

Definition week_row (s : TaskScheduler) (year month : Z) (week : list Z)
    : string :=
  fold_left (fun acc day => (acc ++ day_cell s year month day)%string)
    week ""%string.

(** The dates of the days of a month, in order. *)
Definition month_dates (year month : Z) : list Z :=
  map (Datetime._ymd2ord year month)
    (seqZ 1 (Datetime._days_in_month year month)).

(** The line the calendar printer writes from an export record. *)
Definition line_of_record (r : row) : string :=
  match r with
  | [date; day; tasks] => (date ++ " (" ++ day ++ "): " ++ tasks)%string
  | _ => ""%string
  end.

(** The week grid of a month: [calendar.monthcalendar], empty when it
    raises. *)
Definition month_weeks (year month : Z) : list (list Z) :=
  match CalendarMonth.monthcalendar year month with
  | Returned weeks => weeks
  | Raised _ => []
  end.

(** What [print_monthly_calendar] writes for a month of a scheduler. *)
Definition calendar_output (s : TaskScheduler) (year month : Z)
    : list event :=
  [Print (nl ++ CalendarMonth.month_name month ++ " " ++ pretty year);
   Print "Mon Tue Wed Thu Fri Sat Sun"]
  ++ map (fun week => Print (week_row s year month week))
       (month_weeks year month)
  ++ [Print (nl ++ "Tasks this month:")]
  ++ map (fun date => Print (line_of_record (record_of s date)))
       (filter (has_tasks s) (month_dates year month)).

(** ** main: the menu loop

    [today] is the value of [datetime.date.today()] while the program
    runs.  The built-in functions the loop calls on its input are
    parameters: [int_of] is [int] ([None] for [ValueError]), [strip] is
    [str.strip], [strptime_date] is
    [datetime.datetime.strptime(s, "%Y-%m-%d").date()] ([None] for
    [ValueError]) and [abspath] is [os.path.abspath].  The file system
    is a parameter too: [file_error filename rows] is the exception that
    writing the file raises, if any. *)

(** [input(prompt)]: the prompt is written, a line is read; [EOFError] at
    the end of the input. *)
Definition input (prompt : string) : IO string :=
  fun w =>
    match stdin w with
    | [] =>
        (Raised Py.EOFError,
         {| scheduler := scheduler w;
            stdout := stdout w ++ [Prompt prompt];
            stdin := [];
            files := files w |})
    | line :: rest =>
        (Returned line,
         {| scheduler := scheduler w;
            stdout := stdout w ++ [Prompt prompt];
            stdin := rest;
            files := files w |})
    end.

(** [try: body  except ValueError: handler]. *)
Definition except_ValueError {A} (body handler : IO A) : IO A :=
  fun w =>
    match body w with
    | (Raised e, w') =>
        if Py.is_ValueError e then handler w' else (Raised e, w')
    | (Returned a, w') => (Returned a, w')
    end.

(** [s.split(',')]. *)
Fixpoint split_comma_from (piece : string) (s : string) : list string :=
  match s with
  | EmptyString => [piece]
  | String c rest =>
      if Ascii.eqb c ","%char then piece :: split_comma_from EmptyString rest
      else split_comma_from (piece ++ String c EmptyString) rest
  end.

Definition split_comma (s : string) : list string :=
  split_comma_from EmptyString s.

(** [with open(filename, 'w', newline='') as csvfile] and the rows
    written to the file.  [file_error filename rows] is the exception
    that opening the file, writing these rows or closing it raises
    ([OSError] for a file that cannot be created, [ValueError] for a
    name with a NUL character), [None] when the file is written.  A file
    is recorded when it is written completely. *)
Definition write_file (file_error : string -> list row -> option Py.exc)
    (filename : string) (rows : list row) : IO unit :=
  fun w =>
    match file_error filename rows with
    | Some e => (Raised e, w)
    | None =>
        (Returned tt,
         {| scheduler := scheduler w;
            stdout := stdout w;
            stdin := stdin w;
            files := files w ++ [(filename, rows)] |})
    end.

(** [scheduler.export_to_csv(filename)] with its file.  Between opening
    the file and closing it the method only reads the scheduler and
    prints nothing, so the moment at which the file system raises is not
    observable: the rows are computed first here. *)
Definition export_file (file_error : string -> list row -> option Py.exc)
    (filename : string) : IO string :=
  let# result := method (export_to_csv filename) in
  run# write_file file_error filename (snd result) in
  io_ret (fst result).

Section Console.

Variable today : Z.
Variable int_of : string -> option Z.
Variable strip : string -> string.
Variable strptime_date : string -> option Z.
Variable abspath : string -> string.
Variable file_error : string -> list row -> option Py.exc.

(** [int(s)]. *)
Definition py_int (s : string) : IO Z :=
  io_lift (match int_of s with
           | Some n => Returned n
           | None => Raised Py.ValueError
           end).

(** [datetime.datetime.strptime(s, "%Y-%m-%d").date()]. *)
Definition py_strptime_date (s : string) : IO Z :=
  io_lift (match strptime_date s with
           | Some d => Returned d
           | None => Raised Py.ValueError
           end).

(** [[int(x.strip()) for x in pieces]]. *)
Fixpoint parse_intervals (pieces : list string) : IO (list Z) :=
  match pieces with
  | [] => io_ret []
  | x :: rest =>
      let# n := py_int (strip x) in
      let# ns := parse_intervals rest in
      io_ret (n :: ns)
  end.

(** The start date typed by the user, today's date for a blank line. *)
Definition read_start_date : IO Z :=
  let# start_date_input :=
    input "Start date (YYYY-MM-DD) or leave blank for today: " in
  match start_date_input with
  | EmptyString => io_ret today
  | _ => py_strptime_date start_date_input
  end.

(** The line of a date with its weekday, as the menu prints it. *)
Definition date_and_day (date : Z) : string :=
  (Datetime.strftime_Y_m_d date ++ " ("
   ++ Calendar.day_name (Datetime.weekday date) ++ ")")%string.

Definition choice_1 : IO unit :=
  let# task_name := input "Enter task/chapter name: " in
  run# print "Enter revision intervals in days (comma-separated)" in
  run# print "Example: 1,3,7,14,30 (review after 1 day, 3 days, etc.)" in
  let# intervals_input := input "Intervals: " in
  except_ValueError
    (let# intervals := parse_intervals (split_comma intervals_input) in
     let# start_date := read_start_date in
     run# method (add_task today task_name intervals (Some start_date)) in
     print ("Task '" ++ task_name ++ "' added successfully!"))
    (print "Invalid input. Please enter valid numbers for intervals.").

Definition choice_2 : IO unit :=
  let# task_name := input "Enter task/chapter name: " in
  except_ValueError
    (let# interval_input :=
       input "Enter interval between repetitions (in days): " in
     let# interval := py_int interval_input in
     let# repetitions_input := input "Enter number of repetitions: " in
     let# repetitions := py_int repetitions_input in
     let# start_date := read_start_date in
     run# method (add_task_with_repetitions today task_name interval
                    repetitions (Some start_date)) in
     run# print (nl ++ "Task '" ++ task_name ++ "' scheduled for:") in
     io_for_each (seqZ 0 repetitions) (fun i =>
       let# review_date :=
         method (lift (Datetime.date_plus start_date (i * interval))) in
       print ("  " ++ date_and_day review_date)))
    (print
       "Invalid input. Please enter valid numbers for interval and repetitions.").

(** [for i, task in enumerate(tasks, 1): print(f"{i}. {task}")]. *)
Fixpoint print_numbered (i : Z) (tasks : list string) : IO unit :=
  match tasks with
  | [] => io_ret tt
  | task :: rest =>
      run# print (pretty i ++ ". " ++ task) in
      print_numbered (i + 1) rest
  end.

Definition choice_3 : IO unit :=
  let# date_input :=
    input "Enter date (YYYY-MM-DD) or leave blank for today: " in
  except_ValueError
    (let# date :=
       match date_input with
       | EmptyString => io_ret today
       | _ => py_strptime_date date_input
       end in
     let# tasks := method (get_tasks_for_date date) in
     run# print (nl ++ "Tasks for " ++ date_and_day date ++ ":") in
     match tasks with
     | [] => print "No tasks scheduled for this date."
     | _ => print_numbered 1 tasks
     end)
    (print "Invalid date format. Please use YYYY-MM-DD.").

Definition choice_4 : IO unit :=
  except_ValueError
    (let# year_input :=
       input "Enter year (YYYY) or leave blank for current year: " in
     let# month_input :=
       input "Enter month (1-12) or leave blank for current month: " in
     let# year :=
       match year_input with
       | EmptyString => io_ret (CalendarMonth.year_of today)
       | _ => py_int year_input
       end in
     let# month :=
       match month_input with
       | EmptyString => io_ret (CalendarMonth.month_of today)
       | _ => py_int month_input
       end in
     print_monthly_calendar today (Some year) (Some month))
    (print "Invalid input. Please enter valid year and month.").

Definition choice_5 : IO unit :=
  let# filename := input "Enter filename (default: schedule.csv): " in
  let filename :=
    match filename with
    | EmptyString => "schedule.csv"%string
    | _ => filename
    end in
  run# method (generate_schedule today 90) in
  let# file_path := export_file file_error filename in
  print ("Schedule exported to " ++ abspath file_path).

(** One turn of [while True]: the menu, the choice and its branch;
    [false] when the loop is left by [break]. *)
Definition menu_turn : IO bool :=
  run# print (nl ++ "Options:") in
  run# print "1. Add a new task/chapter with custom intervals" in
  run# print "2. Add a new task/chapter with fixed interval and repetitions" in
  run# print "3. View schedule for a specific date" in
  run# print "4. View monthly calendar" in
  run# print "5. Export schedule to CSV" in
  run# print "6. Exit" in
  let# choice := input (nl ++ "Enter your choice (1-6): ") in
  if decide (choice = "1"%string) then run# choice_1 in io_ret true
  else if decide (choice = "2"%string) then run# choice_2 in io_ret true
  else if decide (choice = "3"%string) then run# choice_3 in io_ret true
  else if decide (choice = "4"%string) then run# choice_4 in io_ret true
  else if decide (choice = "5"%string) then run# choice_5 in io_ret true
  else if decide (choice = "6"%string) then
    run# print "Thank you for using the Task Scheduler. Goodbye!" in
    io_ret false
  else
    run# print "Invalid choice. Please enter a number between 1 and 6." in
    io_ret true.

(** [while True: ...], for at most [fuel] turns; [None] when the turns
    are used up before the loop is left. *)
Fixpoint menu_loop (fuel : nat) (w : world)
    : option (outcome unit * world) :=
  match fuel with
  | O => None
  | S fuel' =>
      match menu_turn w with
      | (Returned true, w') => menu_loop fuel' w'
      | (Returned false, w') => Some (Returned tt, w')
      | (Raised e, w') => Some (Raised e, w')
      end
  end.

(** [scheduler = TaskScheduler()] and the two lines of the banner. *)
Definition main_start (input_lines : list string) : world :=
  {| scheduler := init;
     stdout := [Print "===== Task Revision Scheduler =====";
                Print "This program helps you schedule when to revise chapters/tasks."];
     stdin := input_lines;
     files := [] |}.

(** [main()] on the lines of standard input: every turn reads a line, so
    one turn more than there are lines is enough. *)
Definition main (input_lines : list string) : option (outcome unit * world) :=
  menu_loop (S (length input_lines)) (main_start input_lines).

End Console.

(** *** Vocabulary of the menu loop *)

(** From [w] to [w']: the scheduler was changed by method calls only and
    lines were read from the front of the input. *)
Definition follows (w w' : world) : Prop :=
  (exists calls, scheduler w' = run calls (scheduler w)) /\
  stdin w' `suffix_of` stdin w.

(** Whatever [m] does, it does by method calls and by reading input. *)
Definition console_ok {A} (m : IO A) : Prop :=
  forall w r w', m w = (r, w') -> follows w w'.

(** Every exception [m] raises is one of [allowed]. *)
Definition raises_only {A} (allowed : Py.exc -> Prop) (m : IO A) : Prop :=
  forall w e w', m w = (Raised e, w') -> allowed e.

(** The exceptions of the code that writes no file. *)
Definition plain (e : Py.exc) : Prop := e <> Py.OSError.

(** What may leave the menu loop: the end of the input, a date out of
    range, or what the file system raised for an export. *)
Definition escapes (file_error : string -> list row -> option Py.exc)
    (e : Py.exc) : Prop :=
  e = Py.EOFError \/ e = Py.OverflowError \/
  exists filename rows, file_error filename rows = Some e.

(** The file name of an export: the line typed, [schedule.csv] for a
    blank line. *)
Definition export_name (line : string) : string :=
  match line with
  | EmptyString => "schedule.csv"%string
  | _ => line
  end.

(** Every stored definition asks for dates only. *)
Definition schedulable (s : TaskScheduler) : Prop :=
  forall name info, In (name, info) (tasks s) -> definition_in_range info.

(** Unless [m] raises [OverflowError], it leaves the stored definitions
    schedulable. *)
Definition keeps_schedulable {A} (m : IO A) : Prop :=
  forall w r w', m w = (r, w') ->
    schedulable (scheduler w) -> r <> Raised Py.OverflowError ->
    schedulable (scheduler w').

(** [m] does not touch the scheduler. *)
Definition leaves_scheduler {A} (m : IO A) : Prop :=
  forall w r w', m w = (r, w') -> scheduler w' = scheduler w.

(** The lines of [for i, task in enumerate(tasks, 1): print(f"{i}. {task}")]. *)
Definition numbered_lines (tasks : list string) : list event :=
  imap (fun i task => Print (pretty (Z.of_nat i + 1) ++ ". " ++ task)) tasks.

(** The pieces of a line are the numbers [L], in order. *)
Definition reads_as (int_of : string -> option Z) (strip : string -> string)
    (line : string) (L : list Z) : Prop :=
  Forall2 (fun piece n => int_of (strip piece) = Some n) (split_comma line) L.

(** The value of an optional input line: [blank] for the empty line, else
    what [parse] makes of it. *)
Definition line_value {A} (parse : string -> option A) (blank : A)
    (line : string) : option A :=
  match line with
  | EmptyString => Some blank
  | _ => parse line
  end.

(** ** Scenarios *)

Definition d_2024_01_01 : Z := 738886.

(** *** Sample surroundings for the examples *)

(** A decimal reader standing for [int] and a date reader that accepts
    nothing, for the examples. *)
Definition sample_int (s : string) : option Z :=
  match s with
  | EmptyString => None
  | _ => decimal s
  end.

Definition sample_strptime (s : string) : option Z := None.

Definition sample_abspath (s : string) : string := ("/home/user/" ++ s)%string.

(** A file system in which one name cannot be created. *)
Definition sample_file_error (filename : string) (rows : list row)
    : option Py.exc :=
  if decide (filename = "/nonexistent/x.csv"%string) then Some Py.OSError
  else None.

(** The scheduler [two_tasks] with nothing written and [lines] to read. *)
Definition sample_world (lines : list string) : world :=
  {| scheduler := two_tasks; stdout := []; stdin := lines; files := [] |}.

(** A session that asks for an export to a file that cannot be
    created. *)
Definition lost_export : list string :=
  ["5"; "/nonexistent/x.csv"; "6"]%string.

(** A session: a task with three repetitions, a wrong choice, an export
    and the exit. *)
Definition sample_session : list string :=
  ["2"; "X"; "7"; "3"; ""; "9"; "5"; ""; "6"]%string.

Example scenario_ChapterA :
  let s := call d_2024_01_01
             (AddTask "ChapterA" [1; 3; 7] (Some d_2024_01_01)) init in
  fst (get_tasks_for_date (d_2024_01_01 + 1) s) = Ok ["ChapterA"%string] /\
  fst (get_tasks_for_date (d_2024_01_01 + 7) s) = Ok ["ChapterA"%string] /\
  fst (get_tasks_for_date (d_2024_01_01 + 9) s) = Ok [].
Proof. vm_compute. auto. Qed.

Example scenario_Y :
  let s := call d_2024_01_01
             (AddTaskWithRepetitions "Y" 0 4 (Some (d_2024_01_01 + 31))) init in
  fst (get_tasks_for_date (d_2024_01_01 + 31) s)
  = Ok ["Y"; "Y"; "Y"; "Y"]%string.
Proof. vm_compute. auto. Qed.

Example scenario_export :
  let s := run [(d_2024_01_01, AddTask "B" [7; 1] None);
                (d_2024_01_01, AddTask "A" [1; 200] None);
                (d_2024_01_01, GenerateSchedule None)] init in
  fst (export_to_csv "out.csv" s) =
  Ok ("out.csv", [["Date"; "Day"; "Tasks"];
                  ["2024-01-02"; "Tuesday"; "B, A"];
                  ["2024-01-08"; "Monday"; "B"]])%string.
Proof. vm_compute. auto. Qed.

(** ** Date arithmetic *)

Lemma date_plus_Ok (start offset : Z) :
  Datetime.is_date start -> Datetime.is_date (start + offset) ->
  Datetime.date_plus start offset = Ok (start + offset).
Proof.
  unfold Datetime.is_date, Datetime.date_plus, Datetime.timedelta,
    Datetime.date_add_days, Datetime._MAXORDINAL.
  intros Hs Hr.
  destruct (Z.leb_spec (Z.abs offset) 999999999); [|lia].
  destruct (Z.ltb_spec 0 (start + offset)); [|lia].
  destruct (Z.leb_spec (start + offset) 3652059); [|lia].
  reflexivity.
Qed.

Lemma date_plus_inv (start offset date : Z) :
  Datetime.date_plus start offset = Ok date ->
  date = start + offset /\ Datetime.is_date date.
Proof.
  unfold Datetime.is_date, Datetime.date_plus, Datetime.timedelta,
    Datetime.date_add_days, Datetime._MAXORDINAL.
  destruct (Z.leb_spec (Z.abs offset) 999999999); [|discriminate].
  destruct (Z.ltb_spec 0 (start + offset)); [|discriminate].
  destruct (Z.leb_spec (start + offset) 3652059); [|discriminate].
  simpl. intros [= <-]. lia.
Qed.

(** ** The index under appends *)

Lemma dd_get_index_append dd e date :
  dd_get date (index_append dd e) =
  if decide (snd e = date) then dd_get date dd ++ [fst e] else dd_get date dd.
Proof.
  unfold index_append, dd_get at 1.
  destruct (decide (snd e = date)) as [->|Hne].
  - by rewrite lookup_insert_eq.
  - by rewrite lookup_insert_ne.
Qed.

Lemma dd_get_append_entries es dd date :
  dd_get date (append_entries es dd) =
  dd_get date dd ++ map fst (filter (fun e => snd e = date) es).
Proof.
  unfold append_entries. revert dd.
  induction es as [|e es IH]; intros dd; simpl.
  - by rewrite app_nil_r.
  - rewrite IH, dd_get_index_append, filter_cons.
    destruct (decide (snd e = date)); simpl; [|done].
    by rewrite <- app_assoc.
Qed.

Lemma elem_of_dd_get_append_entries es dd date name :
  In name (dd_get date (append_entries es dd)) <->
  In name (dd_get date dd) \/ In (name, date) es.
Proof.
  rewrite dd_get_append_entries, in_app_iff.
  apply or_iff_compat_l.
  rewrite <- !list_elem_of_In, list_elem_of_fmap.
  split.
  - intros ([n d] & -> & [Hd Hin]%list_elem_of_filter). simpl in *. by subst.
  - intros Hin. exists (name, date). split; [done|].
    by apply list_elem_of_filter.
Qed.

Lemma lookup_index_append_is_Some dd e date :
  is_Some (index_append dd e !! date) <-> is_Some (dd !! date) \/ snd e = date.
Proof.
  unfold index_append. rewrite lookup_insert_is_Some.
  destruct (decide (snd e = date)); tauto.
Qed.

Lemma lookup_append_entries_is_Some es dd date :
  is_Some (append_entries es dd !! date) <->
  is_Some (dd !! date) \/ In date (map snd es).
Proof.
  unfold append_entries. revert dd.
  induction es as [|e es IH]; intros dd; simpl.
  - tauto.
  - rewrite IH, lookup_index_append_is_Some. tauto.
Qed.

Lemma no_empty_key_index_append dd e :
  no_empty_key dd -> no_empty_key (index_append dd e).
Proof.
  intros Hdd date l. unfold index_append.
  destruct (decide (snd e = date)) as [->|Hne].
  - rewrite lookup_insert_eq. intros [= <-]. by destruct (dd_get _ dd).
  - rewrite lookup_insert_ne by done. apply Hdd.
Qed.

Lemma no_empty_key_append_entries es dd :
  no_empty_key dd -> no_empty_key (append_entries es dd).
Proof.
  unfold append_entries. revert dd.
  induction es as [|e es IH]; intros dd Hdd; simpl; [done|].
  by apply IH, no_empty_key_index_append.
Qed.

(** ** The loops of the methods *)

Lemma schedule_append_eq date name s :
  schedule_append date name s =
  (Ok tt, {| tasks := tasks s;
             schedule := index_append (schedule s) (name, date) |}).
Proof.
  unfold schedule_append, dd_getitem, index_append, dd_get. simpl.
  destruct (schedule s !! date); [done|].
  by rewrite insert_insert_eq.
Qed.

Lemma review_loop_eq (keep : Z -> bool) start name (l : list Z) s :
  for_each l (fun interval =>
    let! review_date := lift (Datetime.date_plus start interval) in
    if keep review_date then schedule_append review_date name else ret tt) s
  = (snd (loop_dates keep start l),
     {| tasks := tasks s;
        schedule := append_entries
                      (map (pair name) (fst (loop_dates keep start l)))
                      (schedule s) |}).
Proof.
  revert s. induction l as [|offset l IH]; intros s; simpl.
  - by destruct s.
  - unfold bind at 1. unfold bind at 1. unfold lift at 1.
    destruct (Datetime.date_plus start offset) as [date|e]; simpl.
    + destruct (loop_dates keep start l) as [ds r]. simpl in IH.
      destruct (keep date); simpl.
      * by rewrite schedule_append_eq, IH.
      * unfold ret at 1. by rewrite IH.
    + by destruct s.
Qed.

Lemma add_task_eq today name l start s :
  let st := default today start in
  add_task today name l start s =
  (snd (loop_dates (fun _ => true) st l),
   {| tasks := dict_set name {| Task.intervals := l; Task.start_date := st |}
                 (tasks s);
      schedule := append_entries
                    (map (pair name) (fst (loop_dates (fun _ => true) st l)))
                    (schedule s) |}).
Proof.
  intros st. unfold add_task. fold st.
  unfold bind at 1, set_task at 1.
  exact (review_loop_eq (fun _ => true) st name l _).
Qed.

Lemma regen_loop_eq (keep : Z -> bool) (items : list (string * Task.info)) s :
  for_each items (fun '(task_name, task_info) =>
    for_each (Task.intervals task_info) (fun interval =>
      let! review_date :=
        lift (Datetime.date_plus (Task.start_date task_info) interval) in
      if keep review_date then schedule_append review_date task_name
      else ret tt)) s
  = (snd (regen_entries keep items),
     {| tasks := tasks s;
        schedule := append_entries (fst (regen_entries keep items))
                      (schedule s) |}).
Proof.
  revert s. induction items as [|[name info] items IH]; intros s; simpl.
  - by destruct s.
  - unfold bind at 1. rewrite review_loop_eq.
    destruct (loop_dates keep _ _) as [ds [[]|e]]; simpl; [|done].
    rewrite IH. simpl.
    destruct (regen_entries keep items) as [es r]; simpl.
    unfold append_entries. by rewrite fold_left_app.
Qed.

Lemma generate_schedule_eq today days s :
  generate_schedule today days s =
  match Datetime.date_plus today days with
  | Ok end_date =>
      (snd (regen_entries (in_window today end_date) (tasks s)),
       {| tasks := tasks s;
          schedule := append_entries
                        (fst (regen_entries (in_window today end_date)
                                (tasks s))) ∅ |})
  | Raise e => (Raise e, s)
  end.
Proof.
  unfold generate_schedule, bind at 1, lift at 1.
  destruct (Datetime.date_plus today days) as [end_date|e]; [|done].
  unfold bind at 1, clear_schedule at 1.
  unfold bind at 1, tasks_items at 1. simpl.
  exact (regen_loop_eq (in_window today end_date) (tasks s) _).
Qed.

(** ** What the loops append *)

Lemma loop_dates_sound keep start l date :
  In date (fst (loop_dates keep start l)) ->
  keep date = true /\
  exists offset, In offset l /\ Datetime.date_plus start offset = Ok date.
Proof.
  induction l as [|offset l IH]; simpl; [done|].
  destruct (Datetime.date_plus start offset) as [d|e] eqn:Hd; [|done].
  destruct (loop_dates keep start l) as [ds r]. simpl in *.
  destruct (keep d) eqn:Hk; simpl.
  - intros [<-|Hin]; [eauto|].
    destruct (IH Hin) as (? & o & ? & ?); eauto.
  - intros Hin. destruct (IH Hin) as (? & o & ? & ?); eauto.
Qed.

Lemma loop_dates_complete keep start l offset date :
  snd (loop_dates keep start l) = Ok tt ->
  In offset l -> Datetime.date_plus start offset = Ok date ->
  keep date = true ->
  In date (fst (loop_dates keep start l)).
Proof.
  induction l as [|o l IH]; simpl; [done|].
  destruct (Datetime.date_plus start o) as [d|e] eqn:Hd; [|done].
  destruct (loop_dates keep start l) as [ds r]. simpl in *.
  intros Hr [->|Hin] Hdate Hk.
  - assert (d = date) as -> by congruence. rewrite Hk. by left.
  - destruct (keep d); [right|]; by apply IH.
Qed.

Lemma loop_dates_returns keep start l :
  (forall offset, In offset l ->
     exists date, Datetime.date_plus start offset = Ok date) ->
  snd (loop_dates keep start l) = Ok tt.
Proof.
  induction l as [|o l IH]; simpl; [done|].
  intros Hall. destruct (Hall o) as [d ->]; [by left|].
  destruct (loop_dates keep start l) as [ds r]. simpl in *.
  apply IH. intros; apply Hall; by right.
Qed.

Lemma loop_dates_raises keep start l e :
  snd (loop_dates keep start l) = Raise e ->
  exists offset, In offset l /\ Datetime.date_plus start offset = Raise e.
Proof.
  induction l as [|o l IH]; simpl; [done|].
  destruct (Datetime.date_plus start o) as [d|e'] eqn:Hd.
  - destruct (loop_dates keep start l) as [ds r]. simpl in *.
    intros Hr. destruct (IH Hr) as (o' & ? & ?); eauto.
  - simpl. intros [= ->]. eauto.
Qed.

Lemma in_pair_map (name n : string) (date : Z) (ds : list Z) :
  In (n, date) (map (pair name) ds) <-> n = name /\ In date ds.
Proof.
  rewrite in_map_iff. split.
  - intros (d & [= <- <-] & Hin). done.
  - intros [-> Hin]. eauto.
Qed.

Lemma regen_entries_sound keep items name date :
  In (name, date) (fst (regen_entries keep items)) ->
  keep date = true /\
  exists info, In (name, info) items /\ derived_from info date.
Proof.
  induction items as [|[n info] items IH]; simpl; [done|].
  destruct (loop_dates keep _ _) as [ds r] eqn:Hl.
  assert (In (name, date) (map (pair n) ds) ->
          keep date = true /\
          exists info0, ((n, info) = (name, info0) \/ In (name, info0) items)
                        /\ derived_from info0 date) as Hhead.
  { intros [-> Hin]%in_pair_map.
    destruct (loop_dates_sound keep (Task.start_date info)
                (Task.intervals info) date) as (Hk & o & Ho & Hd).
    { by rewrite Hl. }
    split; [done|]. exists info. split; [by left|]. by exists o. }
  destruct r as [[]|e]; simpl; [|done].
  destruct (regen_entries keep items) as [es r']. simpl in *.
  rewrite in_app_iff. intros [Hin|Hin]; [by apply Hhead|].
  destruct (IH Hin) as (Hk & info0 & ? & ?). eauto.
Qed.

Lemma regen_entries_complete keep items name info date :
  snd (regen_entries keep items) = Ok tt ->
  In (name, info) items -> derived_from info date -> keep date = true ->
  In (name, date) (fst (regen_entries keep items)).
Proof.
  intros Hr Hin (o & Ho & Hd) Hk.
  induction items as [|[n i] items IH]; simpl in *; [done|].
  destruct (loop_dates keep _ _) as [ds r] eqn:Hl.
  destruct r as [[]|e]; simpl in *; [|done].
  destruct (regen_entries keep items) as [es r']. simpl in *.
  rewrite in_app_iff. destruct Hin as [[= -> ->]|Hin].
  - left. apply in_pair_map. split; [done|].
    replace ds with (fst (loop_dates keep (Task.start_date info)
                            (Task.intervals info))) by by rewrite Hl.
    apply (loop_dates_complete _ _ _ o); [by rewrite Hl|done..].
  - right. by apply IH.
Qed.

Lemma regen_entries_returns keep items :
  (forall name info, In (name, info) items ->
     forall offset, In offset (Task.intervals info) ->
       exists date,
         Datetime.date_plus (Task.start_date info) offset = Ok date) ->
  snd (regen_entries keep items) = Ok tt.
Proof.
  induction items as [|[n i] items IH]; simpl; [done|].
  intros Hall.
  pose proof (loop_dates_returns keep (Task.start_date i) (Task.intervals i))
    as Hret.
  destruct (loop_dates keep _ _) as [ds r]. simpl in Hret.
  rewrite Hret by (apply (Hall n); by left).
  destruct (regen_entries keep items) as [es r']. simpl in *.
  apply IH. intros name info Hin. apply (Hall name). by right.
Qed.

Lemma loop_dates_Ok_inv keep start l offset :
  snd (loop_dates keep start l) = Ok tt -> In offset l ->
  Datetime.date_plus start offset = Ok (start + offset).
Proof.
  induction l as [|o l IH]; simpl; [done|].
  destruct (Datetime.date_plus start o) as [d|e] eqn:Hd; [|done].
  destruct (loop_dates keep start l) as [ds r]. simpl in *.
  intros Hr [->|Hin]; [|by apply IH].
  by apply date_plus_inv in Hd as Hd'; destruct Hd' as [-> _].
Qed.

Lemma regen_entries_Ok_inv keep items name info offset :
  snd (regen_entries keep items) = Ok tt ->
  In (name, info) items -> In offset (Task.intervals info) ->
  Datetime.date_plus (Task.start_date info) offset =
  Ok (Task.start_date info + offset).
Proof.
  induction items as [|[n i] items IH]; simpl; [done|].
  destruct (loop_dates keep _ _) as [ds r] eqn:Hl.
  destruct r as [[]|e]; simpl; [|done].
  destruct (regen_entries keep items) as [es r']. simpl in *.
  intros Hr [[= -> ->]|Hin] Hoff; [|by apply IH].
  apply (loop_dates_Ok_inv keep _ (Task.intervals info)); [|done].
  by rewrite Hl.
Qed.

(** ** Queries *)

Lemma returns_with_get_tasks_for_date date s name :
  returns_with (get_tasks_for_date date) s name <->
  In name (dd_get date (schedule s)).
Proof.
  unfold returns_with, get_tasks_for_date. split.
  - by intros (l & s' & [= <- <-] & Hin).
  - intros Hin. eauto.
Qed.

(** ** add_task *)

(** C1: [add_task(name, L, start_date)] on a scheduler whose index has
    no entry naming the task returns when every [start_date + d], [d] in
    [L], is a date; once it has returned,
    [get_tasks_for_date(start_date + d)] contains [name] for every [d] in
    [L]; and [get_tasks_for_date] of a date that is [start_date + d] for no
    [d] in [L] does not contain [name]. *)
Theorem add_task_schedules_exactly_the_offsets
    (today : Z) (s : TaskScheduler) (name : string) (L : list Z)
    (start : option Z) :
  (forall date, ~ returns_with (get_tasks_for_date date) s name) ->
  exists r s',
    add_task today name L start s = (r, s') /\
    (Datetime.is_date (default today start) ->
     (forall d, In d L -> Datetime.is_date (default today start + d)) ->
     r = Ok tt) /\
    (r = Ok tt ->
     forall d, In d L ->
       returns_with (get_tasks_for_date (default today start + d)) s' name) /\
    (forall date, (forall d, In d L -> date <> default today start + d) ->
       ~ returns_with (get_tasks_for_date date) s' name).
Proof.
  intros Hfresh.
  pose proof (add_task_eq today name L start s) as Heq. simpl in Heq.
  set (st := default today start) in *.
  eexists _, _. split; [exact Heq|]. split; [|split].
  - intros Hst HL. apply loop_dates_returns. intros d Hd. exists (st + d).
    apply date_plus_Ok; auto.
  - intros Hret d Hd. apply returns_with_get_tasks_for_date. simpl.
    apply elem_of_dd_get_append_entries. right.
    apply in_pair_map. split; [done|].
    apply (loop_dates_complete _ _ _ d); auto.
    by apply (loop_dates_Ok_inv (fun _ => true) st L).
  - intros date Hdate [Hold|Hnew]%returns_with_get_tasks_for_date
      %elem_of_dd_get_append_entries.
    + by apply (Hfresh date), returns_with_get_tasks_for_date.
    + apply in_pair_map in Hnew as [_ Hnew].
      apply loop_dates_sound in Hnew as (_ & d & Hd & Hplus).
      apply date_plus_inv in Hplus as [-> _]. by apply (Hdate d).
Qed.

Lemma add_task_schedules_exactly_the_offsets_witness :
  exists r s',
    add_task d_2024_01_01 "ChapterA" [1; 3; 7] (Some d_2024_01_01) init
      = (r, s') /\
    (Datetime.is_date d_2024_01_01 ->
     (forall d, In d [1; 3; 7] -> Datetime.is_date (d_2024_01_01 + d)) ->
     r = Ok tt) /\
    (r = Ok tt ->
     forall d, In d [1; 3; 7] ->
       returns_with (get_tasks_for_date (d_2024_01_01 + d)) s' "ChapterA") /\
    (forall date, (forall d, In d [1; 3; 7] -> date <> d_2024_01_01 + d) ->
       ~ returns_with (get_tasks_for_date date) s' "ChapterA").
Proof.
  apply (add_task_schedules_exactly_the_offsets d_2024_01_01 init
           "ChapterA" [1; 3; 7] (Some d_2024_01_01)).
  intros date (l & s' & [= <- <-] & []).
Defined.

(** ** The task map *)

Lemma dict_get_set_eq k v d : dict_get k (dict_set k v d) = Some v.
Proof.
  induction d as [|[k' v'] d IH]; simpl.
  - by rewrite decide_True.
  - destruct (decide (k' = k)) as [->|Hne]; simpl.
    + by rewrite decide_True.
    + by rewrite decide_False.
Qed.

Lemma dict_get_set_ne k k' v d :
  k' <> k -> dict_get k' (dict_set k v d) = dict_get k' d.
Proof.
  intros Hne. induction d as [|[k0 v0] d IH]; simpl.
  - by rewrite decide_False.
  - destruct (decide (k0 = k)) as [->|Hne0]; simpl.
    + by rewrite !decide_False.
    + by rewrite IH.
Qed.

Lemma In_dict_get k v d :
  NoDup (map fst d) -> In (k, v) d -> dict_get k d = Some v.
Proof.
  induction d as [|[k' v'] d IH]; simpl; [done|].
  intros [Hk' Hd]%NoDup_cons [[= -> ->]|Hin].
  - by rewrite decide_True.
  - rewrite decide_False; [by apply IH|].
    intros ->. apply Hk', list_elem_of_In, in_map_iff. by exists (k, v).
Qed.

Lemma dict_set_keys k v d :
  map fst (dict_set k v d) =
  if decide (k ∈ map fst d) then map fst d else map fst d ++ [k].
Proof.
  induction d as [|[k' v'] d IH]; simpl; [done|].
  destruct (decide (k' = k)) as [->|Hne]; simpl.
  - rewrite decide_True by apply list_elem_of_here. done.
  - rewrite IH.
    destruct (decide (k ∈ map fst d)) as [Hin|Hnin].
    + rewrite decide_True by by apply list_elem_of_further. done.
    + rewrite decide_False by (intros [?|?]%elem_of_cons; done). done.
Qed.

Lemma dict_set_NoDup k v d :
  NoDup (map fst d) -> NoDup (map fst (dict_set k v d)).
Proof.
  intros Hd. rewrite dict_set_keys.
  destruct (decide (k ∈ map fst d)) as [Hin|Hnin]; [done|].
  apply NoDup_app. split; [done|]. split.
  - by intros x Hx ->%list_elem_of_singleton.
  - apply NoDup_singleton.
Qed.

(** ** add_task_with_repetitions *)

Lemma repetition_loop_eq n k acc cur :
  repetition_loop n k acc cur =
  acc ++ map (fun i => cur + Z.of_nat i * k) (seq 0 n).
Proof.
  revert acc cur. induction n as [|n IH]; intros acc cur; simpl.
  - by rewrite app_nil_r.
  - rewrite IH, <- app_assoc. simpl. f_equal. f_equal; [lia|].
    rewrite <- seq_shift, map_map. apply map_ext. intros i. lia.
Qed.

Lemma repetition_loop_offsets k n :
  repetition_loop (Z.to_nat n) k [] 0 = offsets_spec k n.
Proof. by rewrite repetition_loop_eq. Qed.

(** C2: [add_task_with_repetitions(name, k, n, start_date)] returns (or
    raises) as [add_task(name, [0, k, 2k, ..., (n-1)k], start_date)] does
    and leaves the same task map and the same schedule index, for every
    integer [k] and every [n >= 0]. *)
Theorem add_task_with_repetitions_is_add_task_of_multiples
    (today : Z) (name : string) (k n : Z) (start : option Z)
    (s : TaskScheduler) :
  0 <= n ->
  add_task_with_repetitions today name k n start s =
  add_task today name (offsets_spec k n) start s.
Proof.
  intros _. unfold add_task_with_repetitions.
  rewrite repetition_loop_offsets. by destruct start.
Qed.

Lemma add_task_with_repetitions_is_add_task_of_multiples_witness :
  0 <= 3 /\
  add_task_with_repetitions d_2024_01_01 "X" 7 3 (Some d_2024_01_01) init =
  add_task d_2024_01_01 "X" (offsets_spec 7 3) (Some d_2024_01_01) init.
Proof.
  split; [lia|].
  apply (add_task_with_repetitions_is_add_task_of_multiples
           d_2024_01_01 "X" 7 3 (Some d_2024_01_01) init).
  lia.
Defined.

(** C9: with [repetitions = 0] the interval list stored for the task is
    empty, the call returns and the schedule index is unchanged, so
    [get_tasks_for_date] contains [name] afterwards only where it did
    before. *)
Theorem add_task_with_zero_repetitions_schedules_nothing
    (today : Z) (name : string) (k : Z) (start : option Z)
    (s : TaskScheduler) :
  exists s',
    add_task_with_repetitions today name k 0 start s = (Ok tt, s') /\
    dict_get name (tasks s') =
      Some {| Task.intervals := [];
              Task.start_date := default today start |} /\
    schedule s' = schedule s /\
    (forall date,
       get_tasks_for_date date s' = (fst (get_tasks_for_date date s), s')) /\
    (forall date,
       returns_with (get_tasks_for_date date) s' name ->
       returns_with (get_tasks_for_date date) s name).
Proof.
  eexists. split; [reflexivity|]. simpl.
  split; [apply dict_get_set_eq|]. split; [done|]. split; [done|].
  intros date. by rewrite !returns_with_get_tasks_for_date.
Qed.

(** ** generate_schedule *)

Lemma in_window_true lo hi date :
  in_window lo hi date = true <-> lo <= date <= hi.
Proof. unfold in_window. rewrite andb_true_iff, !Z.leb_le. done. Qed.

Lemma dd_get_empty date : dd_get date ∅ = [].
Proof. unfold dd_get. by rewrite lookup_empty. Qed.

(** C3: [generate_schedule(days=D)], called when the current date is
    [today], returns when [today + D] and the dates of the stored
    definitions are dates; once it has returned, every date key of the
    index lies in [[today, today + D]] (both ends included), the index does
    not depend on what the index held before (full clear), and [name] is
    listed under a date exactly when the date lies in the window and a
    stored task [name] has [start_date + offset] equal to that date for an
    offset of its interval list. *)
Theorem generate_schedule_rebuilds_the_window
    (today D : Z) (s : TaskScheduler) :
  exists r s',
    generate_schedule today D s = (r, s') /\
    (Datetime.is_date today -> Datetime.is_date (today + D) ->
     (forall name info, In (name, info) (tasks s) ->
        definition_in_range info) ->
     r = Ok tt) /\
    (r = Ok tt ->
     tasks s' = tasks s /\
     (forall date, is_Some (schedule s' !! date) ->
        today <= date <= today + D) /\
     (forall old,
        generate_schedule today D {| tasks := tasks s; schedule := old |}
        = (Ok tt, s')) /\
     (forall date name,
        returns_with (get_tasks_for_date date) s' name <->
        today <= date <= today + D /\
        exists info offset,
          In (name, info) (tasks s) /\
          In offset (Task.intervals info) /\
          Task.start_date info + offset = date)).
Proof.
  pose proof (generate_schedule_eq today D) as Heq.
  destruct (Datetime.date_plus today D) as [end_date|e] eqn:Hend.
  2:{ eexists _, _. split; [apply Heq|]. split; [|done].
      intros Htoday HD _. by rewrite date_plus_Ok in Hend. }
  apply date_plus_inv in Hend as [-> _].
  set (keep := in_window today (today + D)) in *.
  eexists _, _. split; [apply Heq|]. split.
  { intros _ _ Htasks. apply regen_entries_returns. intros name info Hin o Ho.
    destruct (Htasks name info Hin) as [Hst Hoff].
    exists (Task.start_date info + o). apply date_plus_Ok; auto. }
  intros Hret. split; [done|]. split; [|split].
  - simpl. intros date [Hemp|Hin]%lookup_append_entries_is_Some.
    { rewrite lookup_empty in Hemp. by destruct Hemp. }
    apply in_map_iff in Hin as ([n d] & <- & Hin).
    apply regen_entries_sound in Hin as [Hk _]. by apply in_window_true.
  - intros old. rewrite Heq. simpl. by rewrite Hret.
  - intros date name.
    rewrite returns_with_get_tasks_for_date. simpl.
    rewrite elem_of_dd_get_append_entries, dd_get_empty. split.
    + intros [[]|Hin].
      apply regen_entries_sound in Hin as (Hk & info & Hin & o & Ho & Hd).
      split; [by apply in_window_true|].
      apply date_plus_inv in Hd as [-> _]. eauto.
    + intros [Hw (info & o & Hin & Ho & Hd)]. right.
      apply (regen_entries_complete keep _ name info); auto.
      * exists o. split; [done|]. subst date.
        by apply (regen_entries_Ok_inv keep (tasks s) name).
      * by apply in_window_true.
Qed.

(** The window of 90 days from 2024-01-01 keeps the offsets 7 and 1 of
    "B" and the offset 1 of "A", and leaves out the offset 200. *)
Example generate_schedule_two_tasks :
  exists s',
    generate_schedule d_2024_01_01 90 two_tasks = (Ok tt, s') /\
    fst (get_tasks_for_date (d_2024_01_01 + 1) s') = Ok ["B"; "A"]%string /\
    fst (get_tasks_for_date (d_2024_01_01 + 7) s') = Ok ["B"%string] /\
    fst (get_tasks_for_date (d_2024_01_01 + 200) s') = Ok [].
Proof.
  eexists. split; [by vm_compute|]. by vm_compute.
Qed.

(** C6: a second [generate_schedule(D)] made right after the first, at
    the same current date, ends as the first did (returns, or raises the
    same exception) and leaves the scheduler, task map and schedule index,
    exactly as the first call left it. *)
Theorem generate_schedule_idempotent (today D : Z) (s : TaskScheduler) :
  generate_schedule today D (snd (generate_schedule today D s)) =
  generate_schedule today D s.
Proof.
  rewrite !generate_schedule_eq.
  destruct (Datetime.date_plus today D) as [end_date|e]; reflexivity.
Qed.

(** ** get_tasks_for_date *)

(** C7: [get_tasks_for_date(date)] returns the list bound to [date] in the
    index, returns the empty list, without raising, when [date] is not a
    key, and leaves the task map and the index as they were. *)
Theorem get_tasks_for_date_is_a_pure_lookup (date : Z) (s : TaskScheduler) :
  exists l,
    get_tasks_for_date date s = (Ok l, s) /\
    (forall names, schedule s !! date = Some names -> l = names) /\
    (schedule s !! date = None -> l = []).
Proof.
  exists (dd_get date (schedule s)). split; [reflexivity|].
  unfold dd_get. split.
  - by intros names ->.
  - by intros ->.
Qed.

(** ** export_to_csv *)

Lemma schedule_getitem_present date s :
  is_Some (schedule s !! date) ->
  schedule_getitem date s = (Ok (dd_get date (schedule s)), s).
Proof.
  intros [l Hl]. unfold schedule_getitem, dd_getitem, dd_get.
  rewrite Hl. by destruct s.
Qed.

Lemma export_loop_eq dates written s :
  (forall date, In date dates -> is_Some (schedule s !! date)) ->
  export_loop dates written s =
  (Ok (written ++ map (record_of s) dates), s).
Proof.
  revert written. induction dates as [|date dates IH]; intros written Hkeys.
  - simpl. by rewrite app_nil_r.
  - simpl. unfold bind at 1.
    rewrite schedule_getitem_present by (apply Hkeys; by left).
    rewrite IH by (intros d Hd; apply Hkeys; by right).
    by rewrite <- app_assoc.
Qed.

Lemma In_keys_sorted dd date :
  In date (keys_sorted dd) <-> is_Some (dd !! date).
Proof.
  unfold keys_sorted.
  rewrite <- list_elem_of_In, merge_sort_Permutation, list_elem_of_fmap.
  split.
  - intros ([d l] & -> & Hin%elem_of_map_to_list). by exists l.
  - intros [l Hl]. exists (date, l). split; [done|].
    by apply elem_of_map_to_list.
Qed.

Lemma NoDup_keys_sorted dd : NoDup (keys_sorted dd).
Proof.
  unfold keys_sorted. rewrite merge_sort_Permutation.
  apply NoDup_fst_map_to_list.
Qed.

Lemma StronglySorted_le_NoDup_lt (l : list Z) :
  StronglySorted Z.le l -> NoDup l -> StronglySorted Z.lt l.
Proof.
  induction 1 as [|x l Hl IH Hx]; intros Hnd; constructor.
  - apply IH. by apply NoDup_cons in Hnd as [_ ?].
  - apply NoDup_cons in Hnd as [Hnotin _].
    rewrite Forall_forall in *. intros y Hy.
    assert (x <> y) by (intros ->; by apply Hnotin, list_elem_of_In).
    specialize (Hx y Hy). lia.
Qed.

Lemma keys_sorted_ascending dd : StronglySorted Z.lt (keys_sorted dd).
Proof.
  apply StronglySorted_le_NoDup_lt; [|apply NoDup_keys_sorted].
  unfold keys_sorted. apply StronglySorted_merge_sort; apply _.
Qed.

Lemma export_to_csv_eq filename s :
  export_to_csv filename s =
  (Ok (filename,
       ["Date"; "Day"; "Tasks"]%string
         :: map (record_of s) (keys_sorted (schedule s))), s).
Proof.
  unfold export_to_csv, bind at 1, sorted_keys at 1. unfold bind at 1.
  rewrite export_loop_eq; [done|].
  intros date. apply In_keys_sorted.
Qed.

(** ** Re-adding a task *)

Lemma add_task_keeps_index_prefix today name l start s date :
  dd_get date (schedule s)
    `prefix_of` dd_get date (schedule (snd (add_task today name l start s))).
Proof.
  rewrite add_task_eq. simpl. rewrite dd_get_append_entries.
  by apply prefix_app_r.
Qed.

(** C5: [add_task] for a name the task map already has ends as the
    same call does on a new scheduler (it returns when each
    [start_date + offset] is a date: the name being known is no error); the
    stored definition of the name becomes the new one, the other
    definitions stay, and under every date the list the index held before
    the call is still there, as the beginning of the list it holds after
    the call.  The same holds of the index for every call other than
    [generate_schedule]: the index only grows. *)
Theorem add_task_again_overwrites_definition_keeps_entries
    (today : Z) (s : TaskScheduler) (name : string) (L : list Z)
    (start : option Z) :
  is_Some (dict_get name (tasks s)) ->
  (exists r s',
     add_task today name L start s = (r, s') /\
     r = fst (add_task today name L start init) /\
     (Datetime.is_date (default today start) ->
      (forall d, In d L -> Datetime.is_date (default today start + d)) ->
      r = Ok tt) /\
     dict_get name (tasks s') =
       Some {| Task.intervals := L;
               Task.start_date := default today start |} /\
     (forall other, other <> name ->
        dict_get other (tasks s') = dict_get other (tasks s)) /\
     (forall date,
        dd_get date (schedule s) `prefix_of` dd_get date (schedule s'))) /\
  (forall o date,
     (forall days, o <> GenerateSchedule days) ->
     dd_get date (schedule s)
       `prefix_of` dd_get date (schedule (call today o s))).
Proof.
  intros _. split.
  - pose proof (add_task_eq today name L start s) as Heq. simpl in Heq.
    eexists _, _. split; [exact Heq|].
    split; [by rewrite add_task_eq|]. split.
    { intros Hst HL. apply loop_dates_returns. intros d Hd.
      exists (default today start + d). apply date_plus_Ok; auto. }
    simpl. split; [apply dict_get_set_eq|].
    split; [intros other Hne; by apply dict_get_set_ne|].
    intros date. rewrite dd_get_append_entries. by apply prefix_app_r.
  - intros o date Hgen. destruct o as [n l d|n k r d|days|d|f]; simpl.
    + apply add_task_keeps_index_prefix.
    + apply add_task_keeps_index_prefix.
    + by destruct (Hgen days).
    + done.
    + by rewrite export_to_csv_eq.
Qed.

Lemma add_task_again_overwrites_definition_keeps_entries_witness :
  (exists r s',
     add_task d_2024_01_01 "A" [5] None two_tasks = (r, s') /\
     r = fst (add_task d_2024_01_01 "A" [5] None init) /\
     (Datetime.is_date (default d_2024_01_01 None) ->
      (forall d, In d [5] ->
         Datetime.is_date (default d_2024_01_01 None + d)) ->
      r = Ok tt) /\
     dict_get "A" (tasks s') =
       Some {| Task.intervals := [5];
               Task.start_date := default d_2024_01_01 None |} /\
     (forall other, other <> "A"%string ->
        dict_get other (tasks s') = dict_get other (tasks two_tasks)) /\
     (forall date,
        dd_get date (schedule two_tasks)
          `prefix_of` dd_get date (schedule s'))) /\
  (forall o date,
     (forall days, o <> GenerateSchedule days) ->
     dd_get date (schedule two_tasks)
       `prefix_of` dd_get date (schedule (call d_2024_01_01 o two_tasks))).
Proof.
  apply (add_task_again_overwrites_definition_keeps_entries
           d_2024_01_01 two_tasks "A" [5] None).
  vm_compute. eauto.
Defined.

(** ** Invariants of the reachable states *)

Lemma run_invariant (P : TaskScheduler -> Prop) calls s :
  (forall today o s0, P s0 -> P (call today o s0)) ->
  P s -> P (run calls s).
Proof.
  intros Hstep. unfold run. revert s.
  induction calls as [|c calls IH]; intros s Hs; simpl; [done|].
  apply IH, Hstep, Hs.
Qed.

(** What a call does to the index: it appends entries, all on dates, to
    the index it finds or, for a regeneration, to an empty one; or it
    leaves it alone. *)
Lemma call_schedule today o s :
  exists es base,
    schedule (call today o s) = append_entries es base /\
    (base = schedule s \/ base = ∅) /\
    (forall n d, In (n, d) es -> Datetime.is_date d).
Proof.
  assert (forall keep st l n d (name : string),
            In (n, d) (map (pair name) (fst (loop_dates keep st l))) ->
            Datetime.is_date d) as Hloop.
  { intros keep st l n d name [_ Hin]%in_pair_map.
    apply loop_dates_sound in Hin as (_ & off & _ & Hd).
    by apply date_plus_inv in Hd as [_ ?]. }
  destruct o as [n l d|n k r d|days|d|f]; simpl.
  - rewrite add_task_eq. simpl. eexists _, _. split; [done|]. split; eauto.
  - unfold add_task_with_repetitions. rewrite add_task_eq. simpl.
    eexists _, _. split; [done|]. split; eauto.
  - rewrite generate_schedule_eq.
    destruct (Datetime.date_plus today (default 90 days)) as [end_date|e];
      simpl.
    + eexists _, _. split; [done|]. split; [by right|].
      intros n d (_ & info & _ & off & _ & Hd)%regen_entries_sound.
      by apply date_plus_inv in Hd as [_ ?].
    + exists [], (schedule s). split; [done|]. split; [by left|]. by intros.
  - exists [], (schedule s). split; [done|]. split; [by left|]. by intros.
  - rewrite export_to_csv_eq. simpl.
    exists [], (schedule s). split; [done|]. split; [by left|]. by intros.
Qed.

Lemma call_no_empty_key today o s :
  no_empty_key (schedule s) -> no_empty_key (schedule (call today o s)).
Proof.
  intros Hs. destruct (call_schedule today o s) as (es & base & -> & Hb & _).
  apply no_empty_key_append_entries.
  destruct Hb as [->| ->]; [done|].
  intros date l. by rewrite lookup_empty.
Qed.


Lemma call_names_unique today o s :
  names_unique s -> names_unique (call today o s).
Proof.
  unfold names_unique. intros Hs.
  destruct o as [n l d|n k r d|days|d|f]; simpl.
  - rewrite add_task_eq. simpl. by apply dict_set_NoDup.
  - unfold add_task_with_repetitions. rewrite add_task_eq. simpl.
    by apply dict_set_NoDup.
  - rewrite generate_schedule_eq.
    by destruct (Datetime.date_plus today (default 90 days)).
  - done.
  - by rewrite export_to_csv_eq.
Qed.

Lemma reachable_no_empty_key s : reachable s -> no_empty_key (schedule s).
Proof.
  intros [calls ->]. apply run_invariant.
  - intros today o s0. apply call_no_empty_key.
  - intros date l. simpl. by rewrite lookup_empty.
Qed.


Lemma reachable_names_unique s : reachable s -> names_unique s.
Proof.
  intros [calls ->]. apply run_invariant.
  - intros today o s0. apply call_names_unique.
  - apply NoDup_nil_2.
Qed.

(** C10: after every sequence of calls on a new scheduler, a date that is
    a key of the schedule index is bound to a list with at least one task
    name. *)
Theorem no_date_key_has_an_empty_list
    (calls : list (Z * op)) (date : Z) (l : list string) :
  schedule (run calls init) !! date = Some l -> l <> [].
Proof.
  apply (reachable_no_empty_key (run calls init)). by exists calls.
Qed.

Lemma no_date_key_has_an_empty_list_witness :
  schedule (run readded init) !! (d_2024_01_01 + 1) = Some ["A"%string] /\
  ["A"%string] <> [].
Proof.
  split; [by vm_compute|].
  apply (no_date_key_has_an_empty_list readded (d_2024_01_01 + 1)).
  by vm_compute.
Defined.

(** ** The index as a projection of the task map *)

Lemma add_task_index_derivable today name l start s :
  index_derivable s ->
  dict_get name (tasks s) = None \/
  dict_get name (tasks s) =
    Some {| Task.intervals := l; Task.start_date := default today start |} ->
  index_derivable (snd (add_task today name l start s)).
Proof.
  intros Hs Hdef date n. rewrite add_task_eq. simpl.
  intros [Hold|Hnew]%elem_of_dd_get_append_entries.
  - destruct (Hs date n Hold) as (info & Hget & Hder).
    destruct (decide (n = name)) as [->|Hne].
    + destruct Hdef as [Hnone|Hsame]; [congruence|].
      eexists. split; [apply dict_get_set_eq|]. congruence.
    + exists info. split; [|done]. by rewrite dict_get_set_ne.
  - apply in_pair_map in Hnew as [-> Hin].
    apply loop_dates_sound in Hin as (_ & off & Hoff & Hd).
    eexists. split; [apply dict_get_set_eq|]. by exists off.
Qed.

Lemma generate_schedule_index_derivable today days s :
  names_unique s -> index_derivable s ->
  index_derivable (snd (generate_schedule today days s)).
Proof.
  intros Hnd Hs. rewrite generate_schedule_eq.
  destruct (Datetime.date_plus today days) as [end_date|e]; [|done].
  intros date n. simpl. rewrite elem_of_dd_get_append_entries, dd_get_empty.
  intros [[]|(_ & info & Hin & Hder)%regen_entries_sound].
  exists info. split; [|done]. by apply In_dict_get.
Qed.

Lemma call_index_derivable today o s :
  names_unique s -> index_derivable s -> keeps_definitions today o s ->
  index_derivable (call today o s).
Proof.
  unfold keeps_definitions.
  intros Hnd Hs Hdef. destruct o as [n l d|n k r d|days|d|f]; simpl in *.
  - by apply add_task_index_derivable.
  - by apply add_task_index_derivable.
  - by apply generate_schedule_index_derivable.
  - done.
  - by rewrite export_to_csv_eq.
Qed.

Lemma run_index_derivable calls1 calls2 s :
  names_unique s -> index_derivable s ->
  no_redefinition (calls1 ++ calls2) s ->
  index_derivable (run calls1 s).
Proof.
  revert s. induction calls1 as [|[today o] calls1 IH]; intros s Hnd Hs;
    simpl; [done|].
  intros [Hdef Hrest]. apply IH; [|by apply call_index_derivable|done].
  by apply call_names_unique.
Qed.

(** C4, as the code has it: at every point of every sequence of calls on
    a new scheduler that does not re-add an existing task name with a
    different definition, every entry (date, task_name) of the schedule
    index is [start_date + offset] for an offset of the interval list of
    [task_name]'s current definition in the task map. *)
Theorem index_derivable_unless_a_name_is_redefined
    (calls1 calls2 : list (Z * op)) :
  no_redefinition (calls1 ++ calls2) init ->
  index_derivable (run calls1 init).
Proof.
  apply run_index_derivable.
  - apply NoDup_nil_2.
  - intros date n. simpl. by rewrite dd_get_empty.
Qed.

Lemma index_derivable_unless_a_name_is_redefined_witness :
  no_redefinition
    ([(d_2024_01_01, AddTask "B" [7; 1] None);
      (d_2024_01_01, AddTaskWithRepetitions "A" 3 4 None);
      (d_2024_01_01, AddTask "B" [7; 1] None)]
     ++ [(d_2024_01_01 + 1, GenerateSchedule None)]) init /\
  index_derivable
    (run [(d_2024_01_01, AddTask "B" [7; 1] None);
          (d_2024_01_01, AddTaskWithRepetitions "A" 3 4 None);
          (d_2024_01_01, AddTask "B" [7; 1] None)] init).
Proof.
  assert (no_redefinition
            ([(d_2024_01_01, AddTask "B" [7; 1] None);
              (d_2024_01_01, AddTaskWithRepetitions "A" 3 4 None);
              (d_2024_01_01, AddTask "B" [7; 1] None)]
             ++ [(d_2024_01_01 + 1, GenerateSchedule None)]) init)
    as Hno by (vm_compute; tauto).
  split; [exact Hno|].
  exact (index_derivable_unless_a_name_is_redefined _ _ Hno).
Defined.

(** C4 as stated fails: after a task is added again with another interval
    list, the entry of the first call is still in the index and is not
    derivable from the current definition. *)
Lemma index_not_derivable_after_readding :
  ~ index_derivable (run readded init).
Proof.
  intros Hall.
  destruct (Hall (d_2024_01_01 + 1) "A"%string) as (info & Hget & Hder).
  { vm_compute. by left. }
  vm_compute in Hget. injection Hget as <-.
  destruct Hder as (off & [<-|[]] & Hd). vm_compute in Hd. discriminate.
Qed.

(** ** Dates as text *)

Lemma range_all_true f lo n :
  range_all f lo n = true ->
  forall r, lo <= r < lo + Z.of_nat n -> f r = true.
Proof.
  revert lo. induction n as [|n IH]; intros lo; simpl; [lia|].
  intros [Hlo Hrest]%andb_true_iff r Hr.
  destruct (decide (r = lo)) as [->|Hne]; [done|].
  apply (IH (lo + 1)); [done|lia].
Qed.

(** The conversion is right on every day of the first 400 years, by
    evaluation. *)
Lemma cycle_all_ok : range_all cycle_ok 0 (Z.to_nat 146097) = true.
Proof. vm_compute. reflexivity. Qed.

Lemma ord2ymd_shift q r :
  0 <= r < 146097 ->
  Datetime._ord2ymd (r + 1 + 146097 * q) =
  let '(y, m, d) := Datetime._ord2ymd (r + 1) in (y + 400 * q, m, d).
Proof.
  intros Hr. unfold Datetime._ord2ymd.
  replace (r + 1 + 146097 * q - 1) with (r + q * Datetime._DI400Y)
    by (unfold Datetime._DI400Y; lia).
  replace (r + 1 - 1) with r by lia.
  rewrite Z.div_add, Z.mod_add by (unfold Datetime._DI400Y; lia).
  rewrite (Z.div_small r Datetime._DI400Y), (Z.mod_small r Datetime._DI400Y)
    by (unfold Datetime._DI400Y; lia).
  cbv zeta.
  destruct (_ || _).
  - f_equal. f_equal. lia.
  - destruct (_ <? _); f_equal; f_equal; lia.
Qed.

Lemma is_leap_shift y q : Datetime._is_leap (y + 400 * q) = Datetime._is_leap y.
Proof.
  unfold Datetime._is_leap.
  replace (y + 400 * q) with (y + (100 * q) * 4) at 1 by lia.
  replace (y + 400 * q) with (y + (4 * q) * 100) at 1 by lia.
  replace (y + 400 * q) with (y + q * 400) by lia.
  by rewrite !Z.mod_add by lia.
Qed.

Lemma days_before_year_shift y q :
  Datetime._days_before_year (y + 400 * q) =
  Datetime._days_before_year y + 146097 * q.
Proof.
  unfold Datetime._days_before_year. cbv zeta.
  replace (y + 400 * q - 1) with (y - 1 + (100 * q) * 4) at 2 by lia.
  replace (y + 400 * q - 1) with (y - 1 + (4 * q) * 100) at 2 by lia.
  replace (y + 400 * q - 1) with (y - 1 + q * 400) at 2 by lia.
  rewrite !Z.div_add by lia. lia.
Qed.

Lemma ymd2ord_shift y m d q :
  Datetime._ymd2ord (y + 400 * q) m d = Datetime._ymd2ord y m d + 146097 * q.
Proof.
  unfold Datetime._ymd2ord, Datetime._days_before_month.
  rewrite days_before_year_shift, is_leap_shift. lia.
Qed.

Lemma days_in_month_shift y m q :
  Datetime._days_in_month (y + 400 * q) m = Datetime._days_in_month y m.
Proof. unfold Datetime._days_in_month. by rewrite is_leap_shift. Qed.

Lemma ord2ymd_correct n :
  Datetime.is_date n ->
  exists y m d,
    Datetime._ord2ymd n = (y, m, d) /\
    is_calendar_date y m d /\ Datetime._ymd2ord y m d = n.
Proof.
  unfold Datetime.is_date, Datetime._MAXORDINAL. intros Hn.
  set (q := (n - 1) / 146097). set (r := (n - 1) mod 146097).
  assert (n = r + 1 + 146097 * q) as Hnqr.
  { pose proof (Z.div_mod (n - 1) 146097). unfold q, r. lia. }
  assert (0 <= r < 146097) as Hr by (apply Z.mod_pos_bound; lia).
  assert (0 <= q <= 24) as Hq.
  { unfold q. split; [apply Z.div_pos; lia|].
    apply Z.lt_succ_r, Z.div_lt_upper_bound; lia. }
  pose proof (range_all_true _ _ _ cycle_all_ok r) as Hok.
  rewrite Z2Nat.id in Hok by lia. specialize (Hok ltac:(lia)).
  clearbody q r. subst n. rewrite (ord2ymd_shift q r Hr).
  unfold cycle_ok in Hok.
  destruct (Datetime._ord2ymd (r + 1)) as [[y m] d].
  repeat (apply andb_true_iff in Hok as [Hok ?]).
  exists (y + 400 * q), m, d. split; [done|].
  unfold is_calendar_date, Datetime.MINYEAR, Datetime.MAXYEAR.
  rewrite days_in_month_shift, ymd2ord_shift.
  assert (q = 24 -> r <= 145730) by lia.
  repeat match goal with
         | H : (_ <=? _) = true |- _ => apply Z.leb_le in H
         | H : (_ =? _) = true |- _ => apply Z.eqb_eq in H
         | H : (_ || _) = true |- _ => apply orb_true_iff in H
         end.
  lia.
Qed.




Lemma string_length_app (s1 s2 : string) :
  String.length (s1 ++ s2) = (String.length s1 + String.length s2)%nat.
Proof. induction s1 as [|c s1 IH]; simpl; [done|]. by rewrite IH. Qed.



Lemma days_in_month_le_31 y m : Datetime._days_in_month y m <= 31.
Proof.
  unfold Datetime._days_in_month. destruct (_ && _); [lia|].
  unfold Datetime._DAYS_IN_MONTH.
  generalize (Z.to_nat m). intros k.
  do 13 (destruct k as [|k]; [simpl; lia|]).
  simpl. destruct k; lia.
Qed.





(** ** The export of a reachable scheduler *)

Lemma non_empty_has_member (l : list string) :
  l <> [] <-> exists name, In name l.
Proof.
  destruct l as [|x l]; split; try done.
  - by intros [name []].
  - intros _. exists x. by left.
Qed.

(** C8: the date field of a record is not always in ISO [YYYY-MM-DD]
    form.  For a task to review on 0999-12-31, a scheduler that a call of
    [add_task] gives, the export writes [999-12-31]: the year is not
    padded to four digits.  The ISO form of that date is [0999-12-31];
    the other fields and the rest of the export are as the claim says. *)
Theorem export_writes_the_year_999_on_three_digits :
  reachable (run year_999 init) /\
  export_to_csv "schedule.csv" (run year_999 init) =
    (Ok ("schedule.csv"%string,
         [["Date"; "Day"; "Tasks"]; ["999-12-31"; "Tuesday"; "A"]]%string),
     run year_999 init) /\
  iso_8601 364877 "0999-12-31" /\
  ~ iso_8601 364877 "999-12-31".
Proof.
  split; [by exists year_999|]. split; [by vm_compute|]. split.
  - exists "0999"%string, "12"%string, "31"%string, 999, 12, 31.
    repeat split; try done; vm_compute; congruence.
  - intros (yyyy & mm & dd & y & m & d & Heq & Hlen & _ & _ & Hyear & _).
    destruct yyyy as [|c1 [|c2 [|c3 [|c4 [|c5 yyyy]]]]]; try discriminate Hlen.
    injection Heq as <- <- <- <- _.
    vm_compute in Hyear. discriminate.
Qed.



(** * More of the scheduler: what the index holds after a call *)

Lemma names_of_entries_on (name : string) (ds : list Z) (date : Z) :
  map fst (filter (fun e : string * Z => snd e = date) (map (pair name) ds))
  = replicate (length (filter (fun d => d = date) ds)) name.
Proof.
  induction ds as [|d ds IH]; [done|].
  cbn [map]. rewrite !filter_cons. simpl.
  destruct (decide (d = date)); simpl; by rewrite IH.
Qed.

Lemma loop_dates_Ok_eq keep start l :
  snd (loop_dates keep start l) = Ok tt ->
  fst (loop_dates keep start l) =
  filter (fun d => keep d = true) (map (Z.add start) l).
Proof.
  induction l as [|o l IH]; simpl; [done|].
  destruct (Datetime.date_plus start o) as [d|e] eqn:Hd; [|done].
  apply date_plus_inv in Hd as [-> _].
  destruct (loop_dates keep start l) as [ds r]. simpl in *.
  intros Hr. rewrite filter_cons.
  destruct (keep (start + o)); simpl; by rewrite IH.
Qed.

Lemma hits_filter_map start l date :
  length (filter (fun d => d = date) (map (Z.add start) l)) = hits start l date.
Proof.
  unfold hits. induction l as [|o l IH]; [done|].
  cbn [map]. rewrite !filter_cons.
  destruct (decide (start + o = date)); simpl; by rewrite IH.
Qed.

Lemma loop_dates_all_Ok_eq start l :
  snd (loop_dates (fun _ => true) start l) = Ok tt ->
  fst (loop_dates (fun _ => true) start l) = map (Z.add start) l.
Proof.
  induction l as [|o l IH]; simpl; [done|].
  destruct (Datetime.date_plus start o) as [d|e] eqn:Hd; [|done].
  apply date_plus_inv in Hd as [-> _].
  destruct (loop_dates (fun _ => true) start l) as [ds r]. simpl in *.
  intros Hr. by rewrite IH.
Qed.

(** X1: when [add_task] returns, every date lists what it listed before,
    followed by the task name once for each offset of the interval list
    that gives the date: an offset written twice lists the name twice. *)
Theorem add_task_appends_one_entry_per_offset
    (today : Z) (s : TaskScheduler) (name : string) (L : list Z)
    (start : option Z) (date : Z) :
  fst (add_task today name L start s) = Ok tt ->
  dd_get date (schedule (snd (add_task today name L start s))) =
  dd_get date (schedule s)
    ++ replicate (hits (default today start) L date) name.
Proof.
  rewrite add_task_eq. simpl. intros Hret.
  rewrite dd_get_append_entries. f_equal.
  rewrite names_of_entries_on, (loop_dates_all_Ok_eq _ _ Hret).
  by rewrite hits_filter_map.
Qed.

Lemma add_task_appends_one_entry_per_offset_witness :
  fst (add_task d_2024_01_01 "A" [1; 3; 1] None two_tasks) = Ok tt /\
  dd_get (d_2024_01_01 + 1)
    (schedule (snd (add_task d_2024_01_01 "A" [1; 3; 1] None two_tasks))) =
  dd_get (d_2024_01_01 + 1) (schedule two_tasks)
    ++ replicate (hits (default d_2024_01_01 None) [1; 3; 1]
                    (d_2024_01_01 + 1)) "A"%string.
Proof.
  assert (fst (add_task d_2024_01_01 "A" [1; 3; 1] None two_tasks) = Ok tt)
    as H by (by vm_compute).
  split; [exact H|].
  exact (add_task_appends_one_entry_per_offset d_2024_01_01 two_tasks "A"
           [1; 3; 1] None (d_2024_01_01 + 1) H).
Defined.

Lemma date_plus_Raise start offset :
  ~ Datetime.is_date (start + offset) ->
  Datetime.date_plus start offset = Raise OverflowError.
Proof.
  intros Hnot.
  destruct (Datetime.date_plus start offset) as [d|[]] eqn:Hd; [|done].
  apply date_plus_inv in Hd as [-> Hd]. done.
Qed.

Lemma loop_dates_stops keep start l1 bad l2 :
  (forall offset, In offset l1 ->
     Datetime.date_plus start offset = Ok (start + offset)) ->
  Datetime.date_plus start bad = Raise OverflowError ->
  loop_dates keep start (l1 ++ bad :: l2) =
  (filter (fun d => keep d = true) (map (Z.add start) l1),
   Raise OverflowError).
Proof.
  intros Hl1 Hbad. induction l1 as [|o l1 IH]; simpl.
  - by rewrite Hbad.
  - rewrite (Hl1 o) by by left. rewrite IH by (intros; apply Hl1; by right).
    rewrite filter_cons. by destruct (keep (start + o)).
Qed.

(** X2: if the start date plus some offset is not a date, [add_task]
    raises [OverflowError] at the first such offset.  By then the
    definition is stored with the whole interval list, and the index has
    grown by the entries of the offsets before that one, and by no other. *)
Theorem add_task_raises_after_storing_and_scheduling_a_prefix
    (today : Z) (s : TaskScheduler) (name : string) (L1 L2 : list Z)
    (bad : Z) (start : option Z) :
  Datetime.is_date (default today start) ->
  (forall d, In d L1 -> Datetime.is_date (default today start + d)) ->
  ~ Datetime.is_date (default today start + bad) ->
  exists s',
    add_task today name (L1 ++ bad :: L2) start s
      = (Raise OverflowError, s') /\
    dict_get name (tasks s') =
      Some {| Task.intervals := L1 ++ bad :: L2;
              Task.start_date := default today start |} /\
    (forall date,
       dd_get date (schedule s') =
       dd_get date (schedule s)
         ++ replicate (hits (default today start) L1 date) name).
Proof.
  intros Hst HL1 Hbad. rewrite add_task_eq. simpl.
  rewrite (loop_dates_stops (fun _ => true) (default today start) L1 bad L2).
  2:{ intros d Hd. apply date_plus_Ok; auto. }
  2:{ by apply date_plus_Raise. }
  eexists. split; [reflexivity|]. simpl. split; [apply dict_get_set_eq|].
  intros date. rewrite dd_get_append_entries. f_equal.
  rewrite names_of_entries_on. f_equal.
  rewrite <- hits_filter_map. f_equal. f_equal.
  induction L1 as [|o L1 IH]; [done|].
  cbn [map]. rewrite filter_cons. simpl. f_equal.
  apply IH. intros d Hd. apply HL1. by right.
Qed.

Lemma add_task_raises_after_storing_and_scheduling_a_prefix_witness :
  exists s',
    add_task d_2024_01_01 "A" ([1] ++ 4000000 :: [2]) None init
      = (Raise OverflowError, s') /\
    dict_get "A" (tasks s') =
      Some {| Task.intervals := [1] ++ 4000000 :: [2];
              Task.start_date := default d_2024_01_01 None |} /\
    (forall date,
       dd_get date (schedule s') =
       dd_get date (schedule init)
         ++ replicate (hits (default d_2024_01_01 None) [1] date) "A"%string).
Proof.
  apply (add_task_raises_after_storing_and_scheduling_a_prefix
           d_2024_01_01 init "A" [1] [2] 4000000 None).
  - vm_compute. split; discriminate.
  - intros d [<-|[]]. vm_compute. split; discriminate.
  - unfold Datetime.is_date, Datetime._MAXORDINAL, d_2024_01_01. simpl. lia.
Defined.

Lemma dict_get_Some_In k v d : dict_get k d = Some v -> In (k, v) d.
Proof.
  induction d as [|[k' v'] d IH]; simpl; [done|].
  destruct (decide (k' = k)) as [->|Hne].
  - intros [= ->]. by left.
  - intros Hget. right. by apply IH.
Qed.

Lemma generate_schedule_raises_on_bad_definition today D s name info offset e :
  In (name, info) (tasks s) ->
  In offset (Task.intervals info) ->
  Datetime.date_plus (Task.start_date info) offset = Raise e ->
  fst (generate_schedule today D s) = Raise OverflowError.
Proof.
  intros Hin Hoff Hbad. rewrite generate_schedule_eq.
  destruct (Datetime.date_plus today D) as [end_date|[]]; [|done]. simpl.
  destruct (snd (regen_entries (in_window today end_date) (tasks s)))
    as [[]|[]] eqn:Hr; [|done].
  rewrite (regen_entries_Ok_inv _ _ name info offset Hr Hin Hoff) in Hbad.
  discriminate.
Qed.

(** X3: after a call of [add_task] that raised, every call of
    [generate_schedule] raises [OverflowError], whatever the day and the
    number of days: the definition that was stored still asks for a date
    that does not exist. *)
Theorem generate_schedule_raises_after_a_failed_add_task
    (today : Z) (s : TaskScheduler) (name : string) (L : list Z)
    (start : option Z) (e : exn) (today' D : Z) :
  fst (add_task today name L start s) = Raise e ->
  fst (generate_schedule today' D (snd (add_task today name L start s)))
  = Raise OverflowError.
Proof.
  rewrite add_task_eq. simpl. intros Hraise.
  apply loop_dates_raises in Hraise as (offset & Hoff & Hbad).
  eapply (generate_schedule_raises_on_bad_definition _ _ _ name
            {| Task.intervals := L; Task.start_date := default today start |});
    [|exact Hoff|exact Hbad].
  apply dict_get_Some_In. simpl. apply dict_get_set_eq.
Qed.

Lemma generate_schedule_raises_after_a_failed_add_task_witness :
  fst (add_task d_2024_01_01 "A" [1; 4000000] None two_tasks)
    = Raise OverflowError /\
  fst (generate_schedule (d_2024_01_01 + 1) 90
         (snd (add_task d_2024_01_01 "A" [1; 4000000] None two_tasks)))
  = Raise OverflowError.
Proof.
  assert (fst (add_task d_2024_01_01 "A" [1; 4000000] None two_tasks)
          = Raise OverflowError) as H by (by vm_compute).
  split; [exact H|].
  exact (generate_schedule_raises_after_a_failed_add_task d_2024_01_01
           two_tasks "A" [1; 4000000] None OverflowError
           (d_2024_01_01 + 1) 90 H).
Defined.

Lemma filter_eq_of_filter_keep (keep : Z -> bool) (l : list Z) (date : Z) :
  filter (fun d => d = date) (filter (fun d => keep d = true) l) =
  if keep date then filter (fun d => d = date) l else [].
Proof.
  induction l as [|x l IH]; simpl.
  - by destruct (keep date).
  - rewrite !filter_cons.
    destruct (decide (x = date)) as [->|Hne].
    + destruct (keep date) eqn:Hk; simpl.
      * rewrite filter_cons, decide_True by done. rewrite IH. done.
      * exact IH.
    + destruct (decide (keep x = true)); [rewrite filter_cons, decide_False by done|];
        exact IH.
Qed.

Lemma regen_entries_names keep items date :
  snd (regen_entries keep items) = Ok tt ->
  map fst (filter (fun e : string * Z => snd e = date)
             (fst (regen_entries keep items))) =
  if keep date then regenerated_names items date else [].
Proof.
  induction items as [|[n info] items IH]; simpl.
  - by destruct (keep date).
  - pose proof (loop_dates_Ok_eq keep (Task.start_date info)
                  (Task.intervals info)) as Hds.
    destruct (loop_dates keep _ _) as [ds [[]|e]]; simpl in *; [|done].
    destruct (regen_entries keep items) as [es r]. simpl in *.
    intros Hr. rewrite filter_app, map_app, (IH Hr), names_of_entries_on.
    rewrite Hds by done. rewrite filter_eq_of_filter_keep.
    destruct (keep date); [|done]. by rewrite hits_filter_map.
Qed.

(** X4: after [generate_schedule] has returned, a date of the window lists
    the names in the order of the task map, each as often as offsets of
    its definition give the date; a date outside the window lists
    nothing. *)
Theorem generate_schedule_lists_tasks_in_task_map_order
    (today D : Z) (s s' : TaskScheduler) (date : Z) :
  generate_schedule today D s = (Ok tt, s') ->
  dd_get date (schedule s') =
  if in_window today (today + D) date
  then regenerated_names (tasks s) date
  else [].
Proof.
  rewrite generate_schedule_eq.
  destruct (Datetime.date_plus today D) as [end_date|e] eqn:Hend; [|done].
  apply date_plus_inv in Hend as [-> _].
  intros [= Hr <-]. simpl.
  rewrite dd_get_append_entries, dd_get_empty. simpl.
  by apply regen_entries_names.
Qed.

Lemma generate_schedule_lists_tasks_in_task_map_order_witness :
  exists s',
    generate_schedule d_2024_01_01 90 two_tasks = (Ok tt, s') /\
    dd_get (d_2024_01_01 + 1) (schedule s') =
    if in_window d_2024_01_01 (d_2024_01_01 + 90) (d_2024_01_01 + 1)
    then regenerated_names (tasks two_tasks) (d_2024_01_01 + 1)
    else [].
Proof.
  eexists. 
  assert (generate_schedule d_2024_01_01 90 two_tasks
          = (Ok tt, snd (generate_schedule d_2024_01_01 90 two_tasks)))
    as H by (by vm_compute).
  split; [exact H|].
  exact (generate_schedule_lists_tasks_in_task_map_order d_2024_01_01 90
           two_tasks _ (d_2024_01_01 + 1) H).
Defined.

(** X5: with a number of repetitions of zero or less,
    [add_task_with_repetitions] returns, stores the name with an empty
    interval list (replacing an earlier definition) and leaves the index
    as it was, whatever the interval and the start date. *)
Theorem add_task_with_repetitions_below_one_schedules_nothing
    (today : Z) (name : string) (k n : Z) (start : option Z)
    (s : TaskScheduler) :
  n <= 0 ->
  exists s',
    add_task_with_repetitions today name k n start s = (Ok tt, s') /\
    dict_get name (tasks s') =
      Some {| Task.intervals := [];
              Task.start_date := default today start |} /\
    schedule s' = schedule s.
Proof.
  intros Hn. unfold add_task_with_repetitions.
  replace (Z.to_nat n) with 0%nat by lia. simpl.
  eexists. split; [reflexivity|]. simpl. split; [apply dict_get_set_eq|done].
Qed.

Lemma add_task_with_repetitions_below_one_schedules_nothing_witness :
  -3 <= 0 /\
  exists s',
    add_task_with_repetitions d_2024_01_01 "A" 7 (-3) None two_tasks
      = (Ok tt, s') /\
    dict_get "A" (tasks s') =
      Some {| Task.intervals := [];
              Task.start_date := default d_2024_01_01 None |} /\
    schedule s' = schedule two_tasks.
Proof.
  split; [lia|].
  apply (add_task_with_repetitions_below_one_schedules_nothing
           d_2024_01_01 "A" 7 (-3) None two_tasks).
  lia.
Defined.

Lemma hits_zero_interval start n date :
  hits start (offsets_spec 0 n) date =
  if decide (date = start) then Z.to_nat n else 0%nat.
Proof.
  unfold hits, offsets_spec.
  assert (forall l : list nat,
            length (filter (fun offset => start + offset = date)
                      (map (fun i => Z.of_nat i * 0) l)) =
            if decide (date = start) then length l else 0%nat) as Hl.
  { induction l as [|i l IH]; simpl.
    - by destruct (decide (date = start)).
    - rewrite filter_cons.
      destruct (decide (date = start)) as [->|Hne].
      + rewrite decide_True by lia. simpl. by rewrite IH.
      + rewrite decide_False by lia. exact IH. }
  by rewrite Hl, length_seq.
Qed.

(** X6: with interval zero, [add_task_with_repetitions] puts the name
    under the start date once per repetition, and changes no other
    date. *)
Theorem add_task_with_zero_interval_repeats_the_start_date
    (today : Z) (name : string) (n : Z) (start : option Z)
    (s : TaskScheduler) :
  Datetime.is_date (default today start) ->
  exists s',
    add_task_with_repetitions today name 0 n start s = (Ok tt, s') /\
    dd_get (default today start) (schedule s') =
      dd_get (default today start) (schedule s)
        ++ replicate (Z.to_nat n) name /\
    (forall date, date <> default today start ->
       dd_get date (schedule s') = dd_get date (schedule s)).
Proof.
  intros Hst. unfold add_task_with_repetitions.
  rewrite repetition_loop_offsets.
  pose proof (add_task_eq today name (offsets_spec 0 n)
                (Some (default today start)) s) as Heq.
  simpl in Heq.
  assert (snd (loop_dates (fun _ => true) (default today start)
                 (offsets_spec 0 n)) = Ok tt) as Hret.
  { apply loop_dates_returns. intros d Hd. exists (default today start + d).
    apply date_plus_Ok; [done|].
    unfold offsets_spec in Hd. apply in_map_iff in Hd as (i & <- & _).
    by rewrite Z.mul_0_r, Z.add_0_r. }
  rewrite Hret in Heq. eexists. split; [exact Heq|]. simpl.
  assert (forall date,
            dd_get date
              (append_entries
                 (map (pair name)
                    (fst (loop_dates (fun _ => true) (default today start)
                            (offsets_spec 0 n)))) (schedule s)) =
            dd_get date (schedule s) ++
            replicate (if decide (date = default today start)
                       then Z.to_nat n else 0%nat) name) as Hget.
  { intros date. rewrite dd_get_append_entries. f_equal.
    rewrite names_of_entries_on, (loop_dates_all_Ok_eq _ _ Hret).
    by rewrite hits_filter_map, hits_zero_interval. }
  split.
  - rewrite Hget. by rewrite decide_True.
  - intros date Hne. rewrite Hget, decide_False by done.
    simpl. by rewrite app_nil_r.
Qed.

Lemma add_task_with_zero_interval_repeats_the_start_date_witness :
  exists s',
    add_task_with_repetitions d_2024_01_01 "Y" 0 4 (Some (d_2024_01_01 + 31))
      init = (Ok tt, s') /\
    dd_get (default d_2024_01_01 (Some (d_2024_01_01 + 31))) (schedule s') =
      dd_get (default d_2024_01_01 (Some (d_2024_01_01 + 31))) (schedule init)
        ++ replicate (Z.to_nat 4) "Y"%string /\
    (forall date, date <> default d_2024_01_01 (Some (d_2024_01_01 + 31)) ->
       dd_get date (schedule s') = dd_get date (schedule init)).
Proof.
  apply (add_task_with_zero_interval_repeats_the_start_date
           d_2024_01_01 "Y" 4 (Some (d_2024_01_01 + 31)) init).
  vm_compute. split; discriminate.
Defined.

(** X7: whatever calls came before, re-adding included, the index that
    [generate_schedule] leaves is derivable from the stored definitions,
    provided today and the end of the window are dates. *)
Theorem generate_schedule_makes_the_index_derivable
    (calls : list (Z * op)) (today D : Z) :
  Datetime.is_date today -> Datetime.is_date (today + D) ->
  index_derivable (snd (generate_schedule today D (run calls init))).
Proof.
  intros Htoday HD. rewrite generate_schedule_eq.
  rewrite (date_plus_Ok today D Htoday HD).
  intros date n. simpl. rewrite elem_of_dd_get_append_entries, dd_get_empty.
  intros [[]|(_ & info & Hin & Hder)%regen_entries_sound].
  exists info. split; [|done]. apply In_dict_get; [|done].
  apply (reachable_names_unique (run calls init)). by exists calls.
Qed.

Lemma generate_schedule_makes_the_index_derivable_witness :
  Datetime.is_date d_2024_01_01 /\ Datetime.is_date (d_2024_01_01 + 90) /\
  index_derivable
    (snd (generate_schedule d_2024_01_01 90 (run readded init))).
Proof.
  assert (Datetime.is_date d_2024_01_01) as H1
    by (vm_compute; split; discriminate).
  assert (Datetime.is_date (d_2024_01_01 + 90)) as H2
    by (vm_compute; split; discriminate).
  split; [exact H1|]. split; [exact H2|].
  exact (generate_schedule_makes_the_index_derivable readded
           d_2024_01_01 90 H1 H2).
Defined.

(** * The calendar printer *)

Lemma fits_int_small n :
  -2147483648 <= n <= 2147483647 -> CalendarMonth.fits_int n = true.
Proof.
  intros Hn. unfold CalendarMonth.fits_int.
  apply andb_true_iff. split; apply Z.leb_le; lia.
Qed.

Lemma calendar_date_valid year month day :
  Datetime.MINYEAR <= year <= Datetime.MAXYEAR -> 1 <= month <= 12 ->
  1 <= day <= Datetime._days_in_month year month ->
  CalendarMonth.date year month day =
  Returned (Datetime._ymd2ord year month day).
Proof.
  intros Hy Hm Hd. unfold CalendarMonth.date.
  pose proof (days_in_month_le_31 year month) as H31.
  unfold Datetime.MINYEAR, Datetime.MAXYEAR in Hy.
  rewrite !fits_int_small by lia. cbn [andb negb].
  destruct (Z.leb_spec Datetime.MINYEAR year);
    [|unfold Datetime.MINYEAR in *; lia].
  destruct (Z.leb_spec year Datetime.MAXYEAR);
    [|unfold Datetime.MAXYEAR in *; lia].
  destruct (Z.leb_spec 1 month); [|lia].
  destruct (Z.leb_spec month 12); [|lia].
  destruct (Z.leb_spec 1 day); [|lia].
  destruct (Z.leb_spec day (Datetime._days_in_month year month)); [|lia].
  reflexivity.
Qed.

Lemma monthrange_valid year month :
  1 <= month <= 12 ->
  CalendarMonth.monthrange year month =
  Returned (CalendarMonth.weekday year month 1,
            Datetime._days_in_month year month).
Proof.
  intros Hm. unfold CalendarMonth.monthrange.
  destruct (Z.leb_spec 1 month); [|lia].
  destruct (Z.leb_spec month 12); [|lia]. simpl. do 2 f_equal.
  unfold Datetime._days_in_month, CalendarMonth.isleap, Datetime._is_leap.
  assert (month = 1 \/ month = 2 \/ month = 3 \/ month = 4 \/ month = 5 \/
          month = 6 \/ month = 7 \/ month = 8 \/ month = 9 \/ month = 10 \/
          month = 11 \/ month = 12) as Hcases by lia.
  destruct Hcases as [->|[->|[->|[->|[->|[->|[->|[->|[->|[->|[->| ->]]]]]]]]]]];
    try reflexivity.
  simpl. by destruct (_ && _).
Qed.

Lemma monthrange_invalid year month :
  ~ 1 <= month <= 12 ->
  CalendarMonth.monthrange year month = Raised Py.IllegalMonthError.
Proof.
  intros Hm. unfold CalendarMonth.monthrange.
  destruct (Z.leb_spec 1 month); destruct (Z.leb_spec month 12);
    simpl; try done; lia.
Qed.

Lemma week_loop_eq year month week week_str w :
  Datetime.MINYEAR <= year <= Datetime.MAXYEAR -> 1 <= month <= 12 ->
  Forall (fun day => day = 0 \/
                     1 <= day <= Datetime._days_in_month year month) week ->
  week_loop year month week week_str w =
  (Returned
     (fold_left (fun acc day =>
                   (acc ++ day_cell (scheduler w) year month day)%string)
        week week_str), w).
Proof.
  intros Hy Hm Hweek. revert week_str.
  induction Hweek as [|day week Hday Hweek IH]; intros week_str; [done|].
  cbn [week_loop fold_left]. unfold day_cell at 2.
  destruct (Z.eqb_spec day 0) as [->|Hne]; [apply IH|].
  destruct Hday as [?|Hday]; [done|].
  rewrite calendar_date_valid by done.
  unfold io_bind at 1, io_lift at 1. unfold io_bind at 1, schedule_get at 1.
  destruct (dd_get _ _) as [|t ts]; simpl; apply IH.
Qed.

Lemma print_eq text w :
  print text w =
  (Returned tt, {| scheduler := scheduler w;
                   stdout := stdout w ++ [Print text];
                   stdin := stdin w; files := files w |}).
Proof. reflexivity. Qed.

Lemma grid_loop_eq year month (weeks : list (list Z)) w :
  Datetime.MINYEAR <= year <= Datetime.MAXYEAR -> 1 <= month <= 12 ->
  Forall (Forall (fun day => day = 0 \/
                    1 <= day <= Datetime._days_in_month year month)) weeks ->
  io_for_each weeks (fun week =>
    let# week_str := week_loop year month week "" in
    print week_str) w =
  (Returned tt,
   {| scheduler := scheduler w;
      stdout := stdout w
                ++ map (fun week =>
                          Print (week_row (scheduler w) year month week))
                     weeks;
      stdin := stdin w; files := files w |}).
Proof.
  intros Hy Hm Hweeks. revert w.
  induction Hweeks as [|week weeks Hweek Hweeks IH]; intros w.
  - simpl. rewrite app_nil_r. by destruct w.
  - cbn [io_for_each]. unfold io_bind at 1. unfold io_bind at 1.
    rewrite week_loop_eq by done. rewrite print_eq, IH. simpl.
    by rewrite <- app_assoc.
Qed.

Lemma listing_loop_eq year month (days : list Z) w :
  Datetime.MINYEAR <= year <= Datetime.MAXYEAR -> 1 <= month <= 12 ->
  Forall (fun day => 1 <= day <= Datetime._days_in_month year month) days ->
  io_for_each days (fun day =>
    let# date := io_lift (CalendarMonth.date year month day) in
    let# tasks := schedule_get date in
    match tasks with
    | [] => io_ret tt
    | _ => print (task_line date tasks)
    end) w =
  (Returned tt,
   {| scheduler := scheduler w;
      stdout := stdout w
                ++ map (fun date =>
                          Print (line_of_record
                                   (record_of (scheduler w) date)))
                     (filter (has_tasks (scheduler w))
                        (map (Datetime._ymd2ord year month) days));
      stdin := stdin w; files := files w |}).
Proof.
  intros Hy Hm Hdays. revert w.
  induction Hdays as [|day days Hday Hdays IH]; intros w.
  - simpl. rewrite app_nil_r. by destruct w.
  - cbn [io_for_each map]. unfold io_bind at 1. unfold io_bind at 1.
    rewrite calendar_date_valid by done. unfold io_lift at 1.
    unfold io_bind at 1, schedule_get at 1.
    rewrite filter_cons.
    destruct (decide (has_tasks (scheduler w)
                        (Datetime._ymd2ord year month day))) as [Hh|Hh];
      unfold has_tasks in Hh;
      destruct (dd_get (Datetime._ymd2ord year month day)
                  (schedule (scheduler w))) as [|t ts] eqn:Hget;
      try done.
    + rewrite print_eq, IH. simpl. rewrite <- app_assoc. simpl.
      unfold record_of, task_line. by rewrite Hget.
    + unfold io_ret at 1. apply IH.
    + by destruct Hh.
Qed.

Lemma Forall_seqZ_bounds (m len : Z) :
  Forall (fun day => m <= day <= m + len - 1) (seqZ m len).
Proof.
  apply Forall_forall. intros d Hd. apply elem_of_seqZ in Hd. lia.
Qed.

Lemma weeks_of_days_Forall (P : Z -> Prop) fuel days :
  Forall P days -> Forall (Forall P) (CalendarMonth.weeks_of fuel days).
Proof.
  revert days. induction fuel as [|fuel IH]; intros days Hdays; simpl.
  - constructor.
  - destruct days as [|d days]; [constructor|].
    constructor; [by apply Forall_take|]. by apply IH, Forall_drop.
Qed.

Lemma weekday_range d : 0 <= Datetime.weekday d < 7.
Proof. unfold Datetime.weekday. apply Z.mod_pos_bound. lia. Qed.

Lemma itermonthdays_valid year month :
  1 <= month <= 12 ->
  CalendarMonth.itermonthdays year month =
  Returned
    (replicate (Z.to_nat (CalendarMonth.weekday year month 1)) 0
     ++ seqZ 1 (Datetime._days_in_month year month)
     ++ replicate
          (Z.to_nat ((0 - CalendarMonth.weekday year month 1
                      - Datetime._days_in_month year month) mod 7)) 0).
Proof.
  intros Hm. unfold CalendarMonth.itermonthdays.
  rewrite monthrange_valid by done.
  rewrite Z.sub_0_r, Z.mod_small; [done|].
  unfold CalendarMonth.weekday. apply weekday_range.
Qed.


Lemma monthcalendar_valid year month :
  1 <= month <= 12 ->
  CalendarMonth.monthcalendar year month = Returned (month_weeks year month) /\
  Forall (Forall (fun day => day = 0 \/
                    1 <= day <= Datetime._days_in_month year month))
    (month_weeks year month).
Proof.
  intros Hm. unfold month_weeks, CalendarMonth.monthcalendar.
  rewrite itermonthdays_valid by done. split; [done|].
  apply weeks_of_days_Forall. rewrite !Forall_app. repeat split.
  - apply Forall_replicate. by left.
  - eapply Forall_impl; [apply Forall_seqZ_bounds|].
    intros d Hd. simpl in Hd. right. lia.
  - apply Forall_replicate. by left.
Qed.

Lemma print_monthly_calendar_eq today year month w :
  Datetime.MINYEAR <= year <= Datetime.MAXYEAR -> 1 <= month <= 12 ->
  print_monthly_calendar today (Some year) (Some month) w =
  (Returned tt,
   {| scheduler := scheduler w;
      stdout := stdout w ++ calendar_output (scheduler w) year month;
      stdin := stdin w; files := files w |}).
Proof.
  intros Hy Hm. unfold print_monthly_calendar.
  destruct (monthcalendar_valid year month Hm) as [Hcal Hweeks].
  rewrite Hcal. unfold io_bind at 1, io_lift at 1.
  unfold io_bind at 1. rewrite print_eq.
  unfold io_bind at 1. rewrite print_eq.
  unfold io_bind at 1. rewrite grid_loop_eq by done.
  unfold io_bind at 1. rewrite print_eq.
  rewrite monthrange_valid by done. unfold io_bind at 1, io_lift at 1.
  cbn [snd]. rewrite listing_loop_eq; [|done|done|].
  2:{ eapply Forall_impl; [apply Forall_seqZ_bounds|].
      intros d Hd. simpl in Hd. lia. }
  cbn [scheduler stdout stdin]. unfold calendar_output, month_dates.
  by rewrite <- !app_assoc.
Qed.

(** *** The week grid *)

Lemma weeks_of_step fuel (days : list Z) :
  days <> [] ->
  CalendarMonth.weeks_of (S fuel) days =
  take 7 days :: CalendarMonth.weeks_of fuel (drop 7 days).
Proof. by destruct days. Qed.

Lemma weeks_of_concat fuel days :
  (length days <= fuel)%nat ->
  concat (CalendarMonth.weeks_of fuel days) = days.
Proof.
  revert days. induction fuel as [|fuel IH]; intros days Hlen.
  - destruct days; [done|simpl in Hlen; lia].
  - destruct (decide (days = [])) as [->|Hne]; [done|].
    rewrite weeks_of_step by done. cbn [concat]. rewrite IH.
    + apply take_drop.
    + rewrite length_drop. destruct days; [done|]. simpl in *. lia.
Qed.

Lemma weeks_of_lengths fuel days k :
  (length days <= fuel)%nat -> length days = (7 * k)%nat ->
  Forall (fun week => length week = 7%nat) (CalendarMonth.weeks_of fuel days).
Proof.
  revert days k. induction fuel as [|fuel IH]; intros days k Hfuel Hlen.
  - constructor.
  - destruct (decide (days = [])) as [->|Hne]; [constructor|].
    rewrite weeks_of_step by done.
    destruct k as [|k]; [destruct days; [done|simpl in Hlen; lia]|].
    constructor.
    + rewrite length_take. lia.
    + apply (IH _ k); rewrite length_drop; lia.
Qed.

Lemma weeks_of_lookup fuel days i j week d :
  CalendarMonth.weeks_of fuel days !! i = Some week ->
  week !! j = Some d ->
  days !! (7 * i + j)%nat = Some d /\ (j < 7)%nat.
Proof.
  revert days i. induction fuel as [|fuel IH]; intros days i; [done|].
  destruct (decide (days = [])) as [->|Hne]; [done|].
  rewrite weeks_of_step by done.
  destruct i as [|i].
  - intros [= <-] Hj. apply lookup_take_Some in Hj as [Hj Hlt].
    by rewrite Nat.mul_0_r.
  - intros Hweek Hj. destruct (IH _ _ Hweek Hj) as [Hd Hlt].
    split; [|done]. rewrite lookup_drop in Hd.
    replace (7 * S i + j)%nat with (7 + (7 * i + j))%nat by lia. done.
Qed.

Lemma ymd2ord_day year month day :
  Datetime._ymd2ord year month day =
  Datetime._ymd2ord year month 1 + (day - 1).
Proof. unfold Datetime._ymd2ord. lia. Qed.

Lemma weekday_of_day year month day :
  Datetime.MINYEAR <= year <= Datetime.MAXYEAR ->
  Datetime.weekday (Datetime._ymd2ord year month day) =
  (CalendarMonth.weekday year month 1 + (day - 1)) mod 7.
Proof.
  intros Hy. unfold CalendarMonth.weekday.
  destruct (Z.leb_spec Datetime.MINYEAR year); [|lia].
  destruct (Z.leb_spec year Datetime.MAXYEAR); [|lia]. simpl.
  rewrite (ymd2ord_day year month day). unfold Datetime.weekday.
  rewrite Zplus_mod_idemp_l. f_equal. lia.
Qed.

Lemma month_days_lookup (b a : nat) (dim : Z) (p : nat) (d : Z) :
  (replicate b 0 ++ seqZ 1 dim ++ replicate a 0) !! p = Some d ->
  d <> 0 -> Z.of_nat p = Z.of_nat b + (d - 1) /\ 1 <= d <= dim.
Proof.
  intros Hp Hd. apply lookup_app_Some in Hp as [Hp|[Hge Hp]].
  { apply lookup_replicate in Hp as [-> _]. done. }
  rewrite length_replicate in Hge, Hp.
  apply lookup_app_Some in Hp as [Hp|[_ Hp]].
  - apply lookup_seqZ in Hp as [-> Hlt]. lia.
  - apply lookup_replicate in Hp as [-> _]. done.
Qed.

Lemma month_days_length year month :
  1 <= month <= 12 ->
  exists k,
    length (replicate (Z.to_nat (CalendarMonth.weekday year month 1)) 0
            ++ seqZ 1 (Datetime._days_in_month year month)
            ++ replicate
                 (Z.to_nat ((0 - CalendarMonth.weekday year month 1
                             - Datetime._days_in_month year month) mod 7)) 0)
    = (7 * k)%nat.
Proof.
  intros Hm. rewrite !length_app, !length_replicate, length_seqZ.
  pose proof (weekday_range
                (Datetime._ymd2ord
                   (if (Datetime.MINYEAR <=? year) && (year <=? Datetime.MAXYEAR)
                    then year else 2000 + year mod 400) month 1)) as Hb.
  fold (CalendarMonth.weekday year month 1) in Hb.
  set (b := CalendarMonth.weekday year month 1) in *.
  set (dim := Datetime._days_in_month year month).
  assert (0 <= dim) as Hdim.
  { unfold dim, Datetime._days_in_month. destruct (_ && _); [lia|].
    assert (month = 1 \/ month = 2 \/ month = 3 \/ month = 4 \/ month = 5 \/
            month = 6 \/ month = 7 \/ month = 8 \/ month = 9 \/ month = 10 \/
            month = 11 \/ month = 12) as Hcases by lia.
    destruct Hcases as [->|[->|[->|[->|[->|[->|[->|[->|[->|[->|[->| ->]]]]]]]]]]];
      simpl; lia. }
  pose proof (Z.mod_pos_bound (0 - b - dim) 7 ltac:(lia)) as Ha.
  pose proof (Z.div_mod (0 - b - dim) 7 ltac:(lia)) as Hdiv.
  exists (Z.to_nat (- ((0 - b - dim) / 7))). lia.
Qed.

Lemma format_2d_width_check :
  range_all (fun d => Nat.eqb (String.length (CalendarMonth.format_2d d)) 2)
    1 31 = true.
Proof. vm_compute. reflexivity. Qed.

Lemma format_2d_width d :
  1 <= d <= 31 -> String.length (CalendarMonth.format_2d d) = 2%nat.
Proof.
  intros Hd. apply Nat.eqb_eq.
  apply (range_all_true _ _ _ format_2d_width_check d). lia.
Qed.

Lemma day_cell_width s year month d :
  d = 0 \/ 1 <= d <= Datetime._days_in_month year month ->
  String.length (day_cell s year month d) = 4%nat.
Proof.
  intros Hd. unfold day_cell.
  destruct (Z.eqb_spec d 0) as [->|Hne]; [done|].
  destruct Hd as [?|Hd]; [done|].
  pose proof (days_in_month_le_31 year month).
  rewrite string_length_app, format_2d_width by lia.
  by destruct (dd_get _ _).
Qed.

Lemma week_row_width s year month week :
  Forall (fun d => d = 0 \/ 1 <= d <= Datetime._days_in_month year month)
    week ->
  String.length (week_row s year month week) = (4 * length week)%nat.
Proof.
  intros Hweek. unfold week_row.
  assert (forall acc,
            String.length
              (fold_left (fun acc day =>
                            (acc ++ day_cell s year month day)%string)
                 week acc) = (String.length acc + 4 * length week)%nat) as H.
  { induction Hweek as [|d week Hd Hweek IH]; intros acc; simpl; [lia|].
    rewrite IH, string_length_app, day_cell_width by done. lia. }
  by rewrite H.
Qed.

Lemma concat_month_weeks year month :
  1 <= month <= 12 ->
  concat (month_weeks year month) =
  replicate (Z.to_nat (CalendarMonth.weekday year month 1)) 0
  ++ seqZ 1 (Datetime._days_in_month year month)
  ++ replicate
       (Z.to_nat ((0 - CalendarMonth.weekday year month 1
                   - Datetime._days_in_month year month) mod 7)) 0.
Proof.
  intros Hm. unfold month_weeks, CalendarMonth.monthcalendar.
  rewrite itermonthdays_valid by done. by apply weeks_of_concat.
Qed.

(** *** Sorted lists of dates *)

Lemma StronglySorted_seqZ m n : StronglySorted Z.lt (seqZ m n).
Proof.
  destruct (decide (n <= 0)) as [Hn|Hn].
  { unfold seqZ. replace (Z.to_nat n) with 0%nat by lia. constructor. }
  rewrite <- (Z2Nat.id n) by lia. generalize (Z.to_nat n) as k. clear.
  intros k. revert m. induction k as [|k IH]; intros m; [constructor|].
  rewrite seqZ_cons by lia. constructor.
  - replace (Z.pred (Z.of_nat (S k))) with (Z.of_nat k) by lia. apply IH.
  - apply Forall_forall. intros x Hx. apply elem_of_seqZ in Hx. lia.
Qed.

Lemma StronglySorted_map_lt (f : Z -> Z) (l : list Z) :
  (forall x y, x < y -> f x < f y) ->
  StronglySorted Z.lt l -> StronglySorted Z.lt (map f l).
Proof.
  intros Hf. induction 1 as [|x l Hl IH Hx]; simpl; constructor; [done|].
  rewrite Forall_forall in *.
  intros y (x' & <- & Hx')%list_elem_of_In%in_map_iff.
  apply Hf, Hx. by apply list_elem_of_In.
Qed.

Lemma StronglySorted_filter_lt (P : Z -> Prop) `{!forall x, Decision (P x)}
    (l : list Z) :
  StronglySorted Z.lt l -> StronglySorted Z.lt (filter P l).
Proof.
  induction 1 as [|x l Hl IH Hx]; [constructor|].
  rewrite filter_cons. destruct (decide (P x)); [|done].
  constructor; [done|]. rewrite Forall_forall in *.
  intros y [_ Hy]%list_elem_of_filter. by apply Hx.
Qed.

Lemma month_dates_sorted year month :
  StronglySorted Z.lt (month_dates year month).
Proof.
  unfold month_dates. apply StronglySorted_map_lt; [|apply StronglySorted_seqZ].
  intros x y Hxy. unfold Datetime._ymd2ord. lia.
Qed.

Lemma has_tasks_returns s date :
  has_tasks s date <->
  exists name, returns_with (get_tasks_for_date date) s name.
Proof.
  unfold has_tasks. rewrite non_empty_has_member.
  apply exist_proper. intros name.
  by rewrite returns_with_get_tasks_for_date.
Qed.

(** X8: for a year and a month of the calendar, [print_monthly_calendar]
    returns, changes neither the scheduler nor the input nor the files,
    and after the grid and the line "Tasks this month:" prints one line
    per date of the month that has tasks, in ascending order, each made of
    the three fields of the date's export record. *)
Theorem print_monthly_calendar_lists_the_tasks_of_the_month
    (today year month : Z) (w : world) :
  Datetime.MINYEAR <= year <= Datetime.MAXYEAR -> 1 <= month <= 12 ->
  exists grid dates,
    print_monthly_calendar today (Some year) (Some month) w =
    (Returned tt,
     {| scheduler := scheduler w;
        stdout := stdout w ++ grid
                  ++ [Print (nl ++ "Tasks this month:")]
                  ++ map (fun date =>
                            Print (line_of_record
                                     (record_of (scheduler w) date))) dates;
        stdin := stdin w; files := files w |}) /\
    StronglySorted Z.lt dates /\
    (forall date,
       In date dates <->
       (exists day, 1 <= day <= Datetime._days_in_month year month /\
                    date = Datetime._ymd2ord year month day) /\
       exists name,
         returns_with (get_tasks_for_date date) (scheduler w) name).
Proof.
  intros Hy Hm.
  exists ([Print (nl ++ CalendarMonth.month_name month ++ " " ++ pretty year);
           Print "Mon Tue Wed Thu Fri Sat Sun"]
          ++ map (fun week => Print (week_row (scheduler w) year month week))
               (month_weeks year month)),
         (filter (has_tasks (scheduler w)) (month_dates year month)).
  split; [|split].
  - rewrite print_monthly_calendar_eq by done. unfold calendar_output.
    by rewrite <- !app_assoc.
  - apply StronglySorted_filter_lt, month_dates_sorted.
  - intros date. rewrite <- list_elem_of_In, list_elem_of_filter.
    rewrite has_tasks_returns, list_elem_of_In. unfold month_dates.
    rewrite in_map_iff. split.
    + intros [Hh (day & <- & Hday)]. split; [|done].
      exists day. split; [|done].
      apply list_elem_of_In, elem_of_seqZ in Hday. lia.
    + intros [(day & Hday & ->) Hh]. split; [done|].
      exists day. split; [done|]. apply list_elem_of_In, elem_of_seqZ. lia.
Qed.

Lemma filter_nonzero_month_days (b a : nat) (dim : Z) :
  filter (fun d => d <> 0) (replicate b 0 ++ seqZ 1 dim ++ replicate a 0)
  = seqZ 1 dim.
Proof.
  assert (forall k, filter (fun d : Z => d <> 0) (replicate k 0) = []) as H0.
  { induction k as [|k IH]; [done|]. simpl. by rewrite filter_cons, IH. }
  rewrite !filter_app, !H0, app_nil_r. simpl.
  assert (forall l : list Z, Forall (fun d => d <> 0) l ->
                             filter (fun d => d <> 0) l = l) as Hall.
  { induction 1 as [|x l Hx Hl IH]; [done|].
    by rewrite filter_cons, decide_True, IH. }
  apply Hall. apply Forall_forall. intros d Hd%elem_of_seqZ. lia.
Qed.

(** X9: the grid of [print_monthly_calendar] follows the heading: each row
    is a week of seven cells on 28 characters, the days of the month
    appear once each in order, a day stands in the column of its weekday
    (Monday first), and its cell carries a star exactly when the date has
    tasks. *)
Theorem print_monthly_calendar_grid_follows_the_weekdays
    (today year month : Z) (w : world) :
  Datetime.MINYEAR <= year <= Datetime.MAXYEAR -> 1 <= month <= 12 ->
  exists weeks rest,
    stdout (snd (print_monthly_calendar today (Some year) (Some month) w)) =
      stdout w
      ++ [Print (nl ++ CalendarMonth.month_name month ++ " " ++ pretty year);
          Print "Mon Tue Wed Thu Fri Sat Sun"]
      ++ map (fun week => Print (week_row (scheduler w) year month week))
           weeks
      ++ rest /\
    Forall (fun week =>
              length week = 7%nat /\
              String.length (week_row (scheduler w) year month week)
              = 28%nat) weeks /\
    filter (fun day => day <> 0) (concat weeks) =
      seqZ 1 (Datetime._days_in_month year month) /\
    (forall i j week day,
       weeks !! i = Some week -> week !! j = Some day -> day <> 0 ->
       Datetime.weekday (Datetime._ymd2ord year month day) = Z.of_nat j /\
       day_cell (scheduler w) year month day =
         (CalendarMonth.format_2d day
          ++ if decide (has_tasks (scheduler w)
                          (Datetime._ymd2ord year month day))
             then "* " else "  ")%string).
Proof.
  intros Hy Hm. exists (month_weeks year month). eexists.
  split; [|split; [|split]].
  - rewrite print_monthly_calendar_eq by done. simpl.
    unfold calendar_output. reflexivity.
  - destruct (monthcalendar_valid year month Hm) as [_ Hdays].
    assert (Forall (fun week => length week = 7%nat)
              (month_weeks year month)) as Hlen.
    { unfold month_weeks, CalendarMonth.monthcalendar.
      rewrite itermonthdays_valid by done.
      destruct (month_days_length year month Hm) as [k Hk].
      by apply (weeks_of_lengths _ _ k). }
    rewrite Forall_forall in *. intros week Hweek. split; [by apply Hlen|].
    rewrite week_row_width by by apply Hdays. by rewrite Hlen.
  - rewrite concat_month_weeks by done. apply filter_nonzero_month_days.
  - intros i j week day Hi Hj Hday.
    unfold month_weeks, CalendarMonth.monthcalendar in Hi.
    rewrite itermonthdays_valid in Hi by done.
    destruct (weeks_of_lookup _ _ _ _ _ _ Hi Hj) as [Hp Hj7].
    apply month_days_lookup in Hp as [Hp Hrange]; [|done].
    split.
    + rewrite weekday_of_day by done.
      pose proof (weekday_range
                    (Datetime._ymd2ord
                       (if (Datetime.MINYEAR <=? year)
                           && (year <=? Datetime.MAXYEAR)
                        then year else 2000 + year mod 400) month 1)) as Hb.
      fold (CalendarMonth.weekday year month 1) in Hb.
      rewrite Z2Nat.id in Hp by lia.
      replace (CalendarMonth.weekday year month 1 + (day - 1))
        with (Z.of_nat j + Z.of_nat i * 7) by lia.
      rewrite Z.mod_add by lia. apply Z.mod_small. lia.
    + unfold day_cell, has_tasks.
      destruct (Z.eqb_spec day 0); [done|].
      by destruct (dd_get _ _).
Qed.

(** X10: for a month outside 1..12, [print_monthly_calendar] raises
    [IllegalMonthError] before it prints anything. *)
Theorem print_monthly_calendar_rejects_a_month_out_of_range
    (today year month : Z) (w : world) :
  ~ 1 <= month <= 12 ->
  print_monthly_calendar today (Some year) (Some month) w =
  (Raised Py.IllegalMonthError, w).
Proof.
  intros Hm. unfold print_monthly_calendar, CalendarMonth.monthcalendar,
    CalendarMonth.itermonthdays.
  by rewrite monthrange_invalid.
Qed.

Lemma calendar_date_invalid_year year month day :
  ~ Datetime.MINYEAR <= year <= Datetime.MAXYEAR ->
  1 <= month <= 12 -> 0 <= day <= 31 ->
  CalendarMonth.date year month day =
  Raised (if CalendarMonth.fits_int year
          then Py.ValueError else Py.OverflowError).
Proof.
  intros Hy Hm Hd. unfold CalendarMonth.date.
  rewrite (fits_int_small month), (fits_int_small day) by lia.
  destruct (CalendarMonth.fits_int year); [|done]. cbn [andb negb].
  destruct (Z.leb_spec Datetime.MINYEAR year);
    destruct (Z.leb_spec year Datetime.MAXYEAR); simpl; try done; lia.
Qed.

Lemma week_loop_invalid_year year month week week_str w :
  ~ Datetime.MINYEAR <= year <= Datetime.MAXYEAR -> 1 <= month <= 12 ->
  Forall (fun day => 0 <= day <= 31) week ->
  (exists day, In day week /\ day <> 0) ->
  week_loop year month week week_str w =
  (Raised (if CalendarMonth.fits_int year
           then Py.ValueError else Py.OverflowError), w).
Proof.
  intros Hy Hm Hweek. revert week_str.
  induction Hweek as [|d week Hd Hweek IH]; intros week_str (day & Hin & Hday).
  - destruct Hin.
  - cbn [week_loop]. destruct (Z.eqb_spec d 0) as [->|Hne].
    + apply IH. exists day. split; [|done]. by destruct Hin as [<-|Hin].
    + by rewrite calendar_date_invalid_year.
Qed.

Lemma days_in_month_ge_28 year month :
  1 <= month <= 12 -> 28 <= Datetime._days_in_month year month.
Proof.
  intros Hm. unfold Datetime._days_in_month. destruct (_ && _); [lia|].
  assert (month = 1 \/ month = 2 \/ month = 3 \/ month = 4 \/ month = 5 \/
          month = 6 \/ month = 7 \/ month = 8 \/ month = 9 \/ month = 10 \/
          month = 11 \/ month = 12) as Hcases by lia.
  destruct Hcases as [->|[->|[->|[->|[->|[->|[->|[->|[->|[->|[->| ->]]]]]]]]]]];
    simpl; lia.
Qed.

Lemma month_weeks_first year month :
  1 <= month <= 12 ->
  exists week weeks,
    month_weeks year month = week :: weeks /\ In 1 week.
Proof.
  intros Hm. unfold month_weeks, CalendarMonth.monthcalendar.
  rewrite itermonthdays_valid by done.
  set (b := Z.to_nat (CalendarMonth.weekday year month 1)).
  set (dim := Datetime._days_in_month year month).
  set (days := replicate b 0 ++ seqZ 1 dim ++ replicate _ 0).
  assert (days !! b = Some 1) as Hb.
  { unfold days. rewrite lookup_app_r by (rewrite length_replicate; lia).
    rewrite length_replicate, Nat.sub_diag.
    rewrite lookup_app_l.
    - apply lookup_seqZ. pose proof (days_in_month_ge_28 year month Hm).
      fold dim in H. lia.
    - rewrite length_seqZ. pose proof (days_in_month_ge_28 year month Hm).
      fold dim in H. lia. }
  assert (b < 7)%nat as Hb7.
  { unfold b, CalendarMonth.weekday.
    pose proof (weekday_range
                  (Datetime._ymd2ord
                     (if (Datetime.MINYEAR <=? year)
                         && (year <=? Datetime.MAXYEAR)
                      then year else 2000 + year mod 400) month 1)). lia. }
  destruct (length days) as [|fuel] eqn:Hlen.
  { apply lookup_lt_Some in Hb. lia. }
  rewrite weeks_of_step by (intros ->; done).
  eexists _, _. split; [reflexivity|].
  apply list_elem_of_In, list_elem_of_lookup. exists b.
  by apply lookup_take_Some.
Qed.

Lemma first_week_of_month year month :
  1 <= month <= 12 ->
  exists week weeks,
    CalendarMonth.monthcalendar year month = Returned (week :: weeks) /\
    Forall (fun day => 0 <= day <= 31) week /\
    (exists day, In day week /\ day <> 0).
Proof.
  intros Hm.
  destruct (monthcalendar_valid year month Hm) as [Hcal Hdays].
  destruct (month_weeks_first year month Hm) as (week & weeks & Hweeks & H1).
  rewrite Hweeks in Hcal, Hdays. exists week, weeks. split; [done|].
  split; [|by exists 1].
  apply Forall_cons in Hdays as [Hweek _].
  eapply Forall_impl; [exact Hweek|]. intros day Hday. simpl in Hday.
  pose proof (days_in_month_le_31 year month). lia.
Qed.


(** X12: when the year or the month is omitted, [print_monthly_calendar]
    ignores the other one too and prints the month of today; that call
    returns. *)
Theorem print_monthly_calendar_needs_both_year_and_month
    (today : Z) (year month : option Z) (w : world) :
  year = None \/ month = None ->
  Datetime.is_date today ->
  print_monthly_calendar today year month w =
    print_monthly_calendar today (Some (CalendarMonth.year_of today))
      (Some (CalendarMonth.month_of today)) w /\
  fst (print_monthly_calendar today year month w) = Returned tt.
Proof.
  intros Hnone Htoday.
  assert (print_monthly_calendar today year month w =
          print_monthly_calendar today (Some (CalendarMonth.year_of today))
            (Some (CalendarMonth.month_of today)) w) as Heq.
  { unfold print_monthly_calendar.
    destruct Hnone as [-> | ->]; [done|by destruct year]. }
  split; [exact Heq|]. rewrite Heq.
  destruct (ord2ymd_correct today Htoday) as (y & m & d & Hymd & Hcal & _).
  unfold CalendarMonth.year_of, CalendarMonth.month_of. rewrite Hymd. simpl.
  destruct Hcal as (Hy & Hm & _).
  by rewrite print_monthly_calendar_eq.
Qed.

Lemma StronglySorted_lt_ext (l1 l2 : list Z) :
  StronglySorted Z.lt l1 -> StronglySorted Z.lt l2 ->
  (forall x, In x l1 <-> In x l2) -> l1 = l2.
Proof.
  intros H1. revert l2.
  induction H1 as [|x l1 Hl1 IH Hx]; intros l2 H2 Hext.
  - destruct l2 as [|y l2]; [done|]. destruct (proj2 (Hext y)). by left.
  - destruct H2 as [|y l2 Hl2 Hy].
    { destruct (proj1 (Hext x)). by left. }
    rewrite Forall_forall in Hx, Hy.
    assert (x = y) as ->.
    { destruct (proj1 (Hext x)) as [->|Hin]; [by left|done|].
      destruct (proj2 (Hext y)) as [->|Hin']; [by left|done|].
      apply list_elem_of_In in Hin, Hin'.
      specialize (Hx _ Hin'). specialize (Hy _ Hin). lia. }
    f_equal. apply IH; [done|]. intros z. split; intros Hz.
    + destruct (proj1 (Hext z)) as [->|Hin]; [by right| |done].
      apply list_elem_of_In in Hz. specialize (Hx _ Hz). lia.
    + destruct (proj2 (Hext z)) as [->|Hin]; [by right| |done].
      apply list_elem_of_In in Hz. specialize (Hy _ Hz). lia.
Qed.

(** X13: on a scheduler reached by method calls, the lines
    [print_monthly_calendar] lists are those of the records
    [export_to_csv] writes, restricted to the dates of the month, in the
    same order. *)
Theorem print_monthly_calendar_lists_the_export_records_of_the_month
    (today year month : Z) (filename : string) (w : world) :
  reachable (scheduler w) ->
  Datetime.MINYEAR <= year <= Datetime.MAXYEAR -> 1 <= month <= 12 ->
  exists dates grid,
    export_to_csv filename (scheduler w) =
      (Ok (filename,
           ["Date"; "Day"; "Tasks"]%string
             :: map (record_of (scheduler w)) dates), scheduler w) /\
    stdout (snd (print_monthly_calendar today (Some year) (Some month) w)) =
      stdout w ++ grid
      ++ [Print (nl ++ "Tasks this month:")]
      ++ map (fun date =>
                Print (line_of_record (record_of (scheduler w) date)))
           (filter (fun date => date ∈ month_dates year month) dates).
Proof.
  intros Hs Hy Hm. exists (keys_sorted (schedule (scheduler w))).
  exists ([Print (nl ++ CalendarMonth.month_name month ++ " " ++ pretty year);
           Print "Mon Tue Wed Thu Fri Sat Sun"]
          ++ map (fun week => Print (week_row (scheduler w) year month week))
               (month_weeks year month)).
  split; [apply export_to_csv_eq|].
  rewrite print_monthly_calendar_eq by done. cbn [snd stdout].
  unfold calendar_output. rewrite <- !app_assoc. do 5 f_equal.
  apply StronglySorted_lt_ext.
  - apply StronglySorted_filter_lt, month_dates_sorted.
  - apply StronglySorted_filter_lt, keys_sorted_ascending.
  - intros date. rewrite <- !list_elem_of_In, !list_elem_of_filter.
    rewrite (list_elem_of_In (keys_sorted _) date), In_keys_sorted.
    unfold has_tasks, dd_get.
    split.
    + intros [Hh Hin]. split; [done|].
      destruct (schedule (scheduler w) !! date); [eauto|done].
    + intros [Hin [l Hl]]. split; [|done]. rewrite Hl.
      by apply (reachable_no_empty_key (scheduler w) Hs date).
Qed.

(** * The menu loop *)

Lemma follows_refl w : follows w w.
Proof. split; [by exists []|done]. Qed.

Lemma follows_trans w1 w2 w3 : follows w1 w2 -> follows w2 w3 -> follows w1 w3.
Proof.
  intros [[c1 H1] S1] [[c2 H2] S2]. split.
  - exists (c1 ++ c2). unfold run in *. by rewrite fold_left_app, <- H1.
  - by etrans.
Qed.

Lemma ok_ret {A} (a : A) : console_ok (io_ret a).
Proof. intros w r w' [= <- <-]. apply follows_refl. Qed.

Lemma ok_lift {A} (r : outcome A) : console_ok (io_lift r).
Proof. intros w r' w' [= <- <-]. apply follows_refl. Qed.

Lemma ok_print text : console_ok (print text).
Proof. intros w r w' [= <- <-]. split; [by exists []|done]. Qed.

Lemma ok_write_file file_error filename rows :
  console_ok (write_file file_error filename rows).
Proof.
  intros w r w'. unfold write_file.
  destruct (file_error filename rows); intros [= <- <-];
    (split; [by exists []|done]).
Qed.

Lemma ok_schedule_get date : console_ok (schedule_get date).
Proof. intros w r w' [= <- <-]. apply follows_refl. Qed.

Lemma ok_input prompt : console_ok (input prompt).
Proof.
  intros w r w'. unfold input.
  destruct (stdin w) as [|line rest] eqn:Hin; intros [= <- <-];
    (split; [by exists []|]); simpl; rewrite ?Hin; [done|].
  by apply suffix_cons_r.
Qed.

Lemma ok_bind {A B} (m : IO A) (k : A -> IO B) :
  console_ok m -> (forall a, console_ok (k a)) -> console_ok (io_bind m k).
Proof.
  intros Hm Hk w r w'. unfold io_bind.
  destruct (m w) as [[a|e] w1] eqn:H1.
  - intros H2. eapply follows_trans; [by eapply Hm|by eapply Hk].
  - intros [= <- <-]. by eapply Hm.
Qed.

Lemma ok_except {A} (body handler : IO A) :
  console_ok body -> console_ok handler ->
  console_ok (except_ValueError body handler).
Proof.
  intros Hb Hh w r w'. unfold except_ValueError.
  destruct (body w) as [[a|e] w1] eqn:H1.
  - intros [= <- <-]. by eapply Hb.
  - destruct (Py.is_ValueError e).
    + intros H2. eapply follows_trans; [by eapply Hb|by eapply Hh].
    + intros [= <- <-]. by eapply Hb.
Qed.

Lemma ok_for_each {A} (xs : list A) (body : A -> IO unit) :
  (forall x, console_ok (body x)) -> console_ok (io_for_each xs body).
Proof.
  intros Hbody. induction xs as [|x xs IH]; simpl.
  - apply ok_ret.
  - apply ok_bind; [apply Hbody|by intros _].
Qed.

(** A method call, as a call of the sequence. *)
Lemma ok_method {A} (m : M A) :
  (forall s, exists calls, snd (m s) = run calls s) -> console_ok (method m).
Proof.
  intros Hm w r w'. unfold method.
  destruct (m (scheduler w)) as [r0 s] eqn:H0. intros [= <- <-].
  split; [|done]. simpl. destruct (Hm (scheduler w)) as [calls Hc].
  exists calls. by rewrite H0 in Hc.
Qed.

Lemma ok_call {A} (m : M A) (today : Z) (o : op) :
  (forall s, snd (m s) = call today o s) -> console_ok (method m).
Proof.
  intros Hm. apply ok_method. intros s. exists [(today, o)]. by rewrite Hm.
Qed.

Lemma ok_week_loop year month week week_str :
  console_ok (week_loop year month week week_str).
Proof.
  revert week_str. induction week as [|day week IH]; intros week_str.
  - apply ok_ret.
  - cbn [week_loop]. destruct (day =? 0); [apply IH|].
    apply ok_bind; [apply ok_lift|]. intros date.
    apply ok_bind; [apply ok_schedule_get|]. intros tasks.
    destruct (0 <? _); apply IH.
Qed.

Lemma ok_print_monthly_calendar today year month :
  console_ok (print_monthly_calendar today year month).
Proof.
  unfold print_monthly_calendar.
  destruct (match year with Some y => _ | None => _ end) as [y m].
  apply ok_bind; [apply ok_lift|]. intros cal.
  apply ok_bind; [apply ok_print|]. intros _.
  apply ok_bind; [apply ok_print|]. intros _.
  apply ok_bind.
  { apply ok_for_each. intros week.
    apply ok_bind; [apply ok_week_loop|]. intros. apply ok_print. }
  intros _. apply ok_bind; [apply ok_print|]. intros _.
  apply ok_bind; [apply ok_lift|]. intros range.
  apply ok_for_each. intros day.
  apply ok_bind; [apply ok_lift|]. intros date.
  apply ok_bind; [apply ok_schedule_get|]. intros [|t ts];
    [apply ok_ret|apply ok_print].
Qed.

Section ConsoleProofs.

Variable today : Z.
Variable int_of : string -> option Z.
Variable strip : string -> string.
Variable strptime_date : string -> option Z.
Variable abspath : string -> string.
Variable file_error : string -> list row -> option Py.exc.

Lemma ok_parse_intervals pieces :
  console_ok (parse_intervals int_of strip pieces).
Proof.
  induction pieces as [|x pieces IH]; simpl; [apply ok_ret|].
  apply ok_bind; [apply ok_lift|]. intros n.
  apply ok_bind; [apply IH|]. intros ns. apply ok_ret.
Qed.

Lemma ok_read_start_date : console_ok (read_start_date today strptime_date).
Proof.
  apply ok_bind; [apply ok_input|]. intros [|c s];
    [apply ok_ret|apply ok_lift].
Qed.

Lemma ok_print_numbered i tasks : console_ok (print_numbered i tasks).
Proof.
  revert i. induction tasks as [|t tasks IH]; intros i; simpl;
    [apply ok_ret|].
  apply ok_bind; [apply ok_print|]. intros _. apply IH.
Qed.

Lemma ok_choice_1 : console_ok (choice_1 today int_of strip strptime_date).
Proof.
  apply ok_bind; [apply ok_input|]. intros task_name.
  apply ok_bind; [apply ok_print|]. intros _.
  apply ok_bind; [apply ok_print|]. intros _.
  apply ok_bind; [apply ok_input|]. intros intervals_input.
  apply ok_except; [|apply ok_print].
  apply ok_bind; [apply ok_parse_intervals|]. intros intervals.
  apply ok_bind; [apply ok_read_start_date|]. intros start_date.
  apply ok_bind; [|intros; apply ok_print].
  by apply (ok_call _ today (AddTask task_name intervals (Some start_date))).
Qed.

Lemma ok_choice_2 : console_ok (choice_2 today int_of strptime_date).
Proof.
  apply ok_bind; [apply ok_input|]. intros task_name.
  apply ok_except; [|apply ok_print].
  apply ok_bind; [apply ok_input|]. intros interval_input.
  apply ok_bind; [apply ok_lift|]. intros interval.
  apply ok_bind; [apply ok_input|]. intros repetitions_input.
  apply ok_bind; [apply ok_lift|]. intros repetitions.
  apply ok_bind; [apply ok_read_start_date|]. intros start_date.
  apply ok_bind.
  { by apply (ok_call _ today
                (AddTaskWithRepetitions task_name interval repetitions
                   (Some start_date))). }
  intros _. apply ok_bind; [apply ok_print|]. intros _.
  apply ok_for_each. intros i.
  apply ok_bind; [|intros; apply ok_print].
  apply ok_method. intros s. by exists [].
Qed.

Lemma ok_choice_3 : console_ok (choice_3 today strptime_date).
Proof.
  apply ok_bind; [apply ok_input|]. intros date_input.
  apply ok_except; [|apply ok_print].
  apply ok_bind.
  { destruct date_input; [apply ok_ret|apply ok_lift]. }
  intros date. apply ok_bind.
  { by apply (ok_call _ today (GetTasksForDate date)). }
  intros tasks. apply ok_bind; [apply ok_print|]. intros _.
  destruct tasks; [apply ok_print|apply ok_print_numbered].
Qed.

Lemma ok_choice_4 : console_ok (choice_4 today int_of).
Proof.
  apply ok_except; [|apply ok_print].
  apply ok_bind; [apply ok_input|]. intros year_input.
  apply ok_bind; [apply ok_input|]. intros month_input.
  apply ok_bind.
  { destruct year_input; [apply ok_ret|apply ok_lift]. }
  intros year. apply ok_bind.
  { destruct month_input; [apply ok_ret|apply ok_lift]. }
  intros month. apply ok_print_monthly_calendar.
Qed.

Lemma ok_export_file filename : console_ok (export_file file_error filename).
Proof.
  apply ok_bind.
  { by apply (ok_call _ today (ExportToCsv (Some filename))). }
  intros result. apply ok_bind; [apply ok_write_file|]. intros _.
  apply ok_ret.
Qed.

Lemma ok_choice_5 : console_ok (choice_5 today abspath file_error).
Proof.
  apply ok_bind; [apply ok_input|]. intros filename.
  apply ok_bind.
  { by apply (ok_call _ today (GenerateSchedule (Some 90))). }
  intros _. apply ok_bind; [apply ok_export_file|]. intros. apply ok_print.
Qed.

Lemma ok_menu_turn :
  console_ok (menu_turn today int_of strip strptime_date abspath file_error).
Proof.
  unfold menu_turn.
  do 7 (apply ok_bind; [apply ok_print|]; intros _).
  apply ok_bind; [apply ok_input|]. intros choice.
  repeat case_decide;
    (apply ok_bind; [|intros; apply ok_ret]);
    auto using ok_choice_1, ok_choice_2, ok_choice_3, ok_choice_4,
      ok_choice_5, ok_print.
Qed.

End ConsoleProofs.

(** *** What the menu loop can raise *)

Lemma ro_ret {A} (P : Py.exc -> Prop) (a : A) : raises_only P (io_ret a).
Proof. by intros w e w'. Qed.

Lemma ro_print (P : Py.exc -> Prop) text : raises_only P (print text).
Proof. by intros w e w'. Qed.

Lemma ro_schedule_get (P : Py.exc -> Prop) date :
  raises_only P (schedule_get date).
Proof. by intros w e w'. Qed.

Lemma ro_lift {A} (P : Py.exc -> Prop) (r : outcome A) :
  (forall e, r = Raised e -> P e) -> raises_only P (io_lift r).
Proof. intros Hr w e w' [= -> _]. by apply Hr. Qed.

Lemma ro_input (P : Py.exc -> Prop) prompt :
  P Py.EOFError -> raises_only P (input prompt).
Proof.
  intros HP w e w'. unfold input. by destruct (stdin w); intros [= <- <-].
Qed.

Lemma ro_method {A} (P : Py.exc -> Prop) (m : M A) :
  P Py.OverflowError -> raises_only P (method m).
Proof.
  intros HP w e w'. unfold method.
  destruct (m (scheduler w)) as [[a|[]] s]; by intros [= <- <-].
Qed.

Lemma ro_write_file (P : Py.exc -> Prop) file_error filename rows :
  (forall e, file_error filename rows = Some e -> P e) ->
  raises_only P (write_file file_error filename rows).
Proof.
  intros HP w e w'. unfold write_file.
  destruct (file_error filename rows) as [e1|]; intros [= <- <-].
  by apply HP.
Qed.

Lemma ro_bind {A B} (P : Py.exc -> Prop) (m : IO A) (k : A -> IO B) :
  raises_only P m -> (forall a, raises_only P (k a)) ->
  raises_only P (io_bind m k).
Proof.
  intros Hm Hk w e w'. unfold io_bind.
  destruct (m w) as [[a|e1] w1] eqn:H1.
  - apply Hk.
  - intros [= <- <-]. by eapply Hm.
Qed.

Lemma ro_for_each {A} (P : Py.exc -> Prop) (xs : list A)
    (body : A -> IO unit) :
  (forall x, raises_only P (body x)) -> raises_only P (io_for_each xs body).
Proof.
  intros Hbody. induction xs as [|x xs IH]; simpl; [apply ro_ret|].
  apply ro_bind; [apply Hbody|]. intros _. apply IH.
Qed.

(** [except ValueError] lets through what the body raises that is not a
    [ValueError], and what the handler raises. *)
Lemma ro_except {A} (P : Py.exc -> Prop) (body handler : IO A) :
  raises_only (fun e => Py.is_ValueError e = true \/ P e) body ->
  raises_only P handler ->
  raises_only P (except_ValueError body handler).
Proof.
  intros Hb Hh w e w'. unfold except_ValueError.
  destruct (body w) as [[a|e1] w1] eqn:Hbody; [done|].
  destruct (Py.is_ValueError e1) eqn:He1.
  - apply Hh.
  - intros [= <- <-]. destruct (Hb _ _ _ Hbody) as [?|?]; [congruence|done].
Qed.

Lemma ro_weaken {A} (P Q : Py.exc -> Prop) (m : IO A) :
  (forall e, P e -> Q e) -> raises_only P m -> raises_only Q m.
Proof. intros HPQ Hm w e w' Hrun. eapply HPQ, Hm, Hrun. Qed.

Lemma plain_input prompt : raises_only plain (input prompt).
Proof. by apply ro_input. Qed.

Lemma plain_method {A} (m : M A) : raises_only plain (method m).
Proof. by apply ro_method. Qed.

Lemma plain_date year month day e :
  CalendarMonth.date year month day = Raised e -> plain e.
Proof.
  unfold CalendarMonth.date. repeat case_match; by intros [= <-].
Qed.

Lemma plain_monthrange year month e :
  CalendarMonth.monthrange year month = Raised e -> plain e.
Proof.
  unfold CalendarMonth.monthrange. case_match; by intros [= <-].
Qed.

Lemma plain_monthcalendar year month e :
  CalendarMonth.monthcalendar year month = Raised e -> plain e.
Proof.
  unfold CalendarMonth.monthcalendar, CalendarMonth.itermonthdays.
  destruct (CalendarMonth.monthrange year month) as [[day1 ndays]|e1] eqn:Hr;
    [done|].
  intros [= <-]. by eapply plain_monthrange.
Qed.

Lemma plain_week_loop year month week week_str :
  raises_only plain (week_loop year month week week_str).
Proof.
  revert week_str. induction week as [|day week IH]; intros week_str.
  - apply ro_ret.
  - cbn [week_loop]. destruct (day =? 0); [apply IH|].
    apply ro_bind; [apply ro_lift, plain_date|]. intros date.
    apply ro_bind; [apply ro_schedule_get|]. intros tasks.
    destruct (0 <? _); apply IH.
Qed.

Lemma plain_print_monthly_calendar today year month :
  raises_only plain (print_monthly_calendar today year month).
Proof.
  unfold print_monthly_calendar.
  destruct (match year with Some y => _ | None => _ end) as [y m].
  apply ro_bind; [apply ro_lift, plain_monthcalendar|]. intros cal.
  apply ro_bind; [apply ro_print|]. intros _.
  apply ro_bind; [apply ro_print|]. intros _.
  apply ro_bind.
  { apply ro_for_each. intros week.
    apply ro_bind; [apply plain_week_loop|]. intros. apply ro_print. }
  intros _. apply ro_bind; [apply ro_print|]. intros _.
  apply ro_bind; [apply ro_lift, plain_monthrange|]. intros range.
  apply ro_for_each. intros day.
  apply ro_bind; [apply ro_lift, plain_date|]. intros date.
  apply ro_bind; [apply ro_schedule_get|]. intros [|t ts];
    [apply ro_ret|apply ro_print].
Qed.

Section ConsoleRaises.

Variable today : Z.
Variable int_of : string -> option Z.
Variable strip : string -> string.
Variable strptime_date : string -> option Z.
Variable abspath : string -> string.
Variable file_error : string -> list row -> option Py.exc.

Lemma plain_py_int s : raises_only plain (py_int int_of s).
Proof. apply ro_lift. intros e. by destruct (int_of s); intros [= <-]. Qed.

Lemma plain_py_strptime_date s :
  raises_only plain (py_strptime_date strptime_date s).
Proof.
  apply ro_lift. intros e. by destruct (strptime_date s); intros [= <-].
Qed.

Lemma plain_parse_intervals pieces :
  raises_only plain (parse_intervals int_of strip pieces).
Proof.
  induction pieces as [|x pieces IH]; simpl; [apply ro_ret|].
  apply ro_bind; [apply plain_py_int|]. intros n.
  apply ro_bind; [apply IH|]. intros ns. apply ro_ret.
Qed.

Lemma plain_read_start_date :
  raises_only plain (read_start_date today strptime_date).
Proof.
  apply ro_bind; [apply plain_input|]. intros [|c s];
    [apply ro_ret|apply plain_py_strptime_date].
Qed.

Lemma plain_print_numbered i tasks : raises_only plain (print_numbered i tasks).
Proof.
  revert i. induction tasks as [|t tasks IH]; intros i; simpl;
    [apply ro_ret|].
  apply ro_bind; [apply ro_print|]. intros _. apply IH.
Qed.

(** A [try] whose body writes no file lets through [EOFError] and
    [OverflowError] only. *)
Lemma ro_try {A} (body handler : IO A) :
  raises_only plain body ->
  raises_only (escapes file_error) handler ->
  raises_only (escapes file_error) (except_ValueError body handler).
Proof.
  intros Hb Hh. apply ro_except; [|done].
  eapply ro_weaken; [|exact Hb].
  intros [] He; unfold escapes; auto; by destruct He.
Qed.

Lemma escapes_input prompt : raises_only (escapes file_error) (input prompt).
Proof. apply ro_input. by left. Qed.

Lemma escapes_method {A} (m : M A) :
  raises_only (escapes file_error) (method m).
Proof. apply ro_method. right. by left. Qed.

Lemma menu_turn_raises :
  raises_only (escapes file_error)
    (menu_turn today int_of strip strptime_date abspath file_error).
Proof.
  unfold menu_turn.
  do 7 (apply ro_bind; [apply ro_print|]; intros _).
  apply ro_bind; [apply escapes_input|]. intros choice.
  repeat case_decide; (apply ro_bind; [|intros; apply ro_ret]).
  - (* 1 *)
    apply ro_bind; [apply escapes_input|]. intros task_name.
    do 2 (apply ro_bind; [apply ro_print|]; intros _).
    apply ro_bind; [apply escapes_input|]. intros intervals_input.
    apply ro_try; [|apply ro_print].
    apply ro_bind; [apply plain_parse_intervals|]. intros intervals.
    apply ro_bind; [apply plain_read_start_date|]. intros start_date.
    apply ro_bind; [apply plain_method|]. intros. apply ro_print.
  - (* 2 *)
    apply ro_bind; [apply escapes_input|]. intros task_name.
    apply ro_try; [|apply ro_print].
    apply ro_bind; [apply plain_input|]. intros interval_input.
    apply ro_bind; [apply plain_py_int|]. intros interval.
    apply ro_bind; [apply plain_input|]. intros repetitions_input.
    apply ro_bind; [apply plain_py_int|]. intros repetitions.
    apply ro_bind; [apply plain_read_start_date|]. intros start_date.
    apply ro_bind; [apply plain_method|]. intros _.
    apply ro_bind; [apply ro_print|]. intros _.
    apply ro_for_each. intros i.
    apply ro_bind; [apply plain_method|]. intros. apply ro_print.
  - (* 3 *)
    apply ro_bind; [apply escapes_input|]. intros date_input.
    apply ro_try; [|apply ro_print].
    apply ro_bind.
    { destruct date_input; [apply ro_ret|apply plain_py_strptime_date]. }
    intros date. apply ro_bind; [apply plain_method|].
    intros tasks. apply ro_bind; [apply ro_print|]. intros _.
    destruct tasks; [apply ro_print|apply plain_print_numbered].
  - (* 4 *)
    apply ro_try; [|apply ro_print].
    apply ro_bind; [apply plain_input|]. intros year_input.
    apply ro_bind; [apply plain_input|]. intros month_input.
    apply ro_bind.
    { destruct year_input; [apply ro_ret|apply plain_py_int]. }
    intros year. apply ro_bind.
    { destruct month_input; [apply ro_ret|apply plain_py_int]. }
    intros month. apply plain_print_monthly_calendar.
  - (* 5 *)
    apply ro_bind; [apply escapes_input|]. intros filename.
    apply ro_bind; [apply escapes_method|]. intros _.
    apply ro_bind; [|intros; apply ro_print].
    apply ro_bind; [apply escapes_method|]. intros result.
    apply ro_bind; [|intros; apply ro_ret].
    apply ro_write_file. intros e He. right. right. eauto.
  - apply ro_print.
  - apply ro_print.
Qed.

End ConsoleRaises.

(** *** Every turn reads a line *)

Lemma reads_after_print {A} text (k : unit -> IO A) :
  (forall w a w', k tt w = (Returned a, w') ->
     (length (stdin w') < length (stdin w))%nat) ->
  forall w a w', io_bind (print text) k w = (Returned a, w') ->
    (length (stdin w') < length (stdin w))%nat.
Proof. intros Hk w a w' Hrun. by apply Hk in Hrun. Qed.

Lemma reads_after_input {A} prompt (k : string -> IO A) :
  (forall line, console_ok (k line)) ->
  forall w a w', io_bind (input prompt) k w = (Returned a, w') ->
    (length (stdin w') < length (stdin w))%nat.
Proof.
  intros Hk w a w'. unfold io_bind at 1, input at 1.
  destruct (stdin w) as [|line rest] eqn:Hin; [done|].
  intros Hrun. destruct (Hk _ _ _ _ Hrun) as [_ Hsuf].
  apply suffix_length in Hsuf. simpl in *. lia.
Qed.

Lemma menu_turn_reads today int_of strip strptime_date abspath file_error w b w' :
  menu_turn today int_of strip strptime_date abspath file_error w = (Returned b, w') ->
  (length (stdin w') < length (stdin w))%nat.
Proof.
  revert w b w'. unfold menu_turn.
  do 7 apply reads_after_print.
  apply reads_after_input. intros choice.
  repeat case_decide;
    (apply ok_bind; [|intros; apply ok_ret]);
    auto using ok_choice_1, ok_choice_2, ok_choice_3, ok_choice_4,
      ok_choice_5, ok_print.
Qed.

Lemma menu_loop_ends today int_of strip strptime_date abspath file_error fuel w :
  (length (stdin w) < fuel)%nat ->
  exists r w',
    menu_loop today int_of strip strptime_date abspath file_error fuel w = Some (r, w').
Proof.
  revert w. induction fuel as [|fuel IH]; intros w Hlen; [lia|].
  cbn [menu_loop].
  destruct (menu_turn today int_of strip strptime_date abspath file_error w)
    as [[[|]|e] w1] eqn:Hturn; eauto.
  apply IH. apply menu_turn_reads in Hturn. lia.
Qed.

Lemma menu_loop_follows today int_of strip strptime_date abspath file_error
    fuel w r w' :
  menu_loop today int_of strip strptime_date abspath file_error fuel w
    = Some (r, w') ->
  follows w w' /\ (forall e, r = Raised e -> escapes file_error e).
Proof.
  revert w. induction fuel as [|fuel IH]; intros w; [done|].
  cbn [menu_loop].
  destruct (menu_turn today int_of strip strptime_date abspath file_error w)
    as [[[|]|e] w1] eqn:Hturn.
  - intros Hloop. destruct (IH _ Hloop) as [Hf He]. split; [|done].
    eapply follows_trans; [|exact Hf]. by eapply ok_menu_turn.
  - intros [= <- <-]. split; [by eapply ok_menu_turn|done].
  - intros [= <- <-]. split; [by eapply ok_menu_turn|].
    intros e' [= <-]. by eapply menu_turn_raises.
Qed.

(** X14: on every input, [main] ends, and one turn more than there are
    input lines is enough: it returns, or an exception escapes, which is
    [EOFError] (the input ended), [OverflowError] (a date or a year out
    of range) or what the file system raised for an export.  No
    [ValueError] of the parsing and calendar functions escapes. *)
Theorem main_ends_and_only_input_date_and_file_errors_escape
    (today : Z) (int_of : string -> option Z) (strip : string -> string)
    (strptime_date : string -> option Z) (abspath : string -> string)
    (file_error : string -> list row -> option Py.exc)
    (input_lines : list string) :
  exists r w,
    main today int_of strip strptime_date abspath file_error input_lines
      = Some (r, w) /\
    (r = Returned tt \/ r = Raised Py.EOFError \/
     r = Raised Py.OverflowError \/
     exists e filename rows,
       file_error filename rows = Some e /\ r = Raised e).
Proof.
  unfold main.
  destruct (menu_loop_ends today int_of strip strptime_date abspath file_error
              (S (length input_lines)) (main_start input_lines))
    as (r & w & Hmain); [simpl; lia|].
  exists r, w. split; [done|].
  destruct (menu_loop_follows _ _ _ _ _ _ _ _ _ _ Hmain) as [_ He].
  destruct r as [[]|e]; [by left|].
  destruct (He e eq_refl) as [->|[->|(filename & rows & Hfile)]]; eauto 8.
Qed.

(** X15: when [main] ends, its scheduler is the result of a sequence of
    method calls on a new scheduler, and what is left of the input is a
    suffix of what was given. *)
Theorem main_changes_the_scheduler_by_method_calls_only
    (today : Z) (int_of : string -> option Z) (strip : string -> string)
    (strptime_date : string -> option Z) (abspath : string -> string)
    (file_error : string -> list row -> option Py.exc)
    (input_lines : list string) (r : outcome unit) (w : world) :
  main today int_of strip strptime_date abspath file_error input_lines = Some (r, w) ->
  reachable (scheduler w) /\ stdin w `suffix_of` input_lines.
Proof.
  unfold main. intros Hmain.
  destruct (menu_loop_follows _ _ _ _ _ _ _ _ _ _ Hmain) as [[Hreach Hsuf] _].
  by split.
Qed.

(** *** The export branch *)

Lemma generate_schedule_returns today D s :
  Datetime.is_date today -> Datetime.is_date (today + D) ->
  (forall name info, In (name, info) (tasks s) -> definition_in_range info) ->
  generate_schedule today D s =
  (Ok tt,
   {| tasks := tasks s;
      schedule := append_entries
                    (fst (regen_entries (in_window today (today + D))
                            (tasks s))) ∅ |}) /\
  snd (regen_entries (in_window today (today + D)) (tasks s)) = Ok tt.
Proof.
  intros Htoday HD Htasks.
  assert (snd (regen_entries (in_window today (today + D)) (tasks s)) = Ok tt)
    as Hret.
  { apply regen_entries_returns. intros name info Hin o Ho.
    destruct (Htasks name info Hin) as [Hst Hoff].
    exists (Task.start_date info + o). apply date_plus_Ok; auto. }
  split; [|done].
  rewrite generate_schedule_eq, (date_plus_Ok today D Htoday HD).
  by rewrite Hret.
Qed.

(** X16: choice 5 regenerates the index for today and the next 90 days,
    then exports it.  The definitions stay and the index keeps nothing
    outside the window, whether the export succeeds or not.  If the file
    system takes the file (named by the line read, schedule.csv for a
    blank line), it holds the header and one record per date of the
    window asked for by a stored definition, in ascending order, and the
    path is printed; if the file system raises, the exception escapes
    after the prompt, with the index regenerated and no file recorded. *)
Theorem choice_5_exports_the_next_90_days_and_forgets_the_rest
    (today : Z) (abspath : string -> string)
    (file_error : string -> list row -> option Py.exc) (w : world)
    (line : string) (rest : list string) :
  stdin w = line :: rest ->
  Datetime.is_date today -> Datetime.is_date (today + 90) ->
  (forall name info, In (name, info) (tasks (scheduler w)) ->
     definition_in_range info) ->
  exists s' dates,
    choice_5 today abspath file_error w =
    match file_error (export_name line)
            (["Date"; "Day"; "Tasks"]%string :: map (record_of s') dates)
    with
    | None =>
        (Returned tt,
         {| scheduler := s';
            stdout := stdout w
                      ++ [Prompt "Enter filename (default: schedule.csv): ";
                          Print ("Schedule exported to "
                                 ++ abspath (export_name line))];
            stdin := rest;
            files := files w
                     ++ [(export_name line,
                          ["Date"; "Day"; "Tasks"]%string
                            :: map (record_of s') dates)] |})
    | Some e =>
        (Raised e,
         {| scheduler := s';
            stdout := stdout w
                      ++ [Prompt "Enter filename (default: schedule.csv): "];
            stdin := rest;
            files := files w |})
    end /\
    tasks s' = tasks (scheduler w) /\
    StronglySorted Z.lt dates /\
    (forall date,
       In date dates <->
       today <= date <= today + 90 /\
       exists name info offset,
         In (name, info) (tasks (scheduler w)) /\
         In offset (Task.intervals info) /\
         Task.start_date info + offset = date) /\
    (forall date, ~ today <= date <= today + 90 ->
       dd_get date (schedule s') = []).
Proof.
  intros Hin Htoday HD Htasks.
  destruct (generate_schedule_returns today 90 (scheduler w) Htoday HD Htasks)
    as [Hgen Hret].
  set (keep := in_window today (today + 90)) in *.
  set (es := fst (regen_entries keep (tasks (scheduler w)))) in *.
  exists {| tasks := tasks (scheduler w); schedule := append_entries es ∅ |}.
  exists (keys_sorted (append_entries es ∅)).
  split; [|split; [done|split; [apply keys_sorted_ascending|split]]].
  - unfold choice_5, export_name, io_bind at 1, input at 1. rewrite Hin.
    unfold io_bind at 1, method at 1. cbn [scheduler]. rewrite Hgen.
    unfold io_bind at 1, export_file, io_bind at 1, method at 1.
    cbn [scheduler]. rewrite export_to_csv_eq.
    unfold io_bind at 1, write_file at 1.
    cbn [scheduler stdout stdin files fst snd schedule].
    destruct (file_error _ _) as [e|]; [done|].
    unfold io_ret at 1. rewrite print_eq.
    cbn [scheduler stdout stdin files]. by rewrite <- app_assoc.
  - intros date. rewrite In_keys_sorted, lookup_append_entries_is_Some.
    rewrite lookup_empty, in_map_iff. split.
    + intros [[? [=]]|([n d] & <- & Hn)].
      apply regen_entries_sound in Hn as (Hk & info & Hn & o & Ho & Hd).
      split; [by apply in_window_true|].
      apply date_plus_inv in Hd as [-> _]. eauto 6.
    + intros [Hw (name & info & o & Hn & Ho & <-)]. right.
      exists (name, Task.start_date info + o). split; [done|].
      apply (regen_entries_complete keep _ name info); auto.
      * exists o. split; [done|].
        by apply (regen_entries_Ok_inv keep (tasks (scheduler w)) name).
      * by apply in_window_true.
  - intros date Hout. cbn [schedule].
    rewrite dd_get_append_entries, dd_get_empty. simpl.
    destruct (filter _ es) as [|[n d] l] eqn:Hf; [done|].
    assert ((n, d) ∈ filter (fun e : string * Z => snd e = date) es) as Hmem
      by (rewrite Hf; apply list_elem_of_here).
    apply list_elem_of_filter in Hmem as [Hd Hn]. simpl in Hd. subst d.
    apply list_elem_of_In, regen_entries_sound in Hn as [Hk _].
    by apply in_window_true in Hk.
Qed.


(** *** The stored definitions stay schedulable *)

Lemma ks_leaves {A} (m : IO A) : leaves_scheduler m -> keeps_schedulable m.
Proof. intros Hm w r w' Hrun Hs _. by rewrite (Hm _ _ _ Hrun). Qed.

Lemma ls_ret {A} (a : A) : leaves_scheduler (io_ret a).
Proof. by intros w r w' [= <- <-]. Qed.

Lemma ls_lift {A} (r : outcome A) : leaves_scheduler (io_lift r).
Proof. by intros w r' w' [= <- <-]. Qed.

Lemma ls_print text : leaves_scheduler (print text).
Proof. by intros w r w' [= <- <-]. Qed.

Lemma ls_write_file file_error filename rows :
  leaves_scheduler (write_file file_error filename rows).
Proof.
  intros w r w'. unfold write_file.
  by destruct (file_error filename rows); intros [= <- <-].
Qed.

Lemma ls_schedule_get date : leaves_scheduler (schedule_get date).
Proof. by intros w r w' [= <- <-]. Qed.

Lemma ls_input prompt : leaves_scheduler (input prompt).
Proof.
  intros w r w'. unfold input. by destruct (stdin w); intros [= <- <-].
Qed.

Lemma ls_bind {A B} (m : IO A) (k : A -> IO B) :
  leaves_scheduler m -> (forall a, leaves_scheduler (k a)) ->
  leaves_scheduler (io_bind m k).
Proof.
  intros Hm Hk w r w'. unfold io_bind.
  destruct (m w) as [[a|e] w1] eqn:H1.
  - intros H2. by rewrite (Hk _ _ _ _ H2), (Hm _ _ _ H1).
  - intros [= <- <-]. by eapply Hm.
Qed.

Lemma ls_for_each {A} (xs : list A) (body : A -> IO unit) :
  (forall x, leaves_scheduler (body x)) ->
  leaves_scheduler (io_for_each xs body).
Proof.
  intros Hbody. induction xs as [|x xs IH]; simpl; [apply ls_ret|].
  apply ls_bind; [apply Hbody|by intros _].
Qed.

Lemma ls_week_loop year month week week_str :
  leaves_scheduler (week_loop year month week week_str).
Proof.
  revert week_str. induction week as [|day week IH]; intros week_str.
  - apply ls_ret.
  - cbn [week_loop]. destruct (day =? 0); [apply IH|].
    apply ls_bind; [apply ls_lift|]. intros date.
    apply ls_bind; [apply ls_schedule_get|]. intros tasks.
    destruct (0 <? _); apply IH.
Qed.

Lemma ls_print_monthly_calendar today year month :
  leaves_scheduler (print_monthly_calendar today year month).
Proof.
  unfold print_monthly_calendar.
  destruct (match year with Some y => _ | None => _ end) as [y m].
  apply ls_bind; [apply ls_lift|]. intros cal.
  apply ls_bind; [apply ls_print|]. intros _.
  apply ls_bind; [apply ls_print|]. intros _.
  apply ls_bind.
  { apply ls_for_each. intros week.
    apply ls_bind; [apply ls_week_loop|]. intros. apply ls_print. }
  intros _. apply ls_bind; [apply ls_print|]. intros _.
  apply ls_bind; [apply ls_lift|]. intros range.
  apply ls_for_each. intros day.
  apply ls_bind; [apply ls_lift|]. intros date.
  apply ls_bind; [apply ls_schedule_get|]. intros [|t ts];
    [apply ls_ret|apply ls_print].
Qed.

Lemma ks_bind {A B} (m : IO A) (k : A -> IO B) :
  keeps_schedulable m -> (forall a, keeps_schedulable (k a)) ->
  keeps_schedulable (io_bind m k).
Proof.
  intros Hm Hk w r w'. unfold io_bind.
  destruct (m w) as [[a|e] w1] eqn:H1.
  - intros H2 Hs Hr. eapply Hk; [exact H2| |exact Hr].
    by eapply Hm.
  - intros [= <- <-] Hs Hr. eapply Hm; [exact H1|exact Hs|].
    intros [= ->]. by apply Hr.
Qed.

Lemma ks_except {A} (body handler : IO A) :
  keeps_schedulable body -> keeps_schedulable handler ->
  keeps_schedulable (except_ValueError body handler).
Proof.
  intros Hb Hh w r w'. unfold except_ValueError.
  destruct (body w) as [[a|e] w1] eqn:H1.
  - intros [= <- <-] Hs Hr. by eapply Hb.
  - destruct (Py.is_ValueError e) eqn:He.
    + intros H2 Hs Hr. eapply Hh; [exact H2| |exact Hr].
      eapply Hb; [exact H1|exact Hs|]. intros [= ->]. done.
    + intros [= <- <-] Hs Hr. by eapply Hb.
Qed.

Lemma ks_for_each {A} (xs : list A) (body : A -> IO unit) :
  (forall x, keeps_schedulable (body x)) ->
  keeps_schedulable (io_for_each xs body).
Proof.
  intros Hbody. induction xs as [|x xs IH]; simpl.
  - apply ks_leaves, ls_ret.
  - apply ks_bind; [apply Hbody|by intros _].
Qed.

(** A method that leaves the task map alone. *)
Lemma ks_method_same_tasks {A} (m : M A) :
  (forall s, tasks (snd (m s)) = tasks s) -> keeps_schedulable (method m).
Proof.
  intros Hm w r w'. unfold method.
  destruct (m (scheduler w)) as [r0 s] eqn:H0. intros [= <- <-] Hs _.
  simpl. unfold schedulable. specialize (Hm (scheduler w)).
  rewrite H0 in Hm. simpl in Hm. by rewrite Hm.
Qed.

Lemma In_dict_set k v d k' v' :
  In (k', v') (dict_set k v d) -> (k', v') = (k, v) \/ In (k', v') d.
Proof.
  induction d as [|[k0 v0] d IH]; simpl.
  - intros [[= <- <-]|[]]. by left.
  - destruct (decide (k0 = k)) as [->|Hne]; simpl.
    + intros [[= <- <-]|Hin]; [by left|by right; right].
    + intros [Heq|Hin]; [by right; left|].
      destruct (IH Hin) as [?|?]; [by left|by right; right].
Qed.

Lemma ks_add_task today name l start :
  Datetime.is_date start ->
  keeps_schedulable (method (add_task today name l (Some start))).
Proof.
  intros Hstart w r w'. unfold method. rewrite add_task_eq. simpl.
  destruct (snd (loop_dates (fun _ => true) start l)) as [[]|[]] eqn:Hret;
    intros [= <- <-] Hs Hr; [|done].
  simpl. intros n info [[= -> ->]|Hin]%In_dict_set; [|by apply (Hs n)].
  split; [done|]. simpl. intros offset Hoff.
  pose proof (loop_dates_Ok_inv _ _ _ _ Hret Hoff) as Hd.
  by apply date_plus_inv in Hd as [_ ?].
Qed.

Section ConsoleSchedulable.

Variable today : Z.
Variable int_of : string -> option Z.
Variable strip : string -> string.
Variable strptime_date : string -> option Z.
Variable abspath : string -> string.
Variable file_error : string -> list row -> option Py.exc.

Hypothesis today_is_date : Datetime.is_date today.
Hypothesis strptime_gives_dates :
  forall s d, strptime_date s = Some d -> Datetime.is_date d.

Lemma ks_after_start_date {A} (k : Z -> IO A) :
  (forall start, Datetime.is_date start -> keeps_schedulable (k start)) ->
  keeps_schedulable (io_bind (read_start_date today strptime_date) k).
Proof.
  intros Hk. unfold read_start_date.
  intros w r w'. unfold io_bind at 1. unfold io_bind at 1.
  destruct (input _ w) as [[line|e] w1] eqn:Hin.
  - pose proof (ls_input _ _ _ _ Hin) as Hsame.
    destruct line as [|c line].
    + unfold io_ret at 1. intros Hrun Hs Hr.
      eapply (Hk today); [done|exact Hrun| |done]. by rewrite Hsame.
    + unfold py_strptime_date, io_lift at 1.
      destruct (strptime_date (String c line)) as [d|] eqn:Hd.
      * intros Hrun Hs Hr.
        eapply (Hk d); [by eapply strptime_gives_dates|exact Hrun| |done].
        by rewrite Hsame.
      * intros [= <- <-] Hs _. by rewrite Hsame.
  - intros [= <- <-] Hs _. by rewrite (ls_input _ _ _ _ Hin).
Qed.

Lemma ks_parse_intervals pieces :
  keeps_schedulable (parse_intervals int_of strip pieces).
Proof.
  apply ks_leaves. induction pieces as [|x pieces IH]; simpl;
    [apply ls_ret|].
  apply ls_bind; [apply ls_lift|]. intros n.
  apply ls_bind; [apply IH|]. intros ns. apply ls_ret.
Qed.

Lemma ls_print_numbered i tasks : leaves_scheduler (print_numbered i tasks).
Proof.
  revert i. induction tasks as [|t tasks IH]; intros i; simpl;
    [apply ls_ret|].
  apply ls_bind; [apply ls_print|]. intros _. apply IH.
Qed.

Lemma ks_menu_turn :
  keeps_schedulable (menu_turn today int_of strip strptime_date abspath file_error).
Proof.
  unfold menu_turn.
  do 7 (apply ks_bind; [apply ks_leaves, ls_print|]; intros _).
  apply ks_bind; [apply ks_leaves, ls_input|]. intros choice.
  repeat case_decide;
    (apply ks_bind; [|intros; apply ks_leaves, ls_ret]).
  - (* 1 *)
    apply ks_bind; [apply ks_leaves, ls_input|]. intros task_name.
    do 2 (apply ks_bind; [apply ks_leaves, ls_print|]; intros _).
    apply ks_bind; [apply ks_leaves, ls_input|]. intros intervals_input.
    apply ks_except; [|apply ks_leaves, ls_print].
    apply ks_bind; [apply ks_parse_intervals|]. intros intervals.
    apply ks_after_start_date. intros start Hstart.
    apply ks_bind; [by apply ks_add_task|].
    intros. apply ks_leaves, ls_print.
  - (* 2 *)
    apply ks_bind; [apply ks_leaves, ls_input|]. intros task_name.
    apply ks_except; [|apply ks_leaves, ls_print].
    apply ks_bind; [apply ks_leaves, ls_input|]. intros interval_input.
    apply ks_bind; [apply ks_leaves, ls_lift|]. intros interval.
    apply ks_bind; [apply ks_leaves, ls_input|]. intros repetitions_input.
    apply ks_bind; [apply ks_leaves, ls_lift|]. intros repetitions.
    apply ks_after_start_date. intros start Hstart.
    apply ks_bind; [by apply ks_add_task|]. intros _.
    apply ks_bind; [apply ks_leaves, ls_print|]. intros _.
    apply ks_for_each. intros i.
    apply ks_bind; [|intros; apply ks_leaves, ls_print].
    by apply ks_method_same_tasks.
  - (* 3 *)
    apply ks_bind; [apply ks_leaves, ls_input|]. intros date_input.
    apply ks_except; [|apply ks_leaves, ls_print].
    apply ks_bind.
    { destruct date_input; apply ks_leaves; [apply ls_ret|apply ls_lift]. }
    intros date. apply ks_bind; [by apply ks_method_same_tasks|].
    intros tasks. apply ks_bind; [apply ks_leaves, ls_print|]. intros _.
    destruct tasks; apply ks_leaves; [apply ls_print|apply ls_print_numbered].
  - (* 4 *)
    apply ks_except; [|apply ks_leaves, ls_print].
    apply ks_bind; [apply ks_leaves, ls_input|]. intros year_input.
    apply ks_bind; [apply ks_leaves, ls_input|]. intros month_input.
    apply ks_bind.
    { destruct year_input; apply ks_leaves; [apply ls_ret|apply ls_lift]. }
    intros year. apply ks_bind.
    { destruct month_input; apply ks_leaves; [apply ls_ret|apply ls_lift]. }
    intros month. apply ks_leaves, ls_print_monthly_calendar.
  - (* 5 *)
    apply ks_bind; [apply ks_leaves, ls_input|]. intros filename.
    apply ks_bind.
    { apply ks_method_same_tasks. intros s. rewrite generate_schedule_eq.
      by destruct (Datetime.date_plus today 90). }
    intros _. apply ks_bind; [|intros; apply ks_leaves, ls_print].
    apply ks_bind.
    { apply ks_method_same_tasks. intros s. by rewrite export_to_csv_eq. }
    intros result. apply ks_bind; [apply ks_leaves, ls_write_file|].
    intros. apply ks_leaves, ls_ret.
  - apply ks_leaves, ls_print.
  - apply ks_leaves, ls_print.
Qed.

Lemma menu_loop_schedulable fuel w r w' :
  menu_loop today int_of strip strptime_date abspath file_error fuel w = Some (r, w') ->
  schedulable (scheduler w) -> r <> Raised Py.OverflowError ->
  schedulable (scheduler w').
Proof.
  revert w. induction fuel as [|fuel IH]; intros w; [done|].
  cbn [menu_loop].
  destruct (menu_turn today int_of strip strptime_date abspath file_error w)
    as [[[|]|e] w1] eqn:Hturn.
  - intros Hloop Hs Hr. eapply IH; [exact Hloop| |exact Hr].
    by eapply ks_menu_turn.
  - intros [= <- <-] Hs Hr. by eapply ks_menu_turn.
  - intros [= <- <-] Hs Hr. eapply ks_menu_turn; [exact Hturn|exact Hs|].
    intros [= ->]. by apply Hr.
Qed.

End ConsoleSchedulable.

(** X17: unless [OverflowError] escapes, every definition [main] has stored
    asks for dates only (its start date and each start date plus offset
    are dates), provided today is a date and the date parser returns
    dates. *)
Theorem main_stores_schedulable_definitions_unless_OverflowError
    (today : Z) (int_of : string -> option Z) (strip : string -> string)
    (strptime_date : string -> option Z) (abspath : string -> string)
    (file_error : string -> list row -> option Py.exc)
    (input_lines : list string) (r : outcome unit) (w : world) :
  Datetime.is_date today ->
  (forall s d, strptime_date s = Some d -> Datetime.is_date d) ->
  main today int_of strip strptime_date abspath file_error input_lines = Some (r, w) ->
  r <> Raised Py.OverflowError ->
  forall name info,
    In (name, info) (tasks (scheduler w)) -> definition_in_range info.
Proof.
  intros Htoday Hstrp Hmain Hr.
  apply (menu_loop_schedulable today int_of strip strptime_date abspath file_error
           Htoday Hstrp _ _ _ _ Hmain); [|done].
  by intros name info [].
Qed.

(** *** The branches that add a task *)

Lemma display_loop_eq start interval (l : list Z) w :
  (forall i, In i l -> Datetime.is_date start /\
                       Datetime.is_date (start + i * interval)) ->
  io_for_each l (fun i =>
    let# review_date :=
      method (lift (Datetime.date_plus start (i * interval))) in
    print ("  " ++ date_and_day review_date)) w =
  (Returned tt,
   {| scheduler := scheduler w;
      stdout := stdout w
                ++ map (fun i =>
                          Print ("  " ++ date_and_day (start + i * interval)))
                     l;
      stdin := stdin w; files := files w |}).
Proof.
  revert w. induction l as [|i l IH]; intros w Hl.
  - simpl. rewrite app_nil_r. by destruct w.
  - cbn [io_for_each map]. unfold io_bind at 1. unfold io_bind at 1.
    unfold method at 1, lift at 1.
    destruct (Hl i) as [Hs Hi]; [by left|].
    rewrite date_plus_Ok by done. rewrite print_eq.
    rewrite IH by (intros; apply Hl; by right).
    cbn [scheduler stdout stdin files]. by rewrite <- app_assoc.
Qed.

Lemma offsets_spec_in k n offset :
  In offset (offsets_spec k n) <-> exists i, 0 <= i < n /\ offset = i * k.
Proof.
  unfold offsets_spec. rewrite in_map_iff. split.
  - intros (i & <- & Hi%in_seq). exists (Z.of_nat i). split; [lia|done].
  - intros (i & Hi & ->). exists (Z.to_nat i). split; [f_equal; lia|].
    apply in_seq. lia.
Qed.

(** X18: choice 2, on a name, two numbers and a start date whose
    repetitions are all dates, calls [add_task_with_repetitions] and
    prints one line per repetition, for the date start + i * interval;
    each of these dates then lists the name. *)
Theorem choice_2_prints_the_dates_it_schedules
    (today : Z) (int_of : string -> option Z)
    (strptime_date : string -> option Z) (w : world)
    (name interval_line repetitions_line start_line : string)
    (rest : list string) (k n start : Z) :
  stdin w = name :: interval_line :: repetitions_line :: start_line :: rest ->
  int_of interval_line = Some k -> int_of repetitions_line = Some n ->
  (start_line = EmptyString /\ start = today \/
   start_line <> EmptyString /\ strptime_date start_line = Some start) ->
  Datetime.is_date start ->
  (forall i, 0 <= i < n -> Datetime.is_date (start + i * k)) ->
  exists s',
    choice_2 today int_of strptime_date w =
    (Returned tt,
     {| scheduler := s';
        stdout :=
          stdout w
          ++ [Prompt "Enter task/chapter name: ";
              Prompt "Enter interval between repetitions (in days): ";
              Prompt "Enter number of repetitions: ";
              Prompt "Start date (YYYY-MM-DD) or leave blank for today: ";
              Print (nl ++ "Task '" ++ name ++ "' scheduled for:")]
          ++ map (fun i => Print ("  " ++ date_and_day (start + i * k)))
               (seqZ 0 n);
        stdin := rest; files := files w |}) /\
    add_task_with_repetitions today name k n (Some start) (scheduler w)
      = (Ok tt, s') /\
    (forall i, 0 <= i < n ->
       returns_with (get_tasks_for_date (start + i * k)) s' name).
Proof.
  intros Hin Hk Hn Hstart Hdate Hall.
  pose proof (add_task_eq today name (offsets_spec k n) (Some start)
                (scheduler w)) as Hadd. simpl in Hadd.
  assert (snd (loop_dates (fun _ => true) start (offsets_spec k n)) = Ok tt)
    as Hret.
  { apply loop_dates_returns. intros o (i & Hi & ->)%offsets_spec_in.
    exists (start + i * k). apply date_plus_Ok; auto. }
  rewrite Hret in Hadd.
  assert (add_task_with_repetitions today name k n (Some start) (scheduler w)
          = add_task today name (offsets_spec k n) (Some start) (scheduler w))
    as Hrep.
  { unfold add_task_with_repetitions. by rewrite repetition_loop_offsets. }
  eexists. split; [|split; [by rewrite Hrep, Hadd|]].
  - unfold choice_2, io_bind at 1, input at 1. rewrite Hin.
    unfold except_ValueError.
    unfold io_bind at 1, input at 1. cbn [stdin].
    unfold io_bind at 1, py_int at 1, io_lift at 1. rewrite Hk.
    unfold io_bind at 1, input at 1. cbn [stdin].
    unfold io_bind at 1, py_int at 1, io_lift at 1. rewrite Hn.
    unfold io_bind at 1, read_start_date at 1, io_bind at 1, input at 1.
    cbn [stdin].
    assert (match start_line with
            | EmptyString => io_ret today
            | String _ _ => py_strptime_date strptime_date start_line
            end = io_ret start) as ->.
    { destruct Hstart as [[-> ->]|[Hne Hs]]; [done|].
      destruct start_line; [done|].
      unfold py_strptime_date. by rewrite Hs. }
    unfold io_ret at 1.
    unfold io_bind at 1, method at 1. cbn [scheduler]. rewrite Hrep, Hadd.
    unfold io_bind at 1. rewrite print_eq.
    rewrite display_loop_eq.
    2:{ intros i Hi%list_elem_of_In%elem_of_seqZ. split; [done|].
        apply Hall. lia. }
    cbn [scheduler stdout stdin files]. by rewrite <- !app_assoc.
  - intros i Hi. apply returns_with_get_tasks_for_date. simpl.
    apply elem_of_dd_get_append_entries. right.
    apply in_pair_map. split; [done|].
    apply (loop_dates_complete _ _ _ (i * k)); auto.
    + apply offsets_spec_in. eauto.
    + apply date_plus_Ok; auto.
Qed.

Section InvalidInput.

Variable today : Z.
Variable int_of : string -> option Z.
Variable strip : string -> string.
Variable strptime_date : string -> option Z.

Lemma parse_intervals_fails pieces w :
  (exists piece, In piece pieces /\ int_of (strip piece) = None) ->
  parse_intervals int_of strip pieces w = (Raised Py.ValueError, w).
Proof.
  induction pieces as [|x pieces IH]; intros (piece & Hin & Hbad).
  - destruct Hin.
  - cbn [parse_intervals]. unfold io_bind at 1, py_int at 1, io_lift at 1.
    destruct (int_of (strip x)) as [n|] eqn:Hx; [|done].
    unfold io_bind at 1. rewrite IH; [done|].
    exists piece. split; [|done]. destruct Hin as [->|Hin]; [congruence|done].
Qed.

End InvalidInput.

(** X19: in choice 1, when a piece of the intervals line is not a number,
    the message for invalid input is printed, the scheduler is unchanged
    and the start date is not asked for. *)
Theorem choice_1_adds_nothing_when_an_interval_is_not_a_number
    (today : Z) (int_of : string -> option Z) (strip : string -> string)
    (strptime_date : string -> option Z) (w : world)
    (name intervals_line : string) (rest : list string) :
  stdin w = name :: intervals_line :: rest ->
  (exists piece,
     In piece (split_comma intervals_line) /\ int_of (strip piece) = None) ->
  choice_1 today int_of strip strptime_date w =
  (Returned tt,
   {| scheduler := scheduler w;
      stdout :=
        stdout w
        ++ [Prompt "Enter task/chapter name: ";
            Print "Enter revision intervals in days (comma-separated)";
            Print "Example: 1,3,7,14,30 (review after 1 day, 3 days, etc.)";
            Prompt "Intervals: ";
            Print "Invalid input. Please enter valid numbers for intervals."];
      stdin := rest; files := files w |}).
Proof.
  intros Hin Hbad.
  unfold choice_1, io_bind at 1, input at 1. rewrite Hin.
  unfold io_bind at 1. rewrite print_eq.
  unfold io_bind at 1. rewrite print_eq.
  unfold io_bind at 1, input at 1. cbn [stdin].
  unfold except_ValueError, io_bind at 1.
  rewrite parse_intervals_fails by done.
  cbn [Py.is_ValueError]. rewrite print_eq.
  cbn [scheduler stdout stdin files]. by rewrite <- !app_assoc.
Qed.

(** * The console on a sample session *)

Lemma year_2024_in_range : Datetime.MINYEAR <= 2024 <= Datetime.MAXYEAR.
Proof. unfold Datetime.MINYEAR, Datetime.MAXYEAR. lia. Qed.

Lemma two_tasks_schedulable name info :
  In (name, info) (tasks two_tasks) -> definition_in_range info.
Proof.
  assert (tasks two_tasks =
          [("B"%string,
            {| Task.intervals := [7; 1]; Task.start_date := 738886 |});
           ("A"%string,
            {| Task.intervals := [1; 200]; Task.start_date := 738886 |})])
    as -> by (by vm_compute).
  intros [[= <- <-]|[[= <- <-]|[]]]; split;
    [|intros o [<-|[<-|[]]]| |intros o [<-|[<-|[]]]];
    vm_compute; split; discriminate.
Qed.

Lemma print_monthly_calendar_lists_the_tasks_of_the_month_witness :
  exists grid dates,
    print_monthly_calendar d_2024_01_01 (Some 2024) (Some 1) (sample_world [])
    = (Returned tt,
       {| scheduler := scheduler (sample_world []);
          stdout := stdout (sample_world []) ++ grid
                    ++ [Print (nl ++ "Tasks this month:")]
                    ++ map (fun date =>
                              Print (line_of_record
                                       (record_of (scheduler (sample_world []))
                                          date))) dates;
          stdin := stdin (sample_world []);
          files := files (sample_world []) |}) /\
    StronglySorted Z.lt dates /\
    (forall date,
       In date dates <->
       (exists day, 1 <= day <= Datetime._days_in_month 2024 1 /\
                    date = Datetime._ymd2ord 2024 1 day) /\
       exists name,
         returns_with (get_tasks_for_date date) (scheduler (sample_world []))
           name).
Proof.
  apply (print_monthly_calendar_lists_the_tasks_of_the_month
           d_2024_01_01 2024 1 (sample_world [])).
  - apply year_2024_in_range.
  - lia.
Defined.

Lemma main_changes_the_scheduler_by_method_calls_only_witness :
  exists r w,
    main d_2024_01_01 sample_int (fun s => s) sample_strptime sample_abspath
      sample_file_error sample_session = Some (r, w) /\
    reachable (scheduler w) /\ stdin w `suffix_of` sample_session.
Proof.
  destruct (main d_2024_01_01 sample_int (fun s => s) sample_strptime
              sample_abspath
      sample_file_error sample_session) as [[r w]|] eqn:Hmain.
  - exists r, w. split; [done|].
    exact (main_changes_the_scheduler_by_method_calls_only _ _ _ _ _ _ _ _ _
             Hmain).
  - vm_compute in Hmain. discriminate.
Defined.

Lemma print_monthly_calendar_grid_follows_the_weekdays_witness :
  exists weeks rest,
    stdout (snd (print_monthly_calendar d_2024_01_01 (Some 2024) (Some 1)
                   (sample_world []))) =
      stdout (sample_world [])
      ++ [Print (nl ++ CalendarMonth.month_name 1 ++ " " ++ pretty 2024);
          Print "Mon Tue Wed Thu Fri Sat Sun"]
      ++ map (fun week =>
                Print (week_row (scheduler (sample_world [])) 2024 1 week))
           weeks
      ++ rest /\
    Forall (fun week =>
              length week = 7%nat /\
              String.length
                (week_row (scheduler (sample_world [])) 2024 1 week)
              = 28%nat) weeks /\
    filter (fun day => day <> 0) (concat weeks) =
      seqZ 1 (Datetime._days_in_month 2024 1) /\
    (forall i j week day,
       weeks !! i = Some week -> week !! j = Some day -> day <> 0 ->
       Datetime.weekday (Datetime._ymd2ord 2024 1 day) = Z.of_nat j /\
       day_cell (scheduler (sample_world [])) 2024 1 day =
         (CalendarMonth.format_2d day
          ++ if decide (has_tasks (scheduler (sample_world []))
                          (Datetime._ymd2ord 2024 1 day))
             then "* " else "  ")%string).
Proof.
  apply (print_monthly_calendar_grid_follows_the_weekdays
           d_2024_01_01 2024 1 (sample_world [])).
  - apply year_2024_in_range.
  - lia.
Defined.

Lemma print_monthly_calendar_rejects_a_month_out_of_range_witness :
  print_monthly_calendar d_2024_01_01 (Some 2024) (Some 13) (sample_world [])
  = (Raised Py.IllegalMonthError, sample_world []).
Proof.
  apply (print_monthly_calendar_rejects_a_month_out_of_range
           d_2024_01_01 2024 13 (sample_world [])).
  lia.
Defined.


Lemma print_monthly_calendar_needs_both_year_and_month_witness :
  print_monthly_calendar d_2024_01_01 (Some 2030) None (sample_world []) =
    print_monthly_calendar d_2024_01_01
      (Some (CalendarMonth.year_of d_2024_01_01))
      (Some (CalendarMonth.month_of d_2024_01_01)) (sample_world []) /\
  fst (print_monthly_calendar d_2024_01_01 (Some 2030) None (sample_world []))
  = Returned tt.
Proof.
  apply (print_monthly_calendar_needs_both_year_and_month
           d_2024_01_01 (Some 2030) None (sample_world [])).
  - by right.
  - vm_compute. split; discriminate.
Defined.

Lemma print_monthly_calendar_lists_the_export_records_of_the_month_witness :
  exists dates grid,
    export_to_csv "schedule.csv" (scheduler (sample_world [])) =
      (Ok ("schedule.csv"%string,
           ["Date"; "Day"; "Tasks"]%string
             :: map (record_of (scheduler (sample_world []))) dates),
       scheduler (sample_world [])) /\
    stdout (snd (print_monthly_calendar d_2024_01_01 (Some 2024) (Some 1)
                   (sample_world []))) =
      stdout (sample_world []) ++ grid
      ++ [Print (nl ++ "Tasks this month:")]
      ++ map (fun date =>
                Print (line_of_record
                         (record_of (scheduler (sample_world [])) date)))
           (filter (fun date => date ∈ month_dates 2024 1) dates).
Proof.
  apply (print_monthly_calendar_lists_the_export_records_of_the_month
           d_2024_01_01 2024 1 "schedule.csv" (sample_world [])).
  - eexists. reflexivity.
  - apply year_2024_in_range.
  - lia.
Defined.

Lemma choice_5_exports_the_next_90_days_and_forgets_the_rest_witness :
  exists s' dates,
    choice_5 d_2024_01_01 sample_abspath sample_file_error
      (sample_world [""; "6"]%string) =
    match sample_file_error (export_name "")
            (["Date"; "Day"; "Tasks"]%string :: map (record_of s') dates)
    with
    | None =>
        (Returned tt,
         {| scheduler := s';
            stdout := stdout (sample_world [""; "6"]%string)
                      ++ [Prompt "Enter filename (default: schedule.csv): ";
                          Print ("Schedule exported to "
                                 ++ sample_abspath (export_name ""))];
            stdin := ["6"%string];
            files := files (sample_world [""; "6"]%string)
                     ++ [(export_name "",
                          ["Date"; "Day"; "Tasks"]%string
                            :: map (record_of s') dates)] |})
    | Some e =>
        (Raised e,
         {| scheduler := s';
            stdout := stdout (sample_world [""; "6"]%string)
                      ++ [Prompt "Enter filename (default: schedule.csv): "];
            stdin := ["6"%string];
            files := files (sample_world [""; "6"]%string) |})
    end /\
    tasks s' = tasks (scheduler (sample_world [""; "6"]%string)) /\
    StronglySorted Z.lt dates /\
    (forall date,
       In date dates <->
       d_2024_01_01 <= date <= d_2024_01_01 + 90 /\
       exists name info offset,
         In (name, info) (tasks (scheduler (sample_world [""; "6"]%string))) /\
         In offset (Task.intervals info) /\
         Task.start_date info + offset = date) /\
    (forall date, ~ d_2024_01_01 <= date <= d_2024_01_01 + 90 ->
       dd_get date (schedule s') = []).
Proof.
  apply (choice_5_exports_the_next_90_days_and_forgets_the_rest
           d_2024_01_01 sample_abspath sample_file_error
           (sample_world [""; "6"]%string) ""%string ["6"%string]).
  - reflexivity.
  - vm_compute. split; discriminate.
  - vm_compute. split; discriminate.
  - apply two_tasks_schedulable.
Defined.

(** The file system's exception leaves [main]: the line after it is not
    read. *)
Example main_dies_on_a_file_that_cannot_be_created :
  exists w,
    main d_2024_01_01 sample_int (fun s => s) sample_strptime sample_abspath
      sample_file_error lost_export = Some (Raised Py.OSError, w) /\
    stdin w = ["6"%string] /\ files w = [].
Proof. eexists. split; [by vm_compute|]. by split. Qed.

Lemma main_stores_schedulable_definitions_unless_OverflowError_witness :
  exists r w,
    main d_2024_01_01 sample_int (fun s => s) sample_strptime sample_abspath
      sample_file_error sample_session = Some (r, w) /\
    r <> Raised Py.OverflowError /\
    forall name info,
      In (name, info) (tasks (scheduler w)) -> definition_in_range info.
Proof.
  destruct (main d_2024_01_01 sample_int (fun s => s) sample_strptime
              sample_abspath
      sample_file_error sample_session) as [[r w]|] eqn:Hmain;
    [|vm_compute in Hmain; discriminate].
  assert (r = Returned tt) as ->.
  { pose proof Hmain as Hrun. vm_compute in Hrun. by injection Hrun as <- _. }
  exists (Returned tt), w. split; [done|]. split; [done|].
  refine (main_stores_schedulable_definitions_unless_OverflowError
            d_2024_01_01 sample_int (fun s => s) sample_strptime
            sample_abspath
      sample_file_error sample_session (Returned tt) w _ _ Hmain _).
  - vm_compute. split; discriminate.
  - intros s d [=].
  - done.
Defined.

Lemma choice_2_prints_the_dates_it_schedules_witness :
  exists s',
    choice_2 d_2024_01_01 sample_int sample_strptime
      (sample_world ["X"; "7"; "3"; ""; "6"]%string) =
    (Returned tt,
     {| scheduler := s';
        stdout :=
          stdout (sample_world ["X"; "7"; "3"; ""; "6"]%string)
          ++ [Prompt "Enter task/chapter name: ";
              Prompt "Enter interval between repetitions (in days): ";
              Prompt "Enter number of repetitions: ";
              Prompt "Start date (YYYY-MM-DD) or leave blank for today: ";
              Print (nl ++ "Task '" ++ "X" ++ "' scheduled for:")]
          ++ map (fun i =>
                    Print ("  " ++ date_and_day (d_2024_01_01 + i * 7)))
               (seqZ 0 3);
        stdin := ["6"%string];
        files := files (sample_world ["X"; "7"; "3"; ""; "6"]%string) |}) /\
    add_task_with_repetitions d_2024_01_01 "X" 7 3 (Some d_2024_01_01)
      (scheduler (sample_world ["X"; "7"; "3"; ""; "6"]%string))
      = (Ok tt, s') /\
    (forall i, 0 <= i < 3 ->
       returns_with (get_tasks_for_date (d_2024_01_01 + i * 7)) s' "X").
Proof.
  apply (choice_2_prints_the_dates_it_schedules d_2024_01_01 sample_int
           sample_strptime (sample_world ["X"; "7"; "3"; ""; "6"]%string)
           "X" "7" "3" "" ["6"%string] 7 3 d_2024_01_01).
  - reflexivity.
  - reflexivity.
  - reflexivity.
  - by left.
  - vm_compute. split; discriminate.
  - intros i Hi. unfold Datetime.is_date, Datetime._MAXORDINAL, d_2024_01_01.
    lia.
Defined.

Lemma choice_1_adds_nothing_when_an_interval_is_not_a_number_witness :
  choice_1 d_2024_01_01 sample_int (fun s => s) sample_strptime
    (sample_world ["Ch"; "1,x,3"; "6"]%string) =
  (Returned tt,
   {| scheduler := scheduler (sample_world ["Ch"; "1,x,3"; "6"]%string);
      stdout :=
        stdout (sample_world ["Ch"; "1,x,3"; "6"]%string)
        ++ [Prompt "Enter task/chapter name: ";
            Print "Enter revision intervals in days (comma-separated)";
            Print "Example: 1,3,7,14,30 (review after 1 day, 3 days, etc.)";
            Prompt "Intervals: ";
            Print "Invalid input. Please enter valid numbers for intervals."];
      stdin := ["6"%string];
      files := files (sample_world ["Ch"; "1,x,3"; "6"]%string) |}).
Proof.
  apply (choice_1_adds_nothing_when_an_interval_is_not_a_number
           d_2024_01_01 sample_int (fun s => s) sample_strptime
           (sample_world ["Ch"; "1,x,3"; "6"]%string) "Ch" "1,x,3"
           ["6"%string]).
  - reflexivity.
  - exists "x"%string. split; [|reflexivity].
    vm_compute. right. by left.
Defined.

(** * The branches of the menu *)

(** *** Choice 1: what was typed is what is stored *)

Lemma parse_intervals_returns int_of strip pieces (L : list Z) w :
  Forall2 (fun piece n => int_of (strip piece) = Some n) pieces L ->
  parse_intervals int_of strip pieces w = (Returned L, w).
Proof.
  induction 1 as [|piece n pieces L Hn _ IH]; [done|].
  cbn [parse_intervals]. unfold io_bind at 1, py_int at 1, io_lift at 1.
  rewrite Hn. unfold io_bind at 1. by rewrite IH.
Qed.

Lemma read_start_date_eq today strptime_date line rest w :
  stdin w = line :: rest ->
  read_start_date today strptime_date w =
  (match line_value strptime_date today line with
   | Some d => Returned d
   | None => Raised Py.ValueError
   end,
   {| scheduler := scheduler w;
      stdout := stdout w
                ++ [Prompt "Start date (YYYY-MM-DD) or leave blank for today: "];
      stdin := rest; files := files w |}).
Proof.
  intros Hin. unfold read_start_date, io_bind, input. rewrite Hin.
  destruct line as [|c line]; [done|].
  unfold py_strptime_date, io_lift, line_value.
  by destruct (strptime_date (String c line)).
Qed.

(** X20: in choice 1, when the pieces of the intervals line are numbers
    and the start date (today for a blank line) and every start date
    plus interval are dates, the task is added by [add_task] with these
    numbers in the order typed: the definition is stored, each of the
    dates lists the name, and the success message is printed. *)
Theorem choice_1_stores_and_schedules_what_was_typed
    (today : Z) (int_of : string -> option Z) (strip : string -> string)
    (strptime_date : string -> option Z) (w : world)
    (name intervals_line start_line : string) (rest : list string)
    (L : list Z) (start : Z) :
  stdin w = name :: intervals_line :: start_line :: rest ->
  reads_as int_of strip intervals_line L ->
  line_value strptime_date today start_line = Some start ->
  Datetime.is_date start ->
  (forall d, In d L -> Datetime.is_date (start + d)) ->
  exists s',
    choice_1 today int_of strip strptime_date w =
    (Returned tt,
     {| scheduler := s';
        stdout :=
          stdout w
          ++ [Prompt "Enter task/chapter name: ";
              Print "Enter revision intervals in days (comma-separated)";
              Print "Example: 1,3,7,14,30 (review after 1 day, 3 days, etc.)";
              Prompt "Intervals: ";
              Prompt "Start date (YYYY-MM-DD) or leave blank for today: ";
              Print ("Task '" ++ name ++ "' added successfully!")];
        stdin := rest; files := files w |}) /\
    add_task today name L (Some start) (scheduler w) = (Ok tt, s') /\
    dict_get name (tasks s') =
      Some {| Task.intervals := L; Task.start_date := start |} /\
    (forall d, In d L ->
       returns_with (get_tasks_for_date (start + d)) s' name).
Proof.
  intros Hin HL Hstart Hdate Hall.
  pose proof (add_task_eq today name L (Some start) (scheduler w)) as Hadd.
  simpl in Hadd.
  assert (snd (loop_dates (fun _ => true) start L) = Ok tt) as Hret.
  { apply loop_dates_returns. intros d Hd. exists (start + d).
    apply date_plus_Ok; auto. }
  rewrite Hret in Hadd.
  eexists. split; [|split; [exact Hadd|split]].
  - unfold choice_1, io_bind at 1, input at 1. rewrite Hin.
    unfold io_bind at 1. rewrite print_eq.
    unfold io_bind at 1. rewrite print_eq.
    unfold io_bind at 1, input at 1. cbn [stdin].
    unfold except_ValueError, io_bind at 1.
    rewrite (parse_intervals_returns _ _ _ L) by exact HL.
    unfold io_bind at 1.
    rewrite (read_start_date_eq _ _ start_line rest) by done. rewrite Hstart.
    unfold io_bind at 1, method at 1. cbn [scheduler]. rewrite Hadd.
    rewrite print_eq. cbn [scheduler stdout stdin files].
    by rewrite <- !app_assoc.
  - simpl. apply dict_get_set_eq.
  - intros d Hd. apply returns_with_get_tasks_for_date. simpl.
    apply elem_of_dd_get_append_entries. right.
    apply in_pair_map. split; [done|].
    apply (loop_dates_complete _ _ _ d); auto.
    apply date_plus_Ok; auto.
Qed.

(** X21: in choice 1, a start date that cannot be parsed is reported with
    the message about the intervals, although these were numbers; the
    scheduler is unchanged and the line is consumed. *)
Theorem choice_1_reports_a_bad_start_date_as_invalid_intervals
    (today : Z) (int_of : string -> option Z) (strip : string -> string)
    (strptime_date : string -> option Z) (w : world)
    (name intervals_line start_line : string) (rest : list string)
    (L : list Z) :
  stdin w = name :: intervals_line :: start_line :: rest ->
  reads_as int_of strip intervals_line L ->
  line_value strptime_date today start_line = None ->
  choice_1 today int_of strip strptime_date w =
  (Returned tt,
   {| scheduler := scheduler w;
      stdout :=
        stdout w
        ++ [Prompt "Enter task/chapter name: ";
            Print "Enter revision intervals in days (comma-separated)";
            Print "Example: 1,3,7,14,30 (review after 1 day, 3 days, etc.)";
            Prompt "Intervals: ";
            Prompt "Start date (YYYY-MM-DD) or leave blank for today: ";
            Print "Invalid input. Please enter valid numbers for intervals."];
      stdin := rest; files := files w |}).
Proof.
  intros Hin HL Hstart.
  unfold choice_1, io_bind at 1, input at 1. rewrite Hin.
  unfold io_bind at 1. rewrite print_eq.
  unfold io_bind at 1. rewrite print_eq.
  unfold io_bind at 1, input at 1. cbn [stdin].
  unfold except_ValueError, io_bind at 1.
  rewrite (parse_intervals_returns _ _ _ L) by exact HL.
  unfold io_bind at 1.
  rewrite (read_start_date_eq _ _ start_line rest) by done. rewrite Hstart.
  cbn [Py.is_ValueError]. rewrite print_eq.
  cbn [scheduler stdout stdin files]. by rewrite <- !app_assoc.
Qed.

(** *** Choice 3 *)

Lemma print_numbered_eq (tasks : list string) (i : Z) w :
  print_numbered i tasks w =
  (Returned tt,
   {| scheduler := scheduler w;
      stdout := stdout w
                ++ imap (fun j task =>
                           Print (pretty (Z.of_nat j + i) ++ ". " ++ task))
                     tasks;
      stdin := stdin w; files := files w |}).
Proof.
  revert i w. induction tasks as [|task tasks IH]; intros i w.
  - simpl. rewrite app_nil_r. by destruct w.
  - cbn [print_numbered imap]. unfold io_bind at 1. rewrite print_eq, IH.
    cbn [scheduler stdout stdin files]. rewrite <- app_assoc. simpl.
    do 4 f_equal. apply imap_ext. intros j task' _. simpl.
    do 3 f_equal. lia.
Qed.

(** X22: choice 3 prints, for the date typed (today for a blank line),
    what [get_tasks_for_date] returns: a heading with the date and its
    weekday, then the tasks numbered from 1 in the order of the list, or
    one line saying that there are none; the scheduler is unchanged. *)
Theorem choice_3_numbers_the_tasks_of_the_date
    (today : Z) (strptime_date : string -> option Z) (w : world)
    (date_line : string) (rest : list string) (date : Z) :
  stdin w = date_line :: rest ->
  line_value strptime_date today date_line = Some date ->
  exists tasks,
    get_tasks_for_date date (scheduler w) = (Ok tasks, scheduler w) /\
    choice_3 today strptime_date w =
    (Returned tt,
     {| scheduler := scheduler w;
        stdout :=
          stdout w
          ++ [Prompt "Enter date (YYYY-MM-DD) or leave blank for today: ";
              Print (nl ++ "Tasks for " ++ date_and_day date ++ ":")]
          ++ match tasks with
             | [] => [Print "No tasks scheduled for this date."]
             | _ => numbered_lines tasks
             end;
        stdin := rest; files := files w |}).
Proof.
  intros Hin Hdate. exists (dd_get date (schedule (scheduler w))).
  split; [done|].
  unfold choice_3, io_bind at 1, input at 1. rewrite Hin.
  unfold except_ValueError, io_bind at 1.
  assert (match date_line with
          | EmptyString => io_ret today
          | String _ _ => py_strptime_date strptime_date date_line
          end = io_ret date) as ->.
  { destruct date_line; simpl in Hdate; [by injection Hdate as ->|].
    unfold py_strptime_date. by rewrite Hdate. }
  unfold io_ret at 1. unfold io_bind at 1, method at 1.
  cbn [scheduler get_tasks_for_date fst snd].
  unfold get_tasks_for_date. cbn [scheduler stdout stdin files].
  unfold io_bind at 1. rewrite print_eq.
  destruct (dd_get date (schedule (scheduler w))) as [|task tasks].
  - rewrite print_eq. cbn [scheduler stdout stdin files].
    by rewrite <- !app_assoc.
  - rewrite print_numbered_eq. cbn [scheduler stdout stdin files].
    by rewrite <- !app_assoc.
Qed.

(** *** Choice 4: what the calendar rejects *)

Lemma print_monthly_calendar_rejected today year month w :
  ~ (Datetime.MINYEAR <= year <= Datetime.MAXYEAR /\ 1 <= month <= 12) ->
  print_monthly_calendar today (Some year) (Some month) w =
  (Raised (if decide (1 <= month <= 12)
           then if CalendarMonth.fits_int year
                then Py.ValueError else Py.OverflowError
           else Py.IllegalMonthError),
   {| scheduler := scheduler w;
      stdout := stdout w
                ++ (if decide (1 <= month <= 12)
                    then [Print (nl ++ CalendarMonth.month_name month ++ " "
                                 ++ pretty year);
                          Print "Mon Tue Wed Thu Fri Sat Sun"]
                    else []);
      stdin := stdin w; files := files w |}).
Proof.
  intros Hbad. destruct (decide (1 <= month <= 12)) as [Hm|Hm].
  - assert (~ Datetime.MINYEAR <= year <= Datetime.MAXYEAR) as Hy by tauto.
    unfold print_monthly_calendar.
    destruct (first_week_of_month year month Hm)
      as (week & weeks & Hcal & Hweek & Hday).
    rewrite Hcal. unfold io_bind at 1, io_lift at 1.
    unfold io_bind at 1. rewrite print_eq.
    unfold io_bind at 1. rewrite print_eq.
    unfold io_bind at 1. cbn [io_for_each]. unfold io_bind at 1.
    unfold io_bind at 1.
    rewrite week_loop_invalid_year by done.
    simpl. by rewrite <- app_assoc.
  - unfold print_monthly_calendar, CalendarMonth.monthcalendar,
      CalendarMonth.itermonthdays.
    rewrite monthrange_invalid by done.
    unfold io_bind, io_lift. rewrite app_nil_r. by destruct w.
Qed.

(** X23: choice 4 catches what the calendar rejects with a
    [ValueError]: for a month outside 1..12, or a year outside 1..9999
    that fits a C [int], it prints the message for invalid input and
    returns; when only the year is wrong, the two heading lines of the
    calendar are printed before the message.  A year that does not fit a
    C [int], with a month of the calendar, is rejected with
    [OverflowError], which the branch does not catch: it escapes after
    the heading lines, and no message is printed. *)
Theorem choice_4_reports_what_the_calendar_rejects
    (today : Z) (int_of : string -> option Z) (w : world)
    (year_line month_line : string) (rest : list string) (year month : Z) :
  stdin w = year_line :: month_line :: rest ->
  line_value int_of (CalendarMonth.year_of today) year_line = Some year ->
  line_value int_of (CalendarMonth.month_of today) month_line = Some month ->
  ~ (Datetime.MINYEAR <= year <= Datetime.MAXYEAR /\ 1 <= month <= 12) ->
  choice_4 today int_of w =
  (if decide (1 <= month <= 12 /\ CalendarMonth.fits_int year = false)
   then Raised Py.OverflowError else Returned tt,
   {| scheduler := scheduler w;
      stdout :=
        stdout w
        ++ [Prompt "Enter year (YYYY) or leave blank for current year: ";
            Prompt "Enter month (1-12) or leave blank for current month: "]
        ++ (if decide (1 <= month <= 12)
            then [Print (nl ++ CalendarMonth.month_name month ++ " "
                         ++ pretty year);
                  Print "Mon Tue Wed Thu Fri Sat Sun"]
            else [])
        ++ (if decide (1 <= month <= 12
                       /\ CalendarMonth.fits_int year = false)
            then []
            else [Print "Invalid input. Please enter valid year and month."]);
      stdin := rest; files := files w |}).
Proof.
  intros Hin Hyear Hmonth Hbad.
  unfold choice_4, except_ValueError.
  unfold io_bind at 1, input at 1. rewrite Hin.
  unfold io_bind at 1, input at 1. cbn [stdin].
  assert (match year_line with
          | EmptyString => io_ret (CalendarMonth.year_of today)
          | String _ _ => py_int int_of year_line
          end = io_ret year) as ->.
  { destruct year_line; simpl in Hyear; [by injection Hyear as ->|].
    unfold py_int. by rewrite Hyear. }
  assert (match month_line with
          | EmptyString => io_ret (CalendarMonth.month_of today)
          | String _ _ => py_int int_of month_line
          end = io_ret month) as ->.
  { destruct month_line; simpl in Hmonth; [by injection Hmonth as ->|].
    unfold py_int. by rewrite Hmonth. }
  unfold io_bind at 1, io_ret at 1. unfold io_bind at 1, io_ret at 1.
  rewrite print_monthly_calendar_rejected by done.
  destruct (decide (1 <= month <= 12 /\ CalendarMonth.fits_int year = false))
    as [[Hm Hfits]|Hcaught].
  - rewrite decide_True, Hfits by done.
    cbn [Py.is_ValueError scheduler stdout stdin files].
    by rewrite <- !app_assoc, app_nil_r.
  - destruct (decide (1 <= month <= 12)) as [Hm|Hm].
    + destruct (CalendarMonth.fits_int year); [|tauto].
      cbn [Py.is_ValueError]. rewrite print_eq.
      cbn [scheduler stdout stdin files]. by rewrite <- !app_assoc.
    + cbn [Py.is_ValueError]. rewrite print_eq.
      cbn [scheduler stdout stdin files]. by rewrite <- !app_assoc.
Qed.

(** *** The branches on sample input *)

Lemma choice_1_stores_and_schedules_what_was_typed_witness :
  exists s',
    choice_1 d_2024_01_01 sample_int (fun s => s) sample_strptime
      (sample_world ["Ch"; "1,3,7"; ""; "6"]%string) =
    (Returned tt,
     {| scheduler := s';
        stdout :=
          stdout (sample_world ["Ch"; "1,3,7"; ""; "6"]%string)
          ++ [Prompt "Enter task/chapter name: ";
              Print "Enter revision intervals in days (comma-separated)";
              Print "Example: 1,3,7,14,30 (review after 1 day, 3 days, etc.)";
              Prompt "Intervals: ";
              Prompt "Start date (YYYY-MM-DD) or leave blank for today: ";
              Print ("Task '" ++ "Ch" ++ "' added successfully!")];
        stdin := ["6"%string];
        files := files (sample_world ["Ch"; "1,3,7"; ""; "6"]%string) |}) /\
    add_task d_2024_01_01 "Ch" [1; 3; 7] (Some d_2024_01_01)
      (scheduler (sample_world ["Ch"; "1,3,7"; ""; "6"]%string))
      = (Ok tt, s') /\
    dict_get "Ch" (tasks s') =
      Some {| Task.intervals := [1; 3; 7];
              Task.start_date := d_2024_01_01 |} /\
    (forall d, In d [1; 3; 7] ->
       returns_with (get_tasks_for_date (d_2024_01_01 + d)) s' "Ch").
Proof.
  apply (choice_1_stores_and_schedules_what_was_typed d_2024_01_01
           sample_int (fun s => s) sample_strptime
           (sample_world ["Ch"; "1,3,7"; ""; "6"]%string)
           "Ch" "1,3,7" "" ["6"%string] [1; 3; 7] d_2024_01_01).
  - reflexivity.
  - unfold reads_as. vm_compute split_comma.
    repeat constructor.
  - reflexivity.
  - vm_compute. split; discriminate.
  - intros d [<-|[<-|[<-|[]]]]; vm_compute; split; discriminate.
Defined.

Lemma choice_1_reports_a_bad_start_date_as_invalid_intervals_witness :
  choice_1 d_2024_01_01 sample_int (fun s => s) sample_strptime
    (sample_world ["Ch"; "1,3,7"; "tomorrow"; "6"]%string) =
  (Returned tt,
   {| scheduler :=
        scheduler (sample_world ["Ch"; "1,3,7"; "tomorrow"; "6"]%string);
      stdout :=
        stdout (sample_world ["Ch"; "1,3,7"; "tomorrow"; "6"]%string)
        ++ [Prompt "Enter task/chapter name: ";
            Print "Enter revision intervals in days (comma-separated)";
            Print "Example: 1,3,7,14,30 (review after 1 day, 3 days, etc.)";
            Prompt "Intervals: ";
            Prompt "Start date (YYYY-MM-DD) or leave blank for today: ";
            Print "Invalid input. Please enter valid numbers for intervals."];
      stdin := ["6"%string];
      files :=
        files (sample_world ["Ch"; "1,3,7"; "tomorrow"; "6"]%string) |}).
Proof.
  apply (choice_1_reports_a_bad_start_date_as_invalid_intervals d_2024_01_01
           sample_int (fun s => s) sample_strptime
           (sample_world ["Ch"; "1,3,7"; "tomorrow"; "6"]%string)
           "Ch" "1,3,7" "tomorrow" ["6"%string] [1; 3; 7]).
  - reflexivity.
  - unfold reads_as. vm_compute split_comma.
    repeat constructor.
  - reflexivity.
Defined.

Lemma choice_3_numbers_the_tasks_of_the_date_witness :
  exists tasks,
    get_tasks_for_date d_2024_01_01 (scheduler (sample_world [""; "6"]%string))
      = (Ok tasks, scheduler (sample_world [""; "6"]%string)) /\
    choice_3 d_2024_01_01 sample_strptime (sample_world [""; "6"]%string) =
    (Returned tt,
     {| scheduler := scheduler (sample_world [""; "6"]%string);
        stdout :=
          stdout (sample_world [""; "6"]%string)
          ++ [Prompt "Enter date (YYYY-MM-DD) or leave blank for today: ";
              Print (nl ++ "Tasks for " ++ date_and_day d_2024_01_01 ++ ":")]
          ++ match tasks with
             | [] => [Print "No tasks scheduled for this date."]
             | _ => numbered_lines tasks
             end;
        stdin := ["6"%string];
        files := files (sample_world [""; "6"]%string) |}).
Proof.
  apply (choice_3_numbers_the_tasks_of_the_date d_2024_01_01 sample_strptime
           (sample_world [""; "6"]%string) "" ["6"%string] d_2024_01_01).
  - reflexivity.
  - reflexivity.
Defined.

Lemma choice_4_reports_what_the_calendar_rejects_witness :
  choice_4 d_2024_01_01 sample_int (sample_world ["0"; ""; "6"]%string) =
  (if decide (1 <= 1 <= 12 /\ CalendarMonth.fits_int 0 = false)
   then Raised Py.OverflowError else Returned tt,
   {| scheduler := scheduler (sample_world ["0"; ""; "6"]%string);
      stdout :=
        stdout (sample_world ["0"; ""; "6"]%string)
        ++ [Prompt "Enter year (YYYY) or leave blank for current year: ";
            Prompt "Enter month (1-12) or leave blank for current month: "]
        ++ (if decide (1 <= 1 <= 12)
            then [Print (nl ++ CalendarMonth.month_name 1 ++ " " ++ pretty 0);
                  Print "Mon Tue Wed Thu Fri Sat Sun"]
            else [])
        ++ (if decide (1 <= 1 <= 12 /\ CalendarMonth.fits_int 0 = false)
            then []
            else [Print "Invalid input. Please enter valid year and month."]);
      stdin := ["6"%string];
      files := files (sample_world ["0"; ""; "6"]%string) |}) /\
  fst (choice_4 d_2024_01_01 sample_int
         (sample_world ["2147483648"; "2"; "6"]%string))
  = Raised Py.OverflowError.
Proof.
  split.
  - apply (choice_4_reports_what_the_calendar_rejects d_2024_01_01
             sample_int (sample_world ["0"; ""; "6"]%string) "0" ""
             ["6"%string] 0 1).
    + reflexivity.
    + reflexivity.
    + vm_compute. reflexivity.
    + unfold Datetime.MINYEAR. lia.
  - rewrite (choice_4_reports_what_the_calendar_rejects d_2024_01_01
               sample_int (sample_world ["2147483648"; "2"; "6"]%string)
               "2147483648" "2" ["6"%string] 2147483648 2).
    + reflexivity.
    + reflexivity.
    + vm_compute. reflexivity.
    + vm_compute. reflexivity.
    + unfold Datetime.MAXYEAR. lia.
Defined.
